(** * The gCTS repository proxy of sapcli ([sap/rest/gcts.py])

    A shallow embedding of the error normaliser, the configuration
    adapters, the [Repository] proxy with its lazily fetched cache and of
    [simple_clone], followed by the properties of the specification that
    were checked against them.  The other functions of the module and the
    commands of [sap/cli/gcts.py] that write to the console follow, with
    properties read off the code.  The commands that run under
    [ConsoleHeartBeat] and the command that prints the response of
    [set_url] are left out.

    Python values are the values a JSON document parses to.  Numbers are
    the integers (the repository payloads carry no fractional numbers) and
    a character is a code point below 256. *)

From Stdlib Require Import String Ascii List ZArith Bool Lia DecimalString.
Import ListNotations.
Set Warnings "-register-all".
Open Scope list_scope.
Open Scope string_scope.

(** ** Python values *)

Module Py.

Inductive value : Type :=
| VNone
| VBool (b : bool)
| VInt (z : Z)
| VStr (s : string)
| VList (l : list value)
| VDict (d : list (value * value)).

(** A [dict] keeps its items in insertion order. *)
Definition dict := list (value * value).

Definition hashable (v : value) : bool :=
  match v with
  | VList _ | VDict _ => false
  | _ => true
  end.

(** [==] on hashable values: [True == 1] and [False == 0] hold, values of
    different kinds are otherwise different. *)
Definition key_eqb (a b : value) : bool :=
  match a, b with
  | VNone, VNone => true
  | VBool x, VBool y => Bool.eqb x y
  | VInt x, VInt y => Z.eqb x y
  | VBool x, VInt y => Z.eqb (Z.b2z x) y
  | VInt x, VBool y => Z.eqb x (Z.b2z y)
  | VStr x, VStr y => String.eqb x y
  | _, _ => false
  end.

(** [v == s] for a string [s]. *)
Definition eq_str (v : value) (s : string) : bool :=
  match v with
  | VStr t => String.eqb t s
  | _ => false
  end.

Definition truthy (v : value) : bool :=
  match v with
  | VNone => false
  | VBool b => b
  | VInt z => negb (Z.eqb z 0)
  | VStr s => match s with EmptyString => false | String _ _ => true end
  | VList l => match l with [] => false | _ => true end
  | VDict d => match d with [] => false | _ => true end
  end.

Definition is_None (v : value) : bool :=
  match v with VNone => true | _ => false end.

(** *** Dictionaries *)

Fixpoint lookup (k : value) (d : dict) : option value :=
  match d with
  | [] => None
  | (k', v) :: d' => if key_eqb k' k then Some v else lookup k d'
  end.

(** [d[k] = v]: an existing key keeps its place, a new one goes last. *)
Fixpoint set (d : dict) (k v : value) : dict :=
  match d with
  | [] => [(k, v)]
  | (k', v') :: d' =>
      if key_eqb k' k then (k', v) :: d' else (k', v') :: set d' k v
  end.

(** [d.update(other)] for a dictionary [other]. *)
Definition update_dict (d other : dict) : dict :=
  fold_left (fun acc kv => set acc (fst kv) (snd kv)) other d.

(** *** Strings *)

Definition chars (s : string) : list value :=
  map (fun c => VStr (String c EmptyString)) (list_ascii_of_string s).

(** [sub in s] *)
Fixpoint contains (sub s : string) : bool :=
  String.prefix sub s ||
  match s with
  | EmptyString => false
  | String _ s' => contains sub s'
  end.

(** [s.endswith(suffix)] *)
Fixpoint endswith (s suffix : string) : bool :=
  String.eqb s suffix ||
  match s with
  | EmptyString => false
  | String _ s' => endswith s' suffix
  end.

Fixpoint join (sep : string) (l : list string) : string :=
  match l with
  | [] => EmptyString
  | [x] => x
  | x :: l' => x ++ sep ++ join sep l'
  end.

(** *** [str()] and [repr()], used by formatted strings *)

Definition hex_digit (n : N) : ascii :=
  match String.get (N.to_nat n) "0123456789abcdef" with
  | Some c => c
  | None => "0"%char
  end.

Definition printable (n : N) : bool :=
  negb ((n <? 32) || ((127 <=? n) && (n <=? 160)) || (n =? 173))%N.

Definition double_quote : ascii := ascii_of_nat 34.
Definition single_quote : ascii := ascii_of_nat 39.
Definition backslash : ascii := ascii_of_nat 92.

Definition repr_char (quote c : ascii) : string :=
  let n := N_of_ascii c in
  if Ascii.eqb c quote then String backslash (String c EmptyString)
  else if Ascii.eqb c backslash then String backslash (String backslash EmptyString)
  else if (n =? 9)%N then String backslash "t"
  else if (n =? 10)%N then String backslash "n"
  else if (n =? 13)%N then String backslash "r"
  else if printable n then String c EmptyString
  else String backslash
         (String "x" (String (hex_digit (n / 16)) (String (hex_digit (n mod 16)) EmptyString))).

Definition repr_str (s : string) : string :=
  let has c := existsb (Ascii.eqb c) (list_ascii_of_string s) in
  let quote :=
    if has single_quote && negb (has double_quote) then double_quote else single_quote in
  String quote
    (String.concat EmptyString (map (repr_char quote) (list_ascii_of_string s))
     ++ String quote EmptyString).

Fixpoint repr (v : value) : string :=
  match v with
  | VNone => "None"
  | VBool true => "True"
  | VBool false => "False"
  | VInt z => NilZero.string_of_int (Z.to_int z)
  | VStr s => repr_str s
  | VList l => "[" ++ join ", " (map repr l) ++ "]"
  | VDict d =>
      "{" ++ join ", " (map (fun kv => match kv with
                                       | (k, x) => repr k ++ ": " ++ repr x
                                       end) d) ++ "}"
  end.

(** [str(v)], the rendering of [v] inside an f-string. *)
Definition str (v : value) : string :=
  match v with
  | VStr s => s
  | _ => repr v
  end.

End Py.

Import Py.

(** ** Exceptions and results *)

(** The part of an HTTP response that the proxy reads: the header mapping
    through its [get], and what [json()] parses ([None]: the body is no
    JSON document and [json()] raises). *)
Record Response : Type := {
  headers : string -> option string;
  json_body : option value
}.

Inductive exn : Type :=
| HTTPRequestError (response : Response)
| GCTSRequestError (messages : value)
| GCTSRepoAlreadyExistsError (messages : value)
| GCTSRepoNotExistsError (messages : value)
| KeyError (key : value)
| TypeError
| AttributeError
| IndexError
| ValueError
| OtherError (what : string).

Inductive res (A : Type) : Type :=
| Ok (a : A)
| Raise (e : exn).

Arguments Ok {A} a.
Arguments Raise {A} e.

Definition bindR {A B : Type} (c : res A) (k : A -> res B) : res B :=
  match c with
  | Ok a => k a
  | Raise e => Raise e
  end.

Declare Scope res_scope.
Delimit Scope res_scope with res.
Notation "x <~ c ;; k" := (bindR c (fun x => k))
  (at level 61, c at next level, right associativity) : res_scope.
Open Scope res_scope.

(** ** Operations on values that may raise *)

(** [o.get(k, default)] *)
Definition py_get (o : value) (k : string) (default : value) : res value :=
  match o with
  | VDict d => Ok (match lookup (VStr k) d with Some v => v | None => default end)
  | _ => Raise AttributeError
  end.

(** [o[k]] for a string [k] *)
Definition py_getitem (o : value) (k : string) : res value :=
  match o with
  | VDict d =>
      match lookup (VStr k) d with
      | Some v => Ok v
      | None => Raise (KeyError (VStr k))
      end
  | _ => Raise TypeError
  end.

(** [o[0]] *)
Definition py_index0 (o : value) : res value :=
  match o with
  | VList (x :: _) => Ok x
  | VList [] => Raise IndexError
  | VStr (String c _) => Ok (VStr (String c EmptyString))
  | VStr EmptyString => Raise IndexError
  | VDict d =>
      match lookup (VInt 0) d with
      | Some v => Ok v
      | None => Raise (KeyError (VInt 0))
      end
  | _ => Raise TypeError
  end.

(** [o[k] = v] for a string [k]; the result is the object after the
    assignment. *)
Definition py_setitem (o : value) (k : string) (v : value) : res value :=
  match o with
  | VDict d => Ok (VDict (set d (VStr k) v))
  | _ => Raise TypeError
  end.

(** The items that [for x in o] visits. *)
Definition py_iter (o : value) : res (list value) :=
  match o with
  | VList l => Ok l
  | VStr s => Ok (chars s)
  | VDict d => Ok (map fst d)
  | _ => Raise TypeError
  end.

(** [o.endswith(suffix)] *)
Definition py_endswith (o : value) (suffix : string) : res bool :=
  match o with
  | VStr s => Ok (endswith s suffix)
  | _ => Raise AttributeError
  end.

(** An item of the sequence given to [dict.update] read as a key and a
    value. *)
Definition as_pair (e : value) : res (value * value) :=
  match e with
  | VList [k; v] => Ok (k, v)
  | VList _ => Raise ValueError
  | VStr s =>
      match chars s with
      | [k; v] => Ok (k, v)
      | _ => Raise ValueError
      end
  | VDict [(k1, _); (k2, _)] => Ok (k1, k2)
  | VDict _ => Raise ValueError
  | _ => Raise TypeError
  end.

(** [d.update(items)] for a sequence: the items before a bad one have
    been stored when the exception is raised. *)
Fixpoint update_pairs (d : dict) (items : list value) : option exn * dict :=
  match items with
  | [] => (None, d)
  | e :: items' =>
      match as_pair e with
      | Ok (k, v) =>
          if hashable k then update_pairs (set d k v) items'
          else (Some TypeError, d)
      | Raise x => (Some x, d)
      end
  end.

(** [o.update(other)]: the exception raised, if any, and the object as the
    call leaves it. *)
Definition py_update (o other : value) : option exn * value :=
  match o with
  | VDict d =>
      match other with
      | VDict d' => (None, VDict (update_dict d d'))
      | VList l => let (e, d1) := update_pairs d l in (e, VDict d1)
      | VStr s => let (e, d1) := update_pairs d (chars s) in (e, VDict d1)
      | _ => (Some TypeError, o)
      end
  | _ => (Some AttributeError, o)
  end.

(** [o.append(x)] *)
Definition py_append (o x : value) : res value :=
  match o with
  | VList l => Ok (VList (l ++ [x])%list)
  | _ => Raise AttributeError
  end.

(** Whether [o.update(other)] binds the key [k] before it returns or
    raises. *)
Fixpoint pairs_bind (k : value) (items : list value) : bool :=
  match items with
  | [] => false
  | e :: items' =>
      match as_pair e with
      | Ok (k', _) => if hashable k' then key_eqb k' k || pairs_bind k items' else false
      | Raise _ => false
      end
  end.

Definition update_binds (k : string) (other : value) : bool :=
  match other with
  | VDict d' => existsb (fun kv => key_eqb (fst kv) (VStr k)) d'
  | VList l => pairs_bind (VStr k) l
  | VStr s => pairs_bind (VStr k) (chars s)
  | _ => false
  end.

(** ** The error normaliser *)

(** [response.json()] *)
Definition response_json (response : Response) : res value :=
  match json_body response with
  | Some v => Ok v
  | None => Raise ValueError
  end.

(** [response.headers.get(k, default)] *)
Definition headers_get (response : Response) (k default : string) : string :=
  match headers response k with
  | Some v => v
  | None => default
  end.

(** [GCTSRequestError.__repr__], which [__str__] returns as well. *)
Definition GCTSRequestError_repr (messages : value) : res string :=
  exception <~ py_getitem messages "exception" ;;
  Ok ("gCTS exception: " ++ str exception).

(** [GCTSRepoNotExistsError(messages)]: the constructor rewrites the
    entry of the mapping it is given. *)
Definition new_GCTSRepoNotExistsError (messages : value) : res exn :=
  messages' <~ py_setitem messages "exception" (VStr "Repository does not exist") ;;
  Ok (GCTSRepoNotExistsError messages').

Definition already_exists_suffix : string :=
  "Error action CREATE_REPOSITORY Repository already exists".

Definition no_relation_message : string :=
  "No relation between system and repository".

Definition exception_from_http_error (http_error : exn) : res exn :=
  match http_error with
  | HTTPRequestError response =>
      if negb (contains "application/json" (headers_get response "Content-Type" EmptyString))
      then Ok http_error
      else
        messages <~ response_json response ;;
        log <~ py_get messages "log" VNone ;;
        exists_ <~ (if truthy log then
                      first <~ py_index0 log ;;
                      message <~ py_get first "message" (VStr EmptyString) ;;
                      py_endswith message already_exists_suffix
                    else Ok false) ;;
        if (exists_ : bool) then Ok (GCTSRepoAlreadyExistsError messages)
        else
          exception <~ py_get messages "exception" VNone ;;
          if eq_str exception no_relation_message
          then new_GCTSRepoNotExistsError messages
          else Ok (GCTSRequestError messages)
  | _ => Raise AttributeError
  end.

(** ** Configuration adapters *)

(** [next((cfg for cfg in config if cfg['key'] == key), None)]: the first
    entry with the key, between the entries before and after it.  The
    entries after it are not visited. *)
Fixpoint next_cfg (entries : list value) (key : string)
  : res (option (list value * value * list value)) :=
  match entries with
  | [] => Ok None
  | cfg :: rest =>
      k <~ py_getitem cfg "key" ;;
      if eq_str k key then Ok (Some ([], cfg, rest))
      else
        found <~ next_cfg rest key ;;
        Ok (match found with
            | Some (before, item, after) => Some (cfg :: before, item, after)
            | None => None
            end)
  end.

(** The list is changed in place and returned: the result is the list
    object after the call. *)
Definition _set_configuration_key (config : value) (key : string) (value_ : value)
  : res value :=
  entries <~ py_iter config ;;
  found <~ next_cfg entries key ;;
  match found with
  | Some (before, item, after) =>
      if truthy item then
        item' <~ py_setitem item "value" value_ ;;
        Ok (VList (before ++ item' :: after)%list)
      else py_append config (VDict [(VStr "key", VStr key); (VStr "value", value_)])
  | None => py_append config (VDict [(VStr "key", VStr key); (VStr "value", value_)])
  end.

(** [dict(...)] over the pairs of the entries, from left to right. *)
Fixpoint dict_of_entries (acc : dict) (entries : list value) : res dict :=
  match entries with
  | [] => Ok acc
  | cfg :: rest =>
      k <~ py_getitem cfg "key" ;;
      v <~ py_get cfg "value" (VStr EmptyString) ;;
      if hashable k then dict_of_entries (set acc k v) rest
      else Raise TypeError
  end.

Definition _config_list_to_dict (config : value) : res value :=
  entries <~ py_iter config ;;
  d <~ dict_of_entries [] entries ;;
  Ok (VDict d).

Definition _config_dict_to_list (config : value) : res value :=
  match config with
  | VDict d =>
      Ok (VList (map (fun kv => VDict [(VStr "key", fst kv); (VStr "value", snd kv)]) d))
  | _ => Raise AttributeError
  end.

(** ** Stateful computations that may raise

    A computation runs on a state and leaves a state behind also when it
    raises: what was changed before the exception stays changed. *)

Definition M (S A : Type) : Type := S -> res A * S.

Definition ret {S A : Type} (a : A) : M S A := fun s => (Ok a, s).

Definition raise {S A : Type} (e : exn) : M S A := fun s => (Raise e, s).

Definition bind {S A B : Type} (c : M S A) (k : A -> M S B) : M S B :=
  fun s =>
    match c s with
    | (Ok a, s') => k a s'
    | (Raise e, s') => (Raise e, s')
    end.

Definition liftR {S A : Type} (r : res A) : M S A := fun s => (r, s).

Declare Scope m_scope.
Delimit Scope m_scope with m.
Notation "x <- c ;; k" := (bind c (fun x => k))
  (at level 61, c at next level, right associativity) : m_scope.
Notation "c ;;; k" := (bind c (fun _ => k))
  (at level 61, right associativity) : m_scope.
Open Scope m_scope.

(** [try: body except ...: handler]; [handler e] is [None] when no
    [except] clause catches [e]. *)
Definition try_except {S A : Type} (body : M S A) (handler : exn -> option (M S A))
  : M S A :=
  fun s =>
    match body s with
    | (Raise e, s') =>
        match handler e with
        | Some h => h s'
        | None => (Raise e, s')
        end
    | r => r
    end.

(** The decorator of the HTTP helpers:
    [except HTTPRequestError as ex: raise exception_from_http_error(ex) from ex]. *)
Definition _http_to_gcts_error {S A : Type} (func : M S A) : M S A :=
  try_except func
    (fun ex =>
       match ex with
       | HTTPRequestError _ =>
           Some (e <- liftR (exception_from_http_error ex) ;; raise e)
       | _ => None
       end).

(** ** The connection

    The connection is the collaborator that talks to the server.  It is a
    transition system over a server state [St]; every call made through
    it is recorded. *)

Module Connection.

Inductive Request : Type :=
| Execute (method url : string) (params : value)
| GetJson (url : string)
| PostObjAsJson (url : string) (json : value) (accept : option string).

Record t (St : Type) : Type := {
  execute : string -> string -> value -> St -> res Response * St;
  get_json : string -> St -> res value * St;
  post_obj_as_json : string -> value -> option string -> St -> res Response * St
}.

Arguments execute {St}.
Arguments get_json {St}.
Arguments post_obj_as_json {St}.

Record World (St : Type) : Type := {
  srv : St;
  calls : list Request
}.

Arguments srv {St}.
Arguments calls {St}.

Section Calls.
Context {St : Type}.

Definition recorded {A : Type} (rq : Request) (f : St -> res A * St) : M (World St) A :=
  fun w =>
    let (r, s) := f (srv w) in
    (r, {| srv := s; calls := (calls w ++ [rq])%list |}).

Definition call_execute (c : t St) (method url : string) (params : value)
  : M (World St) Response :=
  recorded (Execute method url params) (execute c method url params).

Definition call_get_json (c : t St) (url : string) : M (World St) value :=
  recorded (GetJson url) (get_json c url).

Definition call_post_obj_as_json (c : t St) (url : string) (json : value)
                                 (accept : option string) : M (World St) Response :=
  recorded (PostObjAsJson url json accept) (post_obj_as_json c url json accept).

End Calls.

End Connection.

Import Connection(World, srv, calls, Execute, GetJson, PostObjAsJson).

(** ** [_RepositoryHttpProxy] *)

Module HttpProxy.

Record t (St : Type) : Type := {
  url_prefix : string;
  connection : Connection.t St
}.

Arguments url_prefix {St}.
Arguments connection {St}.

Section Methods.
Context {St : Type}.

Definition __init__ (connection : Connection.t St) (name : string) : t St :=
  {| url_prefix := "repository/" ++ name; connection := connection |}.

Definition _build_url (self : t St) (path : option string) : string :=
  match path with
  | Some p => url_prefix self ++ "/" ++ p
  | None => url_prefix self
  end.

Definition get (self : t St) (path : option string) (params : value)
  : M (World St) Response :=
  _http_to_gcts_error
    (Connection.call_execute (connection self) "GET" (_build_url self path) params).

Definition get_json (self : t St) (path : option string) : M (World St) value :=
  _http_to_gcts_error
    (Connection.call_get_json (connection self) (_build_url self path)).

Definition post (self : t St) (path : option string) : M (World St) Response :=
  _http_to_gcts_error
    (Connection.call_execute (connection self) "POST" (_build_url self path) VNone).

Definition post_obj_as_json (self : t St) (path : option string) (json : value)
                            (accept : option string) : M (World St) Response :=
  _http_to_gcts_error
    (Connection.call_post_obj_as_json (connection self) (_build_url self path) json accept).

Definition delete (self : t St) (path : option string) : M (World St) Response :=
  _http_to_gcts_error
    (Connection.call_execute (connection self) "DELETE" (_build_url self path) VNone).

End Methods.

End HttpProxy.

(** ** [Repository] *)

Module Repository.

(** [_config] either holds an object of its own ([None] included) or is
    the very object bound to ['config'] in [_data]: a change made in place
    through one name is then seen through the other. *)
Inductive config_ref : Type :=
| Own (v : value)
| InData.

Record t (St : Type) : Type := {
  _http : HttpProxy.t St;
  _name : string;
  _data : value;
  _config : config_ref
}.

Arguments _http {St}.
Arguments _name {St}.
Arguments _data {St}.
Arguments _config {St}.

Section Methods.
Context {St : Type}.

Abbreviation Self := (t St * World St)%type.
Abbreviation Meth := (M Self).

Definition self : Meth (t St) := fun s => (Ok (fst s), s).

Definition put_self (r : t St) : Meth unit := fun s => (Ok tt, (r, snd s)).

(** A call through the connection. *)
Definition http {A : Type} (c : M (World St) A) : Meth A :=
  fun s => let (a, w) := c (snd s) in (a, (fst s, w)).

Definition with_data (r : t St) (data : value) : t St :=
  {| _http := _http r; _name := _name r; _data := data; _config := _config r |}.

Definition with_config (r : t St) (c : config_ref) : t St :=
  {| _http := _http r; _name := _name r; _data := _data r; _config := c |}.

(** The object bound to ['config'] in a snapshot. *)
Definition data_config (data : value) : value :=
  match data with
  | VDict d => match lookup (VStr "config") d with Some v => v | None => VNone end
  | _ => VNone
  end.

(** The value of [self._config]. *)
Definition config_value (r : t St) : value :=
  match _config r with
  | Own v => v
  | InData => data_config (_data r)
  end.

(** What [self._config] refers to once ['config'] of the snapshot, or the
    snapshot, is about to be bound to another object. *)
Definition detach (r : t St) : t St :=
  with_config r (Own (config_value r)).

(** The reference to the object that [data.get(item, None)] returns. *)
Definition ref_to_config (data : value) : config_ref :=
  match data with
  | VDict d => match lookup (VStr "config") d with Some _ => InData | None => Own VNone end
  | _ => Own VNone
  end.

(** The object behind [self._config] after a change made in place. *)
Definition store_config (r : t St) (c : value) : t St :=
  match _config r with
  | Own _ => with_config r (Own c)
  | InData =>
      match _data r with
      | VDict d => with_data r (VDict (set d (VStr "config") c))
      | _ => r
      end
  end.

(** [self._data = data] *)
Definition assign_data (data : value) : Meth unit :=
  r <- self ;; put_self (with_data (detach r) data).

Definition __init__ (connection : Connection.t St) (name : string) (data : value)
  : res (t St) :=
  let r := {| _http := HttpProxy.__init__ connection name; _name := name;
              _data := data; _config := Own VNone |} in
  if truthy data then
    (_ <~ py_get data "config" VNone ;;
     Ok (with_config r (ref_to_config data)))%res
  else Ok r.

Definition _fetch_data : Meth value :=
  r <- self ;;
  response <- http (HttpProxy.get_json (_http r) None) ;;
  liftR (py_getitem response "result").

Definition _update_configuration (key : string) (value_ : value) : Meth value :=
  r <- self ;;
  (if is_None (config_value r) then put_self (with_config r (Own (VList [])))
   else ret tt) ;;;
  r <- self ;;
  c <- liftR (_set_configuration_key (config_value r) key value_) ;;
  put_self (store_config r c) ;;;
  ret c.

Definition _get_item (item : string) (default : value) (fetch : bool) : Meth value :=
  r <- self ;;
  (if is_None (_data r) || fetch then
     data <- _fetch_data ;; assign_data data
   else ret tt) ;;;
  r <- self ;;
  liftR (py_get (_data r) item default).

Definition wipe_data : Meth unit :=
  r <- self ;;
  put_self (with_config (with_data r VNone) (Own VNone)).

Definition name : Meth string := r <- self ;; ret (_name r).

Definition rid : Meth value := _get_item "rid" VNone false.

Definition status : Meth value := _get_item "status" VNone false.

Definition vsid : Meth value := _get_item "vsid" VNone false.

Definition is_cloned : Meth bool :=
  s <- status ;; ret (negb (eq_str s "CREATED")).

Definition url : Meth value := _get_item "url" VNone false.

Definition branch : Meth value := _get_item "branch" VNone false.

Definition head : Meth value := _get_item "currentCommit" VNone false.

Definition configuration : Meth value :=
  r <- self ;;
  (if is_None (config_value r) then
     _get_item "config" VNone false ;;;
     r' <- self ;;
     put_self (with_config r' (ref_to_config (_data r')))
   else ret tt) ;;;
  r <- self ;;
  liftR (_config_list_to_dict (config_value r)).

(** [o.update(other)] on the snapshot, which [repo] names as well when
    [in_place] holds.  The result is the object after the call. *)
Definition update_repo (in_place : bool) (repo other : value) : Meth value :=
  let (e, repo') := py_update repo other in
  (if in_place then
     r <- self ;;
     put_self (with_data (if update_binds "config" other then detach r else r) repo')
   else ret tt) ;;;
  match e with
  | Some x => raise x
  | None => ret repo'
  end.

(** [repo[k] = v], likewise. *)
Definition setitem_repo (in_place : bool) (repo : value) (k : string) (v : value)
  : Meth value :=
  repo' <- liftR (py_setitem repo k v) ;;
  (if in_place then
     r <- self ;;
     put_self (with_data (if String.eqb k "config" then detach r else r) repo')
   else ret tt) ;;;
  ret repo'.

Definition create (url vsid : string) (config : value) (role typ : string) : Meth unit :=
  r <- self ;;
  (* repo = self._data or {} *)
  let in_place := truthy (_data r) in
  let repo := if in_place then _data r else VDict [] in
  repo <- update_repo in_place repo
            (VDict [(VStr "rid", VStr (_name r));
                    (VStr "name", VStr (_name r));
                    (VStr "vsid", VStr vsid);
                    (VStr "url", VStr url);
                    (VStr "role", VStr role);
                    (VStr "type", VStr typ);
                    (VStr "connection", VStr "ssl")]) ;;
  repo <- (if truthy config then
             current <- liftR (py_get repo "config" (VList [])) ;;
             repo_config <- liftR (_config_list_to_dict current) ;;
             repo_config <- (let (e, repo_config') := py_update repo_config config in
                             match e with
                             | Some x => raise x
                             | None => ret repo_config'
                             end) ;;
             request_config <- liftR (_config_dict_to_list repo_config) ;;
             setitem_repo in_place repo "config" request_config
           else ret repo) ;;
  let create_request := VDict [(VStr "repository", VStr (_name r)); (VStr "data", repo)] in
  response <- http (_http_to_gcts_error
                      (Connection.call_post_obj_as_json (HttpProxy.connection (_http r))
                         "repository" create_request (Some "application/json"))) ;;
  json <- liftR (response_json response) ;;
  result <- liftR (py_getitem json "repository") ;;
  r <- self ;;
  if truthy (_data r) then update_repo true (_data r) result ;;; ret tt
  else assign_data result.

Definition set_config (key : string) (value_ : value) : Meth unit :=
  r <- self ;;
  http (HttpProxy.post_obj_as_json (_http r) (Some "config")
          (VDict [(VStr "key", VStr key); (VStr "value", value_)]) None) ;;;
  _update_configuration key value_ ;;;
  ret tt.

Definition get_config (key : string) : Meth value :=
  config <- configuration ;;
  match (if is_None config then None
         else match config with
              | VDict d => lookup (VStr key) d
              | _ => None
              end) with
  | Some v => ret v
  | None =>
      r <- self ;;
      response <- http (HttpProxy.get_json (_http r) (Some ("config/" ++ key))) ;;
      result <- liftR (py_getitem response "result") ;;
      value_ <- liftR (py_getitem result "value") ;;
      _update_configuration key value_ ;;;
      ret value_
  end.

Definition clone : Meth Response :=
  r <- self ;;
  response <- http (HttpProxy.post (_http r) (Some "clone")) ;;
  wipe_data ;;;
  ret response.

Definition checkout (branch_ : string) : Meth value :=
  current <- branch ;;
  r <- self ;;
  response <- http (HttpProxy.get (_http r) (Some ("branches/" ++ str current ++ "/switch"))
                      (VDict [(VStr "branch", VStr branch_)])) ;;
  wipe_data ;;;
  json <- liftR (response_json response) ;;
  liftR (py_getitem json "result").

Definition log : Meth value :=
  r <- self ;;
  json_body <- http (HttpProxy.get_json (_http r) (Some "getCommit")) ;;
  liftR (py_getitem json_body "commits").

Definition pull : Meth value :=
  r <- self ;;
  json_body <- http (HttpProxy.get_json (_http r) (Some "pullByCommit")) ;;
  wipe_data ;;;
  ret json_body.

Definition delete : Meth Response :=
  r <- self ;;
  response <- http (HttpProxy.delete (_http r) None) ;;
  wipe_data ;;;
  ret response.

Definition commit_transport (corrnr message : string) (description : value)
  : Meth Response :=
  let commit := [(VStr "message", VStr message);
                 (VStr "autoPush", VStr "true");
                 (VStr "objects",
                  VList [VDict [(VStr "object", VStr corrnr);
                                (VStr "type", VStr "TRANSPORT")]])] in
  let commit := if truthy description
                then set commit (VStr "description") description
                else commit in
  r <- self ;;
  response <- http (HttpProxy.post_obj_as_json (_http r) (Some "commit") (VDict commit) None) ;;
  wipe_data ;;;
  ret response.

(** [None] is returned when the URL is the one already set. *)
Definition set_url (url_ : string) : Meth (option Response) :=
  data <- _fetch_data ;;
  current <- liftR (py_getitem data "url") ;;
  if eq_str current url_ then ret None
  else
    data <- liftR (py_setitem data "url" (VStr url_)) ;;
    r <- self ;;
    response <- http (HttpProxy.post_obj_as_json (_http r) None data None) ;;
    ret (Some response).

End Methods.

End Repository.

(** ** [simple_clone] *)

Section Simple.
Context {St : Type}.

Definition simple_clone (connection : Connection.t St) (url name vsid : string)
    (start_dir vcs_token : value) (error_exists : bool) (role typ : string)
  : M (World St) (Repository.t St) :=
  let config := [] in
  let config := if truthy start_dir
                then set config (VStr "VCS_TARGET_DIR") start_dir else config in
  let config := if truthy vcs_token
                then set config (VStr "CLIENT_VCS_AUTH_TOKEN") vcs_token else config in
  fun w =>
    match Repository.__init__ connection name VNone with
    | Raise e => (Raise e, w)
    | Ok repo =>
        let body :=
          try_except (Repository.create url vsid (VDict config) role typ)
            (fun ex =>
               match ex with
               | GCTSRepoAlreadyExistsError messages =>
                   Some (if error_exists then raise ex
                         else
                           (* mod_log().info(str(ex)) *)
                           liftR (GCTSRequestError_repr messages) ;;;
                           Repository.wipe_data)
               | _ => None
               end) ;;;
          cloned <- Repository.is_cloned ;;
          (if negb cloned then Repository.clone ;;; ret tt else ret tt) ;;;
          Repository.self in
        let (r, s) := body (repo, w) in (r, snd s)
    end.

End Simple.

(** ** Connections used in the examples *)

(** A connection that answers from a script of prepared replies, one per
    call, whatever the call. *)
Inductive Reply : Type :=
| ReplyResponse (response : Response)
| ReplyJson (json : value)
| ReplyRaise (e : exn).

Definition next_response (s : list Reply) : res Response * list Reply :=
  match s with
  | ReplyResponse r :: s' => (Ok r, s')
  | ReplyRaise e :: s' => (Raise e, s')
  | ReplyJson _ :: s' => (Raise (OtherError "unexpected call"), s')
  | [] => (Raise (OtherError "end of script"), [])
  end.

Definition next_json (s : list Reply) : res value * list Reply :=
  match s with
  | ReplyJson v :: s' => (Ok v, s')
  | ReplyRaise e :: s' => (Raise e, s')
  | ReplyResponse _ :: s' => (Raise (OtherError "unexpected call"), s')
  | [] => (Raise (OtherError "end of script"), [])
  end.

Definition scripted : Connection.t (list Reply) :=
  {| Connection.execute := fun _ _ _ => next_response;
     Connection.get_json := fun _ => next_json;
     Connection.post_obj_as_json := fun _ _ _ => next_response |}.

Definition json_headers (k : string) : option string :=
  if String.eqb k "Content-Type" then Some "application/json" else None.

Definition json_response (body : value) : Response :=
  {| headers := json_headers; json_body := Some body |}.

(** A server that keeps one repository object: a [GET] reports it under
    ['result'] and a [POST] of an object replaces it. *)
Definition store_server : Connection.t value :=
  {| Connection.execute := fun _ _ _ s => (Ok (json_response (VDict [])), s);
     Connection.get_json := fun _ s => (Ok (VDict [(VStr "result", s)]), s);
     Connection.post_obj_as_json :=
       fun _ json _ _ => (Ok (json_response (VDict [])), json) |}.

Definition start {St : Type} (s : St) : World St := {| srv := s; calls := [] |}.

(** ** Vocabulary of the properties *)

(** The keys of a dictionary are hashable and pairwise different. *)
Fixpoint wf_dict (d : dict) : bool :=
  match d with
  | [] => true
  | (k, _) :: d' =>
      hashable k && match lookup k d' with None => true | Some _ => false end && wf_dict d'
  end.

(** *** Configuration lists *)

Definition entry_key (cfg : value) : option value :=
  match cfg with
  | VDict e => lookup (VStr "key") e
  | _ => None
  end.

Definition entry_value (cfg : value) : option value :=
  match cfg with
  | VDict e => lookup (VStr "value") e
  | _ => None
  end.

(** Every entry carries a ['key'], which can be the key of a dictionary,
    and a ['value']. *)
Definition is_config_list (l : list value) : bool :=
  forallb (fun cfg => match entry_key cfg, entry_value cfg with
                      | Some k, Some _ => hashable k
                      | _, _ => false
                      end) l.

Definition has_key (l : list value) (k : value) : bool :=
  existsb (fun cfg => match entry_key cfg with
                      | Some k' => key_eqb k' k
                      | None => false
                      end) l.

(** [cfg.get('value', '')] for an entry. *)
Definition value_of (cfg : value) : value :=
  match entry_value cfg with
  | Some v => v
  | None => VStr EmptyString
  end.

(** Every entry carries a ['key'] that can be the key of a dictionary. *)
Definition keyed (l : list value) : bool :=
  forallb (fun cfg => match entry_key cfg with
                      | Some k => hashable k
                      | None => false
                      end) l.

(** The value of the last entry with the key [k]. *)
Fixpoint last_value (l : list value) (k : value) : option value :=
  match l with
  | [] => None
  | cfg :: rest =>
      match last_value rest k with
      | Some v => Some v
      | None =>
          match entry_key cfg with
          | Some k' => if key_eqb k' k then Some (value_of cfg) else None
          | None => None
          end
      end
  end.

(** No two entries have the same key. *)
Fixpoint distinct_keys (l : list value) : bool :=
  match l with
  | [] => true
  | cfg :: rest =>
      match entry_key cfg with
      | Some k => negb (has_key rest k)
      | None => true
      end && distinct_keys rest
  end.

(** The entry that [_config_dict_to_list] makes of an item. *)
Definition entry_of (kv : value * value) : value :=
  VDict [(VStr "key", fst kv); (VStr "value", snd kv)].

(** [_config_dict_to_list(_config_list_to_dict(l))] *)
Definition config_round_trip (l : value) : res value :=
  d <~ _config_list_to_dict l ;; _config_dict_to_list d.

(** *** The classification of errors *)

Definition is_json (response : Response) : bool :=
  contains "application/json" (headers_get response "Content-Type" EmptyString).

(** The log is non-empty and the message of its first entry ends with
    the text that reports an existing repository. *)
Definition log_reports_existing (messages : dict) : bool :=
  match lookup (VStr "log") messages with
  | Some (VList (VDict first :: _)) =>
      match lookup (VStr "message") first with
      | Some (VStr s) => endswith s already_exists_suffix
      | _ => false
      end
  | _ => false
  end.

Definition exception_is (messages : dict) (text : string) : bool :=
  match lookup (VStr "exception") messages with
  | Some (VStr s) => String.eqb s text
  | _ => false
  end.

(** The error kinds in the order in which they are tried. *)
Definition classification (messages : dict) : exn :=
  if log_reports_existing messages then GCTSRepoAlreadyExistsError (VDict messages)
  else if exception_is messages no_relation_message then
    GCTSRepoNotExistsError
      (VDict (set messages (VStr "exception") (VStr "Repository does not exist")))
  else GCTSRequestError (VDict messages).

(** The shape of an error body: the log, when there is one that is not
    empty, is a list whose first entry is an object, and the message of
    that entry, when there is one, is a text. *)
Definition error_body_shape (messages : dict) : bool :=
  match lookup (VStr "log") messages with
  | None => true
  | Some log =>
      if truthy log then
        match log with
        | VList (VDict first :: _) =>
            match lookup (VStr "message") first with
            | None | Some (VStr _) => true
            | Some _ => false
            end
        | _ => false
        end
      else true
  end.

(** *** Attributes and operations of the proxy *)

Inductive attribute : Type := Rid | Status | Vsid | Url | Branch | Head.

(** The field of the snapshot that an attribute reads. *)
Definition field (a : attribute) : string :=
  match a with
  | Rid => "rid"
  | Status => "status"
  | Vsid => "vsid"
  | Url => "url"
  | Branch => "branch"
  | Head => "currentCommit"
  end.

Definition read {St : Type} (a : attribute) : M (Repository.t St * World St) value :=
  match a with
  | Rid => Repository.rid
  | Status => Repository.status
  | Vsid => Repository.vsid
  | Url => Repository.url
  | Branch => Repository.branch
  | Head => Repository.head
  end.

(** The operations that end with [wipe_data]. *)
Inductive operation : Type :=
| Clone
| Checkout (branch : string)
| Pull
| Delete
| CommitTransport (corrnr message : string) (description : value).

Definition perform {St : Type} (op : operation) : M (Repository.t St * World St) unit :=
  match op with
  | Clone => Repository.clone ;;; ret tt
  | Checkout b => Repository.checkout b ;;; ret tt
  | Pull => Repository.pull ;;; ret tt
  | Delete => Repository.delete ;;; ret tt
  | CommitTransport corrnr message description =>
      Repository.commit_transport corrnr message description ;;; ret tt
  end.

(** The URL of the repository resource. *)
Definition resource {St : Type} (r : Repository.t St) : string :=
  HttpProxy.url_prefix (Repository._http r).

Definition connection_of {St : Type} (r : Repository.t St) : Connection.t St :=
  HttpProxy.connection (Repository._http r).

(** The world once the connection has answered the call [rq] and moved
    the server to [s]. *)
Definition after_call {St : Type} (w : World St) (rq : Connection.Request) (s : St)
  : World St :=
  {| srv := s; calls := (calls w ++ [rq])%list |}.

(** What the HTTP helpers make of the outcome of a call: a transport
    error is replaced by what the normaliser returns or raises. *)
Definition normalised {A : Type} (r : res A) : res A :=
  match r with
  | Raise (HTTPRequestError response) =>
      match exception_from_http_error (HTTPRequestError response) with
      | Ok e => Raise e
      | Raise e => Raise e
      end
  | _ => r
  end.

(** The current branch of the repository is [b], either in the cached
    snapshot or in the snapshot that a read fetches; [w1] is the world
    after that read. *)
Inductive on_branch {St : Type} (r : Repository.t St) (w : World St) (b : string)
  : World St -> Prop :=
| branch_cached (d : dict) :
    Repository._data r = VDict d ->
    lookup (VStr "branch") d = Some (VStr b) ->
    on_branch r w b w
| branch_fetched (response : value) (d : dict) :
    Repository._data r = VNone ->
    fst (Connection.get_json (connection_of r) (resource r) (srv w)) = Ok response ->
    py_getitem response "result" = Ok (VDict d) ->
    lookup (VStr "branch") d = Some (VStr b) ->
    on_branch r w b
      (after_call w (GetJson (resource r))
         (snd (Connection.get_json (connection_of r) (resource r) (srv w)))).

(** *** Counting the calls *)

Definition is_post (rq : Connection.Request) : bool :=
  match rq with
  | PostObjAsJson _ _ _ => true
  | Execute method _ _ => String.eqb method "POST"
  | GetJson _ => false
  end.

Definition posts (l : list Connection.Request) : nat := length (filter is_post l).

(** The server applies the change of an object that is posted to the
    resource: the next [GET] of the resource reports an object with the
    ['url'] of the posted one. *)
Definition applies_url {St : Type} (c : Connection.t St) (resource : string) : Prop :=
  forall (data : dict) (s s1 : St) (response : Response),
    Connection.post_obj_as_json c resource (VDict data) None s = (Ok response, s1) ->
    exists answer d,
      fst (Connection.get_json c resource s1) = Ok answer /\
      py_getitem answer "result" = Ok (VDict d) /\
      lookup (VStr "url") d = lookup (VStr "url") data.

(** [set_url(u)] called twice in succession. *)
Definition set_url_twice {St : Type} (u : string)
  : M (Repository.t St * World St) (option Response) :=
  Repository.set_url u ;;; Repository.set_url u.

(** The number of entries with the key [k]. *)
Definition occurrences (l : list value) (k : string) : nat :=
  length (filter (fun cfg => match entry_key cfg with
                             | Some k' => eq_str k' k
                             | None => false
                             end) l).

(** The configuration cache is empty, or it is a list of entries with
    keys in which at most one entry has the key [k]. *)
Definition cache_fits (c : value) (k : string) : Prop :=
  c = VNone \/ exists l, c = VList l /\ keyed l = true /\ occurrences l k <= 1.

(** *** [create] *)

(** The identity fields that [create] writes into the payload. *)
Definition identity_fields (name url vsid role typ : string) : dict :=
  [(VStr "rid", VStr name);
   (VStr "name", VStr name);
   (VStr "vsid", VStr vsid);
   (VStr "url", VStr url);
   (VStr "role", VStr role);
   (VStr "type", VStr typ);
   (VStr "connection", VStr "ssl")].

(** The configuration list of the payload: the list of [repo] with the
    entries of [config] merged in by key. *)
Definition merged_config (repo config : value) : res value :=
  current <~ py_get repo "config" (VList []) ;;
  repo_config <~ _config_list_to_dict current ;;
  match py_update repo_config config with
  | (Some x, _) => Raise x
  | (None, repo_config') => _config_dict_to_list repo_config'
  end.

Definition create_request (name : string) (payload : value) : value :=
  VDict [(VStr "repository", VStr name); (VStr "data", payload)].

(** The second half of [create]: the request is posted and the returned
    object is stored. *)
Definition post_and_store {St : Type} (payload : value)
  : M (Repository.t St * World St) unit :=
  r <- Repository.self ;;
  response <- Repository.http
                (_http_to_gcts_error
                   (Connection.call_post_obj_as_json (connection_of r) "repository"
                      (create_request (Repository._name r) payload)
                      (Some "application/json"))) ;;
  json <- liftR (response_json response) ;;
  result <- liftR (py_getitem json "repository") ;;
  r <- Repository.self ;;
  if truthy (Repository._data r)
  then Repository.update_repo true (Repository._data r) result ;;; ret tt
  else Repository.assign_data result.

(** *** Objects of the examples *)

(** A proxy as [Repository(connection, name, data)] builds it. *)
Definition proxy {St : Type} (c : Connection.t St) (name : string) (data : value)
  : Repository.t St :=
  {| Repository._http := HttpProxy.__init__ c name;
     Repository._name := name;
     Repository._data := data;
     Repository._config := Repository.ref_to_config data |}.

Definition entry (k v : string) : value :=
  VDict [(VStr "key", VStr k); (VStr "value", VStr v)].

Definition html_response : Response :=
  {| headers := fun k => if String.eqb k "Content-Type" then Some "text/html" else None;
     json_body := None |}.

Definition exists_log : value :=
  VList [VDict [(VStr "message",
                 VStr "20200923111743: Error action CREATE_REPOSITORY Repository already exists")]].

(** An error body that reports an existing repository in its log and has
    no ['exception'] entry. *)
Definition exists_body : dict := [(VStr "log", exists_log)].

(** The same with an ['exception'] entry. *)
Definition exists_body_with_exception : dict :=
  [(VStr "exception", VStr "Cannot create"); (VStr "log", exists_log)].

Definition not_exists_body : dict :=
  [(VStr "exception", VStr "No relation between system and repository")].

Definition develop_snapshot : value :=
  VDict [(VStr "rid", VStr "myrepo");
         (VStr "status", VStr "READY");
         (VStr "url", VStr "https://example.com/org/old.git");
         (VStr "branch", VStr "develop")].

Definition created_object : value :=
  VDict [(VStr "rid", VStr "myrepo"); (VStr "status", VStr "CREATED")].

Definition ready_answer : value :=
  VDict [(VStr "result", VDict [(VStr "rid", VStr "myrepo"); (VStr "status", VStr "READY")])].

Definition created_answer : value :=
  VDict [(VStr "result", created_object)].

Definition ok_response : Response := json_response (VDict []).

Definition wiped (name : string) : Repository.t (list Reply) :=
  {| Repository._http := HttpProxy.__init__ scripted name;
     Repository._name := name;
     Repository._data := VNone;
     Repository._config := Repository.Own VNone |}.

(** The snapshot of the example with another URL. *)
Definition renamed_snapshot : value :=
  VDict [(VStr "rid", VStr "myrepo");
         (VStr "status", VStr "READY");
         (VStr "url", VStr "https://example.com/org/new.git");
         (VStr "branch", VStr "develop")].

(** The request of [simple_clone] in the examples. *)
Definition clone_request : Connection.Request :=
  PostObjAsJson "repository"
    (VDict [(VStr "repository", VStr "myrepo");
            (VStr "data",
             VDict [(VStr "rid", VStr "myrepo");
                    (VStr "name", VStr "myrepo");
                    (VStr "vsid", VStr "6IT");
                    (VStr "url", VStr "https://example.com/org/myrepo.git");
                    (VStr "role", VStr "SOURCE");
                    (VStr "type", VStr "GITHUB");
                    (VStr "connection", VStr "ssl");
                    (VStr "config", VList [entry "VCS_TARGET_DIR" "src/"])])])
    (Some "application/json").

(** [simple_clone] of the example repository with the default arguments
    on a script. *)
Definition simple_clone_myrepo (error_exists : bool) (script : list Reply)
  : res (Repository.t (list Reply)) * World (list Reply) :=
  simple_clone scripted "https://example.com/org/myrepo.git" "myrepo" "6IT"
    (VStr "src/") VNone error_exists "SOURCE" "GITHUB" (start script).

(** The snapshot of the example after a [create] with another URL and a
    target directory. *)
Definition attempted_snapshot : value :=
  VDict [(VStr "rid", VStr "myrepo");
         (VStr "status", VStr "READY");
         (VStr "url", VStr "https://example.com/org/new.git");
         (VStr "branch", VStr "develop");
         (VStr "name", VStr "myrepo");
         (VStr "vsid", VStr "6IT");
         (VStr "role", VStr "SOURCE");
         (VStr "type", VStr "GITHUB");
         (VStr "connection", VStr "ssl");
         (VStr "config", VList [entry "VCS_TARGET_DIR" "src/"])].

(** The request that [create] posts for the example repository without
    a snapshot. *)
Definition create_myrepo_request : Connection.Request :=
  PostObjAsJson "repository"
    (create_request "myrepo"
       (VDict (identity_fields "myrepo" "https://example.com/org/myrepo.git"
                 "6IT" "SOURCE" "GITHUB")))
    (Some "application/json").

(** [create] of the example repository with the default arguments. *)
Definition create_myrepo {St : Type} : M (Repository.t St * World St) unit :=
  Repository.create "https://example.com/org/myrepo.git" "6IT" VNone "SOURCE" "GITHUB".

(** [create] with another URL and a target directory. *)
Definition create_renamed {St : Type} : M (Repository.t St * World St) unit :=
  Repository.create "https://example.com/org/new.git" "6IT"
    (VDict [(VStr "VCS_TARGET_DIR", VStr "src/")]) "SOURCE" "GITHUB".

(** The world in which a script has answered the calls [l] and [script]
    is left. *)
Definition answered (script : list Reply) (l : list Connection.Request)
  : World (list Reply) :=
  {| srv := script; calls := l |}.

(** A proxy whose cached configuration has the given entries. *)
Definition configured (entries : list value) : Repository.t (list Reply) :=
  proxy scripted "myrepo" (VDict [(VStr "config", VList entries)]).

(** *** [simple_clone] *)

(** The configuration entries that [simple_clone] derives from its
    arguments. *)
Definition clone_config (start_dir vcs_token : value) : list value :=
  ((if truthy start_dir
    then [VDict [(VStr "key", VStr "VCS_TARGET_DIR"); (VStr "value", start_dir)]]
    else []) ++
   (if truthy vcs_token
    then [VDict [(VStr "key", VStr "CLIENT_VCS_AUTH_TOKEN"); (VStr "value", vcs_token)]]
    else []))%list.

(** The payload that [simple_clone] sends to create the repository. *)
Definition clone_payload (name url vsid : string) (start_dir vcs_token : value)
                         (role typ : string) : value :=
  VDict (identity_fields name url vsid role typ ++
         match clone_config start_dir vcs_token with
         | [] => []
         | entries => [(VStr "config", VList entries)]
         end)%list.

(** ** Further functions of [sap/rest/gcts.py] *)

(** [s.split(sep)] for a separator of one character. *)
Fixpoint split_char (sep : ascii) (s : string) : list string :=
  match s with
  | EmptyString => [EmptyString]
  | String c s' =>
      if Ascii.eqb c sep then EmptyString :: split_char sep s'
      else match split_char sep s' with
           | part :: parts => String c part :: parts
           | [] => [String c EmptyString]
           end
  end.

Definition slash : ascii := ascii_of_nat 47.

Definition package_name_from_url (url : string) : string :=
  let url_repo_part := last (split_char slash url) EmptyString in
  if endswith url_repo_part ".git"
  then substring 0 (String.length url_repo_part - 4) url_repo_part
  else url_repo_part.

Section SimpleFunctions.
Context {St : Type}.

(** [[Repository(connection, repo['name'], data=repo) for repo in result]].
    The name of a proxy is kept as its text, of which the URLs are made.
    For an entry whose name is not a text the code keeps the object as
    the name: the proxy made here agrees with it on the URLs and differs
    in the name that [create] would send.  The properties of the list
    are stated for entries that a text names. *)
Fixpoint repositories (connection : Connection.t St) (result : list value)
  : res (list (Repository.t St)) :=
  match result with
  | [] => Ok []
  | repo :: rest =>
      name <~ py_getitem repo "name" ;;
      r <~ Repository.__init__ connection (str name) repo ;;
      rs <~ repositories connection rest ;;
      Ok (r :: rs)
  end.

Definition simple_fetch_repos (connection : Connection.t St)
  : M (World St) (list (Repository.t St)) :=
  response <- _http_to_gcts_error (Connection.call_get_json connection "repository") ;;
  result <- liftR (py_get response "result" (VList [])) ;;
  entries <- liftR (py_iter result) ;;
  liftR (repositories connection entries).

(** A method called on [repo], or on [Repository(connection, name)] when
    no proxy is given.  The proxy is returned in the state in which the
    call leaves it. *)
Definition on_repository {A : Type} (connection : Connection.t St) (name : string)
    (repo : option (Repository.t St)) (method : M (Repository.t St * World St) A)
  : World St -> res A * (Repository.t St * World St) :=
  fun w =>
    match repo with
    | Some r => method (r, w)
    | None => method (proxy connection name VNone, w)
    end.

Definition simple_checkout (connection : Connection.t St) (branch name : string)
    (repo : option (Repository.t St)) :=
  on_repository connection name repo (Repository.checkout branch).

Definition simple_log (connection : Connection.t St) (name : string)
    (repo : option (Repository.t St)) :=
  on_repository connection name repo Repository.log.

Definition simple_pull (connection : Connection.t St) (name : string)
    (repo : option (Repository.t St)) :=
  on_repository connection name repo Repository.pull.

Definition simple_delete (connection : Connection.t St) (name : string)
  : M (World St) Response :=
  fun w => let (r, s) := Repository.delete (proxy connection name VNone, w) in (r, snd s).

Definition simple_set_user_api_token (connection : Connection.t St) (api_url token : value)
  : M (World St) unit :=
  let body := VDict [(VStr "endpoint", api_url);
                     (VStr "user", VStr EmptyString);
                     (VStr "password", VStr EmptyString);
                     (VStr "token", token);
                     (VStr "type", VStr "token")] in
  Connection.call_post_obj_as_json connection "user/credentials" body None ;;;
  ret tt.

End SimpleFunctions.

(** ** Vocabulary of the further properties *)

Definition is_checkout (op : operation) : bool :=
  match op with
  | Checkout _ => true
  | _ => false
  end.

(** The proxy as [wipe_data] leaves it. *)
Definition cleared {St : Type} (r : Repository.t St) : Repository.t St :=
  Repository.with_config (Repository.with_data r VNone) (Repository.Own VNone).

(** The branch that a cached snapshot reports, [None] when it reports
    none. *)
Definition cached_branch {St : Type} (r : Repository.t St) : value :=
  match Repository._data r with
  | VDict d => match lookup (VStr "branch") d with Some v => v | None => VNone end
  | _ => VNone
  end.

Definition commit_body (corrnr message : string) (description : value) : value :=
  VDict ([(VStr "message", VStr message);
          (VStr "autoPush", VStr "true");
          (VStr "objects",
           VList [VDict [(VStr "object", VStr corrnr); (VStr "type", VStr "TRANSPORT")]])]
         ++ (if truthy description then [(VStr "description", description)] else []))%list.

(** The request of an operation; the one of [checkout] is given for a
    proxy with a cached snapshot. *)
Definition request_of {St : Type} (r : Repository.t St) (op : operation)
  : Connection.Request :=
  match op with
  | Clone => Execute "POST" (resource r ++ "/clone") VNone
  | Checkout b =>
      Execute "GET" (resource r ++ "/branches/" ++ str (cached_branch r) ++ "/switch")
        (VDict [(VStr "branch", VStr b)])
  | Pull => GetJson (resource r ++ "/pullByCommit")
  | Delete => Execute "DELETE" (resource r) VNone
  | CommitTransport corrnr message description =>
      PostObjAsJson (resource r ++ "/commit") (commit_body corrnr message description) None
  end.

(** The entries of a repository list: objects with a text as ['name']. *)
Definition named (e : value) : bool :=
  match e with
  | VDict d => match lookup (VStr "name") d with Some (VStr _) => true | _ => false end
  | _ => false
  end.

Definition name_of (e : value) : string :=
  match e with
  | VDict d => match lookup (VStr "name") d with Some (VStr n) => n | _ => EmptyString end
  | _ => EmptyString
  end.

(** ** [sap/cli/gcts.py]

    The console is the collaborator that writes to the terminal.  The
    calls made on it are recorded in order, with their arguments;
    [sap.cli.core.printout], the function of the module, is recorded as
    a call of its own. *)

(** [' ' * n] *)
Fixpoint spaces (n : nat) : string :=
  match n with
  | 0 => EmptyString
  | S n' => String " " (spaces n')
  end.

Module Console.

Inductive Output : Type :=
| Printout (args : list value)
| Printerr (args : list value)
| CorePrintout (args : list value).

Definition t : Type := list Output.

Definition printout (args : list value) : M t unit :=
  fun out => (Ok tt, (out ++ [Printout args])%list).

Definition printerr (args : list value) : M t unit :=
  fun out => (Ok tt, (out ++ [Printerr args])%list).

Definition core_printout (args : list value) : M t unit :=
  fun out => (Ok tt, (out ++ [CorePrintout args])%list).

End Console.

(** [for x in items: body(x)] *)
Definition for_each {S A : Type} (body : A -> M S unit) : list A -> M S unit :=
  fix each (items : list A) : M S unit :=
    match items with
    | [] => ret tt
    | x :: rest => body x ;;; each rest
    end.

Definition newline : ascii := ascii_of_nat 10.

(** [print_gcts_message] for a text: the text is the message, and it has
    no protocol. *)
Definition print_text (prefix : string) (log : value) : M Console.t unit :=
  if truthy log then Console.printerr [VStr prefix; log] else ret tt.

(** The recursion follows the protocol into the log: the entry of
    ['protocol'] is looked up by the inner [protocol_of], as [lookup]
    does, and a protocol that is a text is visited character by
    character. *)
Fixpoint print_gcts_message (log : value) (prefix : string) {struct log}
  : M Console.t unit :=
  match log with
  | VStr _ => print_text prefix log
  | VDict d =>
      let message := match lookup (VStr "message") d with
                     | Some v => v
                     | None => VNone
                     end in
      (if truthy message then Console.printerr [VStr prefix; message] else ret tt) ;;;
      let prefix := if truthy message then prefix ++ "  " else prefix in
      (fix protocol_of (entries : dict) : M Console.t unit :=
         match entries with
         | [] => ret tt
         | (k, protocol) :: rest =>
             if key_eqb k (VStr "protocol") then
               match protocol with
               | VDict _ => print_gcts_message protocol prefix
               | VList items =>
                   for_each (fun protocol_item => print_gcts_message protocol_item prefix)
                     items
               | VStr s => for_each (print_text prefix) (chars s)
               | _ => raise TypeError
               end
             else protocol_of rest
         end) d
  | _ => raise AttributeError
  end.

(** One of the two logs of [dump_gcts_messages]; the result tells
    whether something was written. *)
Definition dump_log (title : string) (log : value) : M Console.t bool :=
  if truthy log then
    Console.printerr [VStr title] ;;;
    items <- liftR (py_iter log) ;;
    for_each (fun msg => print_gcts_message msg " ") items ;;;
    ret true
  else ret false.

Definition dump_gcts_messages (messages : value) : M Console.t unit :=
  errlog <- liftR (py_get messages "errorLog" VNone) ;;
  output1 <- dump_log "Error Log:" errlog ;;
  msglog <- liftR (py_get messages "log" VNone) ;;
  output2 <- dump_log "Log:" msglog ;;
  exception <- liftR (py_get messages "exception" VNone) ;;
  output3 <- (if truthy exception then
                text <- liftR (py_getitem messages "exception") ;;
                Console.printerr [VStr ("Exception:" ++ String newline " "); text] ;;;
                ret true
              else ret false) ;;
  if negb (output1 || output2 || output3)
  then Console.printerr [VStr (str messages)]
  else ret tt.

Definition print_gcts_commit (commit_data : value) : M Console.t unit :=
  id <- liftR (py_getitem commit_data "id") ;;
  Console.printout [VStr "commit"; id] ;;;
  author <- liftR (py_getitem commit_data "author") ;;
  mail <- liftR (py_getitem commit_data "authorMail") ;;
  Console.printout [VStr "Author:"; author; VStr ("<" ++ str mail ++ ">")] ;;;
  date <- liftR (py_getitem commit_data "date") ;;
  Console.printout [VStr "Date:  "; date] ;;;
  message <- liftR (py_getitem commit_data "message") ;;
  Console.printout [VStr (String newline "   "); message].

(** *** The commands

    A command runs on the server, through the connection, and on the
    console; it returns its exit code. *)

Record Cli (St : Type) : Type := {
  world : World St;
  console : Console.t
}.

Arguments world {St}.
Arguments console {St}.

Section Commands.
Context {St : Type}.

(** A step on the server. *)
Definition on_server {A : Type} (c : M (World St) A) : M (Cli St) A :=
  fun s => let (a, w) := c (world s) in (a, {| world := w; console := console s |}).

(** A step on the console. *)
Definition on_console {A : Type} (c : M Console.t A) : M (Cli St) A :=
  fun s => let (a, out) := c (console s) in (a, {| world := world s; console := out |}).

(** [ex.messages] of a [GCTSRequestError], of the class itself or of one
    of its subclasses. *)
Definition gcts_messages (ex : exn) : option value :=
  match ex with
  | GCTSRequestError messages
  | GCTSRepoAlreadyExistsError messages
  | GCTSRepoNotExistsError messages => Some messages
  | _ => None
  end.

(** [try: x = call
     except sap.rest.gcts.GCTSRequestError as ex:
         dump_gcts_messages(console, ex.messages)
         return 1]:
    the value of the call, or the exit code with which the command
    returns. *)
Definition guarded {A : Type} (call : M (Cli St) A) : M (Cli St) (A + Z) :=
  try_except (x <- call ;; ret (inl x))
    (fun ex =>
       match gcts_messages ex with
       | Some messages =>
           Some (on_console (dump_gcts_messages messages) ;;; ret (inr 1%Z))
       | None => None
       end).

Definition user_credentials (connection : Connection.t St) (api_url token : value)
  : M (Cli St) unit :=
  on_server (simple_set_user_api_token connection api_url token).

(** [repo.configuration] on a proxy that the command has made and drops. *)
Definition read_configuration (connection : Connection.t St) (package : string)
  : M (World St) value :=
  fun w =>
    let (a, s) := Repository.configuration (proxy connection package VNone, w) in
    (a, snd s).

Definition config (connection : Connection.t St) (list_ : bool) (package : string)
  : M (Cli St) Z :=
  if list_ then
    configuration <- guarded (on_server (read_configuration connection package)) ;;
    match configuration with
    | inr code => ret code
    | inl (VDict items) =>
        on_console
          (for_each (fun kv => Console.printout
                                 [VStr (str (fst kv) ++ "=" ++ str (snd kv))])
             items) ;;;
        ret 0%Z
    | inl _ => raise AttributeError
    end
  else
    on_console
      (Console.printerr
         [VStr ("Invalid command line options" ++
                String newline "Run: sapcli gcts config --help")]) ;;;
    ret 1%Z.

Definition delete (connection : Connection.t St) (package : string) : M (Cli St) Z :=
  deleted <- guarded (on_server (simple_delete connection package)) ;;
  match deleted with
  | inr code => ret code
  | inl _ =>
      on_console
        (Console.core_printout
           [VStr ("The repository " ++ String double_quote package ++
                  String double_quote " has been deleted")]) ;;;
      ret 0%Z
  end.

(** [simple_log(connection, name=args.package)] *)
Definition log_of (connection : Connection.t St) (package : string)
  : M (World St) value :=
  fun w => let (a, s) := simple_log connection package None w in (a, snd s).

Definition gcts_log (connection : Connection.t St) (package : string) : M (Cli St) Z :=
  commits <- guarded (on_server (log_of connection package)) ;;
  match commits with
  | inr code => ret code
  | inl commits =>
      if negb (truthy commits) then ret 0%Z
      else
        commit_iter <- liftR (py_iter commits) ;;
        match commit_iter with
        | [] => raise (OtherError "StopIteration")
        | commit_item :: rest =>
            on_console (print_gcts_commit commit_item) ;;;
            on_console
              (for_each (fun commit_item =>
                           Console.printout [VStr EmptyString] ;;;
                           print_gcts_commit commit_item) rest) ;;;
            ret 0%Z
        end
  end.

End Commands.

(** *** [TableWriter]

    The table is written with the separator that [printout] has by
    default.  The items and their attributes are those of the caller:
    reading an attribute runs on the item and on the state [W] that the
    items share. *)

Module TableWriter.

Record t : Type := {
  _headers : list string;
  _widths : list nat;
  _lines : list (list string)
}.

(** [l[i] = x] *)
Fixpoint assign (l : list nat) (i x : nat) : list nat :=
  match l, i with
  | [], _ => []
  | _ :: l', 0 => x :: l'
  | y :: l', S i' => y :: assign l' i' x
  end.

Section Init.
Context {W Item Attr : Type}.
Context (getattr : Attr -> M (Item * W) value).

(** The inner loop: the line of an item, and the widths as the line
    leaves them. *)
Fixpoint line_of (attrs : list Attr) (i : nat) (widths : list nat)
  : M (Item * W) (list string * list nat) :=
  match attrs with
  | [] => ret ([], widths)
  | attr :: rest =>
      v <- getattr attr ;;
      let val := str v in
      match nth_error widths i with
      | None => raise IndexError
      | Some w =>
          let widths := if (w <? String.length val)%nat
                        then assign widths i (String.length val)
                        else widths in
          r <- line_of rest (S i) widths ;;
          ret (val :: fst r, snd r)
      end
  end.

(** The outer loop. *)
Fixpoint lines_of (data : list Item) (attrs : list Attr) (widths : list nat)
  : M W (list (list string) * list nat) :=
  match data with
  | [] => ret ([], widths)
  | item :: rest =>
      fun w =>
        match line_of attrs 0 widths (item, w) with
        | (Ok (line, widths'), (_, w')) =>
            match lines_of rest attrs widths' w' with
            | (Ok (lines, widths''), w'') => (Ok (line :: lines, widths''), w'')
            | (Raise e, w'') => (Raise e, w'')
            end
        | (Raise e, (_, w')) => (Raise e, w')
        end
  end.

Definition __init__ (data : list Item) (attrs : list Attr) (headers : list string)
  : M W t :=
  r <- lines_of data attrs (map String.length headers) ;;
  ret {| _headers := headers; _widths := snd r; _lines := fst r |}.

End Init.

(** ['{:<w}'.format(s)] *)
Definition ljust (w : nat) (s : string) : string :=
  s ++ spaces (w - String.length s).

(** The fields of [fmt] filled with the arguments; arguments that are
    left over are ignored. *)
Fixpoint cells (widths : list nat) (args : list string) : res (list string) :=
  match widths with
  | [] => Ok []
  | w :: widths' =>
      match args with
      | [] => Raise IndexError
      | a :: args' =>
          rest <~ cells widths' args' ;;
          Ok (ljust w a :: rest)
      end
  end.

(** [fmt.format] on the arguments *)
Definition format (widths : list nat) (args : list string) : res string :=
  filled <~ cells widths args ;;
  Ok (join " | " filled).

(** ['-' * n] *)
Definition dashes (n : Z) : string :=
  String.concat EmptyString (repeat "-" (Z.to_nat n)).

Definition printout (self : t) : M Console.t unit :=
  header <- liftR (format (_widths self) (_headers self)) ;;
  Console.printout [VStr header] ;;;
  Console.printout
    [VStr (dashes (Z.of_nat (list_sum (_widths self))
                   + 3 * (Z.of_nat (length (_headers self)) - 1)))] ;;;
  for_each (fun line =>
              text <- liftR (format (_widths self) line) ;;
              Console.printout [VStr text])
    (_lines self).

End TableWriter.

(** *** [repolist] *)

Section Repolist.
Context {St : Type}.

(** The columns of the table are attributes of the proxy. *)
Inductive column : Type :=
| ColumnName
| Column (a : attribute).

(** [getattr(item, attr)] for a column. *)
Definition repository_getattr (attr : column) : M (Repository.t St * World St) value :=
  match attr with
  | ColumnName => n <- Repository.name ;; ret (VStr n)
  | Column a => read a
  end.

Definition repolist_columns : list column :=
  [ColumnName; Column Branch; Column Head; Column Status; Column Vsid; Column Url].

Definition repolist_headers : list string :=
  ["Name"; "Branch"; "Commit"; "Status"; "vSID"; "URL"].

Definition repolist (connection : Connection.t St) : M (Cli St) Z :=
  response <- guarded (on_server (simple_fetch_repos connection)) ;;
  match response with
  | inr code => ret code
  | inl response =>
      table <- on_server (TableWriter.__init__ repository_getattr response repolist_columns
                          repolist_headers) ;;
      on_console (TableWriter.printout table) ;;;
      ret 0%Z
  end.

End Repolist.

(** *** Vocabulary of the properties of the commands *)

(** A line of a log on the error stream: the prefix extended by an even
    number of spaces, and a message that is not empty. *)
Definition indented_error (prefix : string) (o : Console.Output) : Prop :=
  exists (n : nat) (message : value),
    o = Console.Printerr [VStr (prefix ++ spaces (2 * n)); message] /\
    truthy message = true.

Definition is_printerr (o : Console.Output) : bool :=
  match o with
  | Console.Printerr _ => true
  | _ => false
  end.

(** A commit with the five entries that are printed. *)
Definition is_commit (commit_data : value) : bool :=
  match commit_data with
  | VDict d =>
      forallb (fun k => match lookup (VStr k) d with Some _ => true | None => false end)
        ["id"; "author"; "authorMail"; "date"; "message"]
  | _ => false
  end.

(** The four lines of a commit. *)
Definition commit_lines (commit_data : value) : list Console.Output :=
  match commit_data with
  | VDict d =>
      let entry_ k := match lookup (VStr k) d with Some v => v | None => VNone end in
      [Console.Printout [VStr "commit"; entry_ "id"];
       Console.Printout [VStr "Author:"; entry_ "author";
                         VStr ("<" ++ str (entry_ "authorMail") ++ ">")];
       Console.Printout [VStr "Date:  "; entry_ "date"];
       Console.Printout [VStr (String newline "   "); entry_ "message"]]
  | _ => []
  end.

(** Blocks of lines with an empty line between two of them. *)
Fixpoint separated (blocks : list (list Console.Output)) : list Console.Output :=
  match blocks with
  | [] => []
  | [block] => block
  | block :: rest => (block ++ Console.Printout [VStr EmptyString] :: separated rest)%list
  end.

(** What a computation on the console writes: it adds lines to those
    that are there, and every line it adds satisfies [R]. *)
Definition writes (R : Console.Output -> Prop) {A : Type} (c : M Console.t A) : Prop :=
  forall out, exists lines, snd (c out) = (out ++ lines)%list /\ Forall R lines.

(** Every value of the line fits into its column. *)
Definition fits (widths : list nat) (line : list string) : Prop :=
  Forall2 (fun w text => String.length text <= w) widths line.

(** The length of a line of the table: the columns, and the separator
    between two of them. *)
Definition row_length (widths : list nat) : nat :=
  list_sum widths + 3 * (length widths - 1).

Definition table_line (text : string) : Console.Output :=
  Console.Printout [VStr text].

(** The line of a configuration item. *)
Definition config_line (kv : value * value) : Console.Output :=
  Console.Printout [VStr (str (fst kv) ++ "=" ++ str (snd kv))].

Definition deleted_message (package : string) : value :=
  VStr ("The repository " ++ String double_quote package ++
        String double_quote " has been deleted").

(** *** Objects of the examples of the commands *)

Definition first_commit : value :=
  VDict [(VStr "id", VStr "456");
         (VStr "author", VStr "Billy Lander");
         (VStr "authorMail", VStr "billy.lander@example.com");
         (VStr "date", VStr "2020-10-09");
         (VStr "message", VStr "Final commit")].

Definition second_commit : value :=
  VDict [(VStr "id", VStr "123");
         (VStr "author", VStr "Hugh Star");
         (VStr "authorMail", VStr "hugh.star@example.com");
         (VStr "date", VStr "2020-10-02");
         (VStr "message", VStr "Initial commit")].

(** A command starts on a script with nothing written. *)
Definition at_start (script : list Reply) : Cli (list Reply) :=
  {| world := start script; console := [] |}.

Definition two_repositories : list value :=
  [VDict [(VStr "name", VStr "one"); (VStr "status", VStr "READY")];
   VDict [(VStr "name", VStr "two")]].

Definition one_repository_table : TableWriter.t :=
  {| TableWriter._headers := repolist_headers;
     TableWriter._widths := [4; 6; 6; 6; 4; 4];
     TableWriter._lines := [["one"; "None"; "None"; "READY"; "None"; "None"]] |}.

(** An error response that is declared as JSON and has no body that
    parses. *)
Definition broken_json_response : Response :=
  {| headers := json_headers; json_body := None |}.

(** * Properties *)

(** ** Keys and dictionaries *)

Lemma key_eqb_refl (k : value) : hashable k = true -> key_eqb k k = true.
Proof.
  destruct k; simpl; intros H; try discriminate H; auto.
  - apply Bool.eqb_reflx.
  - apply Z.eqb_refl.
  - apply String.eqb_refl.
Qed.

Lemma key_eqb_sym (a b : value) : key_eqb a b = key_eqb b a.
Proof.
  destruct a, b; simpl; auto.
  - destruct b0, b; reflexivity.
  - apply Z.eqb_sym.
  - apply Z.eqb_sym.
  - apply Z.eqb_sym.
  - apply String.eqb_sym.
Qed.

(** Equal keys are equal to the same keys. *)
Lemma key_eqb_trans (a b c : value) :
  key_eqb a b = true -> key_eqb a c = key_eqb b c.
Proof.
  destruct a, b; simpl; intros H; try discriminate H; auto.
  - apply Bool.eqb_prop in H. subst. reflexivity.
  - apply Z.eqb_eq in H. subst. destruct c; simpl; auto.
    destruct b, b0; reflexivity.
  - apply Z.eqb_eq in H. subst. destruct c; simpl; auto.
    destruct b, b0; reflexivity.
  - apply Z.eqb_eq in H. subst. reflexivity.
  - apply String.eqb_eq in H. subst. reflexivity.
Qed.

Lemma key_eqb_hashable (a b : value) : key_eqb a b = true -> hashable a = true.
Proof. destruct a, b; simpl; intros H; try discriminate H; reflexivity. Qed.

Lemma lookup_set (d : dict) (k' v k : value) :
  hashable k' = true ->
  lookup k (set d k' v) = if key_eqb k' k then Some v else lookup k d.
Proof.
  intros Hk. induction d as [|[k0 v0] d IH]; simpl.
  - reflexivity.
  - destruct (key_eqb k0 k') eqn:E; simpl.
    + rewrite (key_eqb_trans k0 k' k E). destruct (key_eqb k' k); reflexivity.
    + rewrite IH. destruct (key_eqb k0 k) eqn:E0; [|reflexivity].
      destruct (key_eqb k' k) eqn:E1; [|reflexivity].
      rewrite (key_eqb_trans k0 k k' E0) in E. rewrite key_eqb_sym in E.
      congruence.
Qed.

Lemma lookup_set_other (d : dict) (k' v k : value) :
  key_eqb k' k = false -> lookup k (set d k' v) = lookup k d.
Proof.
  intros Hk. induction d as [|[k0 v0] d IH]; simpl.
  - rewrite Hk. reflexivity.
  - destruct (key_eqb k0 k') eqn:E; simpl.
    + rewrite (key_eqb_trans k0 k' k E), Hk. reflexivity.
    + rewrite IH. reflexivity.
Qed.

Lemma wf_dict_set (d : dict) (k v : value) :
  hashable k = true -> wf_dict d = true -> wf_dict (set d k v) = true.
Proof.
  intros Hk. induction d as [|[k0 v0] d IH]; simpl; intros Hd.
  - rewrite Hk. reflexivity.
  - apply andb_prop in Hd. destruct Hd as [Hd Hd2]. apply andb_prop in Hd.
    destruct Hd as [Hh Hl].
    destruct (key_eqb k0 k) eqn:E; simpl.
    + rewrite Hh, Hl, Hd2. reflexivity.
    + rewrite Hh, (IH Hd2). rewrite lookup_set by exact Hk.
      rewrite key_eqb_sym, E. rewrite Hl. reflexivity.
Qed.

Lemma lookup_key_eqb (d : dict) (a b : value) :
  key_eqb a b = true -> lookup a d = lookup b d.
Proof.
  intros H. induction d as [|[k0 v0] d IH]; simpl; [reflexivity|].
  rewrite IH. rewrite (key_eqb_sym k0 a), (key_eqb_sym k0 b).
  rewrite (key_eqb_trans a b k0 H). reflexivity.
Qed.

(** ** The configuration adapters *)

Section ConfigAdapters.

Lemma is_config_list_keyed (l : list value) : is_config_list l = true -> keyed l = true.
Proof.
  induction l as [|cfg rest IH]; simpl; intros Hl; [reflexivity|].
  apply andb_prop in Hl. destruct Hl as [Hcfg Hrest]. rewrite (IH Hrest).
  destruct (entry_key cfg); [|discriminate Hcfg].
  destruct (entry_value cfg); [|discriminate Hcfg]. rewrite Hcfg. reflexivity.
Qed.

Lemma dict_of_entries_spec (l : list value) :
  keyed l = true ->
  forall acc, wf_dict acc = true ->
  exists d, dict_of_entries acc l = Ok d /\ wf_dict d = true /\
            forall k, lookup k d = match last_value l k with
                                   | Some v => Some v
                                   | None => lookup k acc
                                   end.
Proof.
  induction l as [|cfg rest IH]; simpl; intros Hl acc Hacc.
  - exists acc. auto.
  - apply andb_prop in Hl. destruct Hl as [Hcfg Hrest].
    destruct cfg as [| | | | |e]; simpl in Hcfg; try discriminate Hcfg.
    unfold value_of. simpl.
    destruct (lookup (VStr "key") e) as [k0|] eqn:Ek; [|discriminate Hcfg].
    simpl. rewrite Hcfg.
    set (v0 := match lookup (VStr "value") e with
               | Some v => v
               | None => VStr EmptyString
               end).
    destruct (IH Hrest (set acc k0 v0) (wf_dict_set acc k0 v0 Hcfg Hacc))
      as [d [Hd [Hwf Hlook]]].
    exists d. repeat split; auto.
    intros k. rewrite Hlook. destruct (last_value rest k); [reflexivity|].
    rewrite lookup_set by exact Hcfg. destruct (key_eqb k0 k); reflexivity.
Qed.

Lemma entry_of_key (kv : value * value) : entry_key (entry_of kv) = Some (fst kv).
Proof. reflexivity. Qed.

Lemma entry_of_value (kv : value * value) : entry_value (entry_of kv) = Some (snd kv).
Proof. reflexivity. Qed.

Lemma last_value_entries (d : dict) (k : value) :
  wf_dict d = true -> last_value (map entry_of d) k = lookup k d.
Proof.
  induction d as [|[k0 v0] d IH]; simpl; intros Hd; [reflexivity|].
  apply andb_prop in Hd. destruct Hd as [Hd Hd2]. apply andb_prop in Hd.
  destruct Hd as [Hh Hl].
  rewrite (IH Hd2). destruct (key_eqb k0 k) eqn:E.
  - rewrite <- (lookup_key_eqb d k0 k E). destruct (lookup k0 d); [discriminate Hl|].
    reflexivity.
  - destruct (lookup k d); reflexivity.
Qed.

Lemma has_key_entries (d : dict) (k : value) :
  has_key (map entry_of d) k = match lookup k d with Some _ => true | None => false end.
Proof.
  induction d as [|[k0 v0] d IH]; simpl; [reflexivity|].
  rewrite IH. destruct (key_eqb k0 k); reflexivity.
Qed.

Lemma distinct_keys_entries (d : dict) :
  wf_dict d = true -> distinct_keys (map entry_of d) = true.
Proof.
  induction d as [|[k0 v0] d IH]; simpl; intros Hd; [reflexivity|].
  apply andb_prop in Hd. destruct Hd as [Hd Hd2]. apply andb_prop in Hd.
  destruct Hd as [Hh Hl].
  rewrite has_key_entries, (IH Hd2). destruct (lookup k0 d); [discriminate Hl|].
  reflexivity.
Qed.

Lemma is_config_list_entries (d : dict) :
  wf_dict d = true -> is_config_list (map entry_of d) = true.
Proof.
  induction d as [|[k0 v0] d IH]; simpl; intros Hd; [reflexivity|].
  apply andb_prop in Hd. destruct Hd as [Hd Hd2]. apply andb_prop in Hd.
  destruct Hd as [Hh Hl]. rewrite Hh, (IH Hd2). reflexivity.
Qed.

Lemma has_key_last_value (l : list value) (k : value) :
  is_config_list l = true ->
  has_key l k = match last_value l k with Some _ => true | None => false end.
Proof.
  induction l as [|cfg rest IH]; simpl; intros Hl; [reflexivity|].
  apply andb_prop in Hl. destruct Hl as [Hcfg Hrest]. rewrite (IH Hrest).
  destruct (entry_key cfg) as [k0|]; [|discriminate Hcfg].
  destruct (last_value rest k); [apply orb_true_r|].
  destruct (key_eqb k0 k); reflexivity.
Qed.

(** C9.  For a configuration list whose entries each carry a key and a
    value, converting to a dictionary and back succeeds and yields a
    configuration list with the same set of keys in which every key
    occurs once and has the value of its last occurrence in the original
    list: duplicates collapse and the last write wins. *)
Theorem config_round_trip_last_write_wins (l : list value) :
  is_config_list l = true ->
  exists l',
    config_round_trip (VList l) = Ok (VList l') /\
    is_config_list l' = true /\
    distinct_keys l' = true /\
    forall k, has_key l' k = has_key l k /\ last_value l' k = last_value l k.
Proof.
  intros Hl.
  destruct (dict_of_entries_spec l (is_config_list_keyed l Hl) [] eq_refl)
    as [d [Hd [Hwf Hlook]]].
  exists (map entry_of d). unfold config_round_trip, _config_list_to_dict. simpl.
  rewrite Hd. simpl. split; [reflexivity|].
  split; [apply is_config_list_entries; exact Hwf|].
  split; [apply distinct_keys_entries; exact Hwf|].
  intros k.
  assert (Hv : last_value (map entry_of d) k = last_value l k).
  { rewrite last_value_entries by exact Hwf. rewrite Hlook.
    destruct (last_value l k); reflexivity. }
  split; [|exact Hv].
  rewrite has_key_entries, (has_key_last_value l k Hl).
  rewrite <- Hv, last_value_entries by exact Hwf. reflexivity.
Qed.

Lemma eq_str_key_eqb (k' : value) (k : string) : eq_str k' k = key_eqb k' (VStr k).
Proof. destruct k'; reflexivity. Qed.

Lemma last_value_app (l1 l2 : list value) (k : value) :
  last_value (l1 ++ l2) k = match last_value l2 k with
                            | Some v => Some v
                            | None => last_value l1 k
                            end.
Proof.
  induction l1 as [|cfg l1 IH]; simpl.
  - destruct (last_value l2 k); reflexivity.
  - rewrite IH. destruct (last_value l2 k); reflexivity.
Qed.

Lemma keyed_app (l1 l2 : list value) : keyed (l1 ++ l2) = keyed l1 && keyed l2.
Proof. apply forallb_app. Qed.

Lemma last_value_absent (l : list value) (k : string) :
  occurrences l k = 0 -> last_value l (VStr k) = None.
Proof.
  unfold occurrences. induction l as [|cfg l IH]; simpl; intros H; [reflexivity|].
  destruct (entry_key cfg) as [k'|].
  - rewrite <- eq_str_key_eqb. destruct (eq_str k' k); [discriminate H|].
    rewrite (IH H). reflexivity.
  - rewrite (IH H). reflexivity.
Qed.

(** What [next] finds in a list of entries with keys. *)
Lemma next_cfg_spec (l : list value) (k : string) :
  keyed l = true ->
  (occurrences l k = 0 /\ next_cfg l k = Ok None) \/
  (exists before item after k',
      l = (before ++ item :: after)%list /\
      occurrences l k = S (occurrences after k) /\
      entry_key item = Some k' /\ eq_str k' k = true /\
      next_cfg l k = Ok (Some (before, item, after))).
Proof.
  unfold occurrences.
  induction l as [|cfg l IH]; simpl; intros Hl; [left; auto|].
  apply andb_prop in Hl. destruct Hl as [Hcfg Hrest].
  destruct cfg as [| | | | |e]; simpl in Hcfg; try discriminate Hcfg.
  simpl. destruct (lookup (VStr "key") e) as [k0|] eqn:Ek; [|discriminate Hcfg].
  simpl. destruct (eq_str k0 k) eqn:E.
  - right. exists [], (VDict e), l, k0. simpl. rewrite Ek. auto.
  - destruct (IH Hrest) as [[H0 Hn]|[before [item [after [k' [Hl [Hocc [Hk [He Hn]]]]]]]]].
    + left. rewrite Hn. auto.
    + right. exists (VDict e :: before)%list, item, after, k'.
      rewrite Hn. simpl. rewrite Hl at 1. auto.
Qed.

(** On a list of entries with keys in which the key occurs at most once,
    [_set_configuration_key] returns a list of entries with keys whose
    last entry with the key has the new value. *)
Lemma set_configuration_key_spec (l : list value) (k : string) (v : value) :
  keyed l = true -> occurrences l k <= 1 ->
  exists l', _set_configuration_key (VList l) k v = Ok (VList l') /\
             keyed l' = true /\ last_value l' (VStr k) = Some v.
Proof.
  intros Hl Hocc. unfold _set_configuration_key. simpl.
  destruct (next_cfg_spec l k Hl)
    as [[H0 Hn]|[before [item [after [k' [Heq [Hc [Hk [He Hn]]]]]]]]]; rewrite Hn; simpl.
  - eexists. split; [reflexivity|]. split.
    + rewrite keyed_app, Hl. reflexivity.
    + rewrite last_value_app. simpl. rewrite String.eqb_refl. reflexivity.
  - destruct item as [| | | | |e]; try discriminate Hk. simpl in Hk.
    assert (Hne : truthy (VDict e) = true).
    { destruct e; [discriminate Hk|reflexivity]. }
    rewrite Hne. simpl. eexists. split; [reflexivity|].
    assert (Hk2 : lookup (VStr "key") (set e (VStr "value") v) = Some k').
    { rewrite lookup_set_other by reflexivity. exact Hk. }
    rewrite Heq, keyed_app in Hl. apply andb_prop in Hl. destruct Hl as [Hb Ha].
    simpl in Ha. rewrite Hk in Ha. split.
    + rewrite keyed_app, Hb. simpl. rewrite Hk2. exact Ha.
    + rewrite last_value_app. simpl.
      rewrite last_value_absent by lia.
      rewrite Hk2, <- eq_str_key_eqb, He. unfold value_of. simpl.
      rewrite lookup_set by reflexivity. reflexivity.
Qed.

(** The dictionary of a list of entries with keys binds a key to the
    value of the last entry with it. *)
Lemma config_list_to_dict_spec (l : list value) :
  keyed l = true ->
  exists d, _config_list_to_dict (VList l) = Ok (VDict d) /\
            forall k, lookup k d = last_value l k.
Proof.
  intros Hl. destruct (dict_of_entries_spec l Hl [] eq_refl) as [d [Hd [_ Hlook]]].
  exists d. unfold _config_list_to_dict. simpl. rewrite Hd. split; [reflexivity|].
  intros k. rewrite Hlook. destruct (last_value l k); reflexivity.
Qed.

End ConfigAdapters.

Lemma config_round_trip_last_write_wins_witness :
  exists l',
    config_round_trip (VList [entry "A" "1"; entry "B" "2"; entry "A" "3"]) = Ok (VList l') /\
    is_config_list l' = true /\
    distinct_keys l' = true /\
    forall k, has_key l' k = has_key [entry "A" "1"; entry "B" "2"; entry "A" "3"] k /\
              last_value l' k = last_value [entry "A" "1"; entry "B" "2"; entry "A" "3"] k.
Proof.
  apply (config_round_trip_last_write_wins [entry "A" "1"; entry "B" "2"; entry "A" "3"]).
  reflexivity.
Defined.

(** The order of the list and its duplicates are not kept. *)
Example config_round_trip_collapses :
  config_round_trip (VList [entry "B" "2"; entry "A" "1"; entry "B" "3"])
  = Ok (VList [entry "B" "3"; entry "A" "1"]).
Proof. reflexivity. Qed.

(** ** The error normaliser *)

Lemma prefix_spec (sub s : string) :
  String.prefix sub s = true <-> exists after, s = sub ++ after.
Proof.
  revert s. induction sub as [|a sub IH]; intros s; destruct s as [|b s]; simpl.
  - split; [eauto|reflexivity].
  - split; [eauto|reflexivity].
  - split; [discriminate|]. intros [after H]. discriminate H.
  - destruct (ascii_dec a b) as [->|Hne].
    + rewrite IH. split; intros [after H]; exists after.
      * rewrite H. reflexivity.
      * injection H as H. exact H.
    + split; [discriminate|]. intros [after H]. injection H as Hb _.
      congruence.
Qed.

Lemma contains_spec (sub s : string) :
  contains sub s = true <-> exists before after, s = before ++ sub ++ after.
Proof.
  split.
  - induction s as [|c s IH]; cbn [contains]; intros H.
    + apply orb_prop in H. destruct H as [H|H]; [|discriminate H].
      apply prefix_spec in H. destruct H as [after H].
      exists EmptyString, after. exact H.
    + apply orb_prop in H. destruct H as [H|H].
      * apply prefix_spec in H. destruct H as [after H].
        exists EmptyString, after. exact H.
      * destruct (IH H) as [b [a Ha]]. exists (String c b), a. simpl. f_equal. exact Ha.
  - intros [before [after H]]. subst s.
    induction before as [|c b IH].
    + assert (Hp : String.prefix sub (sub ++ after) = true).
      { apply prefix_spec. eauto. }
      cbn [append]. destruct (sub ++ after); cbn [contains]; rewrite Hp; reflexivity.
    + cbn [append contains]. rewrite IH. apply orb_true_r.
Qed.

Lemma endswith_spec (s suffix : string) :
  endswith s suffix = true <-> exists before, s = before ++ suffix.
Proof.
  split.
  - induction s as [|c s IH]; cbn [endswith]; intros H.
    + apply orb_prop in H. destruct H as [H|H]; [|discriminate H].
      apply String.eqb_eq in H. exists EmptyString. exact H.
    + apply orb_prop in H. destruct H as [H|H].
      * apply String.eqb_eq in H. exists EmptyString. exact H.
      * destruct (IH H) as [b Hb]. exists (String c b). simpl. f_equal. exact Hb.
  - intros [before H]. subst s. induction before as [|c b IH].
    + cbn [append]. destruct suffix; cbn [endswith]; rewrite String.eqb_refl; reflexivity.
    + cbn [append endswith]. rewrite IH. apply orb_true_r.
Qed.

(** C1.  A transport error whose response is not declared as JSON is
    returned as it is.  Otherwise the parsed body decides, in this order:
    a log whose first message ends with the text for an existing
    repository gives the already-exists error; the exception text for a
    missing relation gives the not-exists error, whose exception text is
    replaced by the fixed one; anything else gives the generic request
    error around the unchanged messages. *)
Theorem exception_from_http_error_classifies (response : Response) :
  (is_json response = false ->
   exception_from_http_error (HTTPRequestError response)
   = Ok (HTTPRequestError response)) /\
  (forall messages,
     is_json response = true ->
     json_body response = Some (VDict messages) ->
     error_body_shape messages = true ->
     exception_from_http_error (HTTPRequestError response)
     = Ok (classification messages)).
Proof.
  unfold is_json. split.
  - intros Hct. simpl. rewrite Hct. reflexivity.
  - intros messages Hct Hbody Hshape. simpl. rewrite Hct. simpl.
    unfold response_json. rewrite Hbody. simpl.
    unfold classification, log_reports_existing, exception_is.
    unfold error_body_shape in Hshape.
    assert (Hexc :
      (exception <~ Ok match lookup (VStr "exception") messages with
                       | Some v => v
                       | None => VNone
                       end ;;
       if eq_str exception no_relation_message
       then new_GCTSRepoNotExistsError (VDict messages)
       else Ok (GCTSRequestError (VDict messages)))
      = Ok (if match lookup (VStr "exception") messages with
               | Some (VStr s) => String.eqb s no_relation_message
               | _ => false
               end
            then GCTSRepoNotExistsError
                   (VDict (set messages (VStr "exception")
                             (VStr "Repository does not exist")))
            else GCTSRequestError (VDict messages))).
    { simpl. destruct (lookup (VStr "exception") messages) as [[| | |s| |]|];
        simpl; try reflexivity.
      destruct (String.eqb s no_relation_message); reflexivity. }
    destruct (lookup (VStr "log") messages) as [log|]; [|exact Hexc].
    cbn [bindR]. destruct (truthy log) eqn:Hlog.
    + destruct log as [| | | |[|first rest]|]; try discriminate Hshape.
      destruct first as [| | | | |first]; try discriminate Hshape. simpl.
      destruct (lookup (VStr "message") first) as [[| | |s| |]|];
        simpl; try discriminate Hshape.
      * destruct (endswith s already_exists_suffix); [reflexivity|exact Hexc].
      * exact Hexc.
    + cbn [bindR].
      assert (Hno : match log with
                    | VList (VDict first :: _) =>
                        match lookup (VStr "message") first with
                        | Some (VStr s) => endswith s already_exists_suffix
                        | _ => false
                        end
                    | _ => false
                    end = false).
      { destruct log as [| | | |[|first rest]|]; try reflexivity. discriminate Hlog. }
      rewrite Hno. exact Hexc.
Qed.

Lemma exception_from_http_error_classifies_witness :
  exception_from_http_error (HTTPRequestError html_response)
  = Ok (HTTPRequestError html_response) /\
  exception_from_http_error (HTTPRequestError (json_response (VDict exists_body)))
  = Ok (GCTSRepoAlreadyExistsError (VDict exists_body)) /\
  exception_from_http_error (HTTPRequestError (json_response (VDict not_exists_body)))
  = Ok (GCTSRepoNotExistsError
          (VDict [(VStr "exception", VStr "Repository does not exist")])).
Proof.
  split; [|split].
  - apply (proj1 (exception_from_http_error_classifies html_response)). reflexivity.
  - apply (proj2 (exception_from_http_error_classifies (json_response (VDict exists_body)))
             exists_body); reflexivity.
  - apply (proj2 (exception_from_http_error_classifies
                    (json_response (VDict not_exists_body))) not_exists_body); reflexivity.
Defined.

(** ** The proxy and its cache *)

Section Proxy.
Context {St : Type}.
Implicit Types (r : Repository.t St) (w : World St).

Lemma decorated_call {A : Type} (rq : Connection.Request) (f : St -> res A * St) w :
  _http_to_gcts_error (Connection.recorded rq f) w
  = (normalised (fst (f (srv w))), after_call w rq (snd (f (srv w)))).
Proof.
  unfold _http_to_gcts_error, try_except, Connection.recorded, after_call, normalised.
  destruct (f (srv w)) as [[a|e] s]; cbn [fst snd]; [reflexivity|].
  destruct e; try reflexivity.
  unfold bind, liftR, raise.
  destruct (exception_from_http_error (HTTPRequestError response)); reflexivity.
Qed.

Lemma normalised_Ok {A : Type} (r : res A) (a : A) : normalised r = Ok a -> r = Ok a.
Proof.
  unfold normalised. destruct r as [x|e]; [auto|].
  destruct e; try discriminate.
  destruct (exception_from_http_error (HTTPRequestError response)); discriminate.
Qed.

Lemma normalised_Raise {A : Type} (e : exn) :
  exists e', @normalised A (Raise e) = Raise e'.
Proof.
  unfold normalised. destruct e; eauto.
  destruct (exception_from_http_error (HTTPRequestError response)); eauto.
Qed.

Lemma normalised_Raise_both {A B : Type} (e : exn) :
  exists e', @normalised A (Raise e) = Raise e' /\ @normalised B (Raise e) = Raise e'.
Proof.
  unfold normalised. destruct e; eauto.
  destruct (exception_from_http_error (HTTPRequestError response)); eauto.
Qed.

Ltac run :=
  unfold Repository._get_item, Repository._fetch_data, Repository.assign_data,
    Repository.wipe_data, HttpProxy.get_json, HttpProxy.get, HttpProxy.post,
    HttpProxy.post_obj_as_json, HttpProxy.delete,
    Connection.call_get_json, Connection.call_execute,
    Connection.call_post_obj_as_json,
    Repository.http, Repository.self, Repository.put_self,
    bind, ret, raise, liftR;
  cbn [fst snd];
  rewrite ?decorated_call;
  cbn [fst snd].

Ltac run_in H :=
  unfold Repository._get_item, Repository._fetch_data, Repository.assign_data,
    Repository.wipe_data, HttpProxy.get_json, HttpProxy.get, HttpProxy.post,
    HttpProxy.post_obj_as_json, HttpProxy.delete,
    Connection.call_get_json, Connection.call_execute,
    Connection.call_post_obj_as_json,
    Repository.http, Repository.self, Repository.put_self,
    bind, ret, raise, liftR in H;
  cbn [fst snd] in H;
  rewrite ?decorated_call in H;
  cbn [fst snd] in H.

Lemma get_item_unfetched r w (item : string) (default : value) :
  Repository._data r = VNone ->
  exists res r2,
    Repository._get_item item default false (r, w)
    = (res, (r2, after_call w (GetJson (resource r))
                   (snd (Connection.get_json (connection_of r) (resource r) (srv w)))))
    /\ forall response d,
         fst (Connection.get_json (connection_of r) (resource r) (srv w)) = Ok response ->
         py_getitem response "result" = Ok (VDict d) ->
         res = Ok (match lookup (VStr item) d with Some v => v | None => default end)
         /\ r2 = Repository.with_data (Repository.detach r) (VDict d).
Proof.
  intros Hd. run. rewrite Hd. cbn [is_None orb]. run.
  unfold resource, connection_of, HttpProxy._build_url.
  destruct (Connection.get_json _ _ (srv w)) as [out s]. cbn [fst snd].
  destruct (normalised out) as [response|e] eqn:Hout.
  - apply normalised_Ok in Hout. subst out.
    destruct (py_getitem response "result") as [data|e] eqn:Hres.
    + cbn [fst snd]. do 2 eexists. split; [reflexivity|].
      intros response' d Hr Hd'. injection Hr as <-. rewrite Hres in Hd'.
      injection Hd' as ->. split; reflexivity.
    + do 2 eexists. split; [reflexivity|].
      intros response' d Hr Hd'. injection Hr as <-. congruence.
  - do 2 eexists. split; [reflexivity|].
    intros response d Hr _. subst out. discriminate Hout.
Qed.

Lemma get_item_cached r w (item : string) (default : value) :
  is_None (Repository._data r) = false ->
  Repository._get_item item default false (r, w)
  = (py_get (Repository._data r) item default, (r, w)).
Proof. intros Hd. run. rewrite Hd. reflexivity. Qed.

Lemma get_item_keeps_proxy r w (item : string) (default : value) (fetch : bool) :
  Repository._http (fst (snd (Repository._get_item item default fetch (r, w))))
  = Repository._http r.
Proof.
  run. destruct (is_None (Repository._data r) || fetch); [|reflexivity].
  run. destruct (normalised _) as [response|e]; [|reflexivity].
  destruct (py_getitem response "result"); reflexivity.
Qed.

Lemma read_is_get_item (a : attribute) :
  @read St a = Repository._get_item (field a) VNone false.
Proof. destruct a; reflexivity. Qed.

(** C3.  When clone, checkout, pull, delete or commit_transport returns,
    the snapshot and the configuration cache are cleared.  The next read
    of an attribute then makes exactly one call, the fetch of the
    repository resource, and answers with the field of the fetched
    snapshot, which it keeps. *)
Theorem mutating_operations_clear_the_snapshot
    (op : operation) r w r' w' :
  perform op (r, w) = (Ok tt, (r', w')) ->
  Repository._data r' = VNone /\
  Repository._config r' = Repository.Own VNone /\
  Repository._http r' = Repository._http r /\
  forall (a : attribute) (w2 : World St),
    let answer := Connection.get_json (connection_of r') (resource r') (srv w2) in
    exists res r2,
      read a (r', w2) = (res, (r2, after_call w2 (GetJson (resource r')) (snd answer)))
      /\ forall response d,
           fst answer = Ok response ->
           py_getitem response "result" = Ok (VDict d) ->
           res = Ok (match lookup (VStr (field a)) d with Some v => v | None => VNone end)
           /\ Repository._data r2 = VDict d.
Proof.
  intros Hop.
  assert (Hwiped : Repository._data r' = VNone /\
                   Repository._config r' = Repository.Own VNone /\
                   Repository._http r' = Repository._http r).
  { destruct op; unfold perform in Hop.
    - unfold Repository.clone in Hop. run_in Hop.
      destruct (normalised _); inversion Hop; subst; auto.
    - unfold Repository.checkout, Repository.branch in Hop.
      unfold bind at 1 2 in Hop.
      pose proof (get_item_keeps_proxy r w "branch" VNone false) as Hk.
      destruct (Repository._get_item "branch" VNone false (r, w)) as [[b|e] [r1 w1]];
        [|discriminate Hop].
      cbn [fst snd] in Hk. run_in Hop.
      destruct (normalised _); [|discriminate Hop].
      destruct (response_json a); [|discriminate Hop].
      destruct (py_getitem a0 "result"); inversion Hop; subst; auto.
    - unfold Repository.pull in Hop. run_in Hop.
      destruct (normalised _); inversion Hop; subst; auto.
    - unfold Repository.delete in Hop. run_in Hop.
      destruct (normalised _); inversion Hop; subst; auto.
    - unfold Repository.commit_transport in Hop. run_in Hop.
      destruct (normalised _); inversion Hop; subst; auto. }
  destruct Hwiped as [Hd [Hc Hh]]. repeat split; auto.
  intros a w2 answer. rewrite read_is_get_item.
  destruct (get_item_unfetched r' w2 (field a) VNone Hd) as [res [r2 [Heq Hok]]].
  exists res, r2. split; [exact Heq|].
  intros response d Hr Hres. destruct (Hok response d Hr Hres) as [-> ->].
  split; reflexivity.
Qed.

(** C8.  On a repository whose current branch is [b], [checkout t] asks
    for [branches/b/switch] below the repository resource with a [GET]
    whose parameters bind ['branch'] to the target [t]; when the call
    succeeds the cache is cleared and the ['result'] of the JSON body is
    returned. *)
Theorem checkout_switches_from_the_current_branch r w (b t : string) (w1 : World St) :
  on_branch r w b w1 ->
  let switch_url := resource r ++ "/branches/" ++ b ++ "/switch" in
  let params := VDict [(VStr "branch", VStr t)] in
  let answer := Connection.execute (connection_of r) "GET" switch_url params (srv w1) in
  exists res r',
    Repository.checkout t (r, w)
    = (res, (r', after_call w1 (Execute "GET" switch_url params) (snd answer)))
    /\ forall response json result,
         fst answer = Ok response ->
         json_body response = Some json ->
         py_getitem json "result" = Ok result ->
         res = Ok result /\
         Repository._data r' = VNone /\
         Repository._config r' = Repository.Own VNone.
Proof.
  intros Hb switch_url params answer.
  assert (Hread : exists r1,
             Repository._get_item "branch" VNone false (r, w) = (Ok (VStr b), (r1, w1))
             /\ Repository._http r1 = Repository._http r).
  { destruct Hb as [d Hd Hl | response d Hd Hr Hres Hl].
    - exists r. split; [|reflexivity].
      rewrite get_item_cached by (rewrite Hd; reflexivity).
      rewrite Hd. simpl. rewrite Hl. reflexivity.
    - pose proof (get_item_keeps_proxy r w "branch" VNone false) as Hk.
      destruct (get_item_unfetched r w "branch" VNone Hd) as [res [r2 [Heq Hok]]].
      destruct (Hok response d Hr Hres) as [-> _]. rewrite Hl in Heq.
      rewrite Heq in Hk. exists r2. split; [exact Heq|exact Hk]. }
  destruct Hread as [r1 [Heq Hk]].
  unfold Repository.checkout, Repository.branch. unfold bind at 1. rewrite Heq.
  run. unfold HttpProxy._build_url. cbn [str]. rewrite Hk.
  fold (resource r). fold (connection_of r). fold params.
  change (resource r ++ "/" ++ "branches/" ++ b ++ "/switch") with switch_url.
  fold answer.
  destruct (fst answer) as [response|e] eqn:Hans.
  - cbn [normalised]. destruct (response_json response) as [json|e] eqn:Hjson.
    + do 2 eexists. split; [reflexivity|].
      intros response' json' result Hr Hj Hres. injection Hr as <-.
      unfold response_json in Hjson. rewrite Hj in Hjson. injection Hjson as <-.
      rewrite Hres. cbn. auto.
    + do 2 eexists. split; [reflexivity|].
      intros response' json' result Hr Hj Hres. injection Hr as <-.
      unfold response_json in Hjson. rewrite Hj in Hjson. discriminate Hjson.
  - destruct (@normalised_Raise Response e) as [e' ->].
    do 2 eexists. split; [reflexivity|].
    intros response json result Hr. discriminate Hr.
Qed.

(** ** [set_url] *)

Lemma set_url_same_url r w (u : string) (answer : value) (d : dict) :
  fst (Connection.get_json (connection_of r) (resource r) (srv w)) = Ok answer ->
  py_getitem answer "result" = Ok (VDict d) ->
  lookup (VStr "url") d = Some (VStr u) ->
  Repository.set_url u (r, w)
  = (Ok None, (r, after_call w (GetJson (resource r))
                    (snd (Connection.get_json (connection_of r) (resource r) (srv w))))).
Proof.
  intros Ha Hd Hu. unfold Repository.set_url. run.
  unfold HttpProxy._build_url. fold (resource r). fold (connection_of r).
  rewrite Ha. cbn [normalised]. rewrite Hd. cbn [py_getitem]. rewrite Hu.
  cbn [eq_str]. rewrite String.eqb_refl. reflexivity.
Qed.

(** One call of [set_url] leaves the proxy as it is, starts with the
    fetch and posts at most once; when it posts and returns, the posted
    object carries the new URL. *)
Lemma set_url_calls r w (u : string) :
  exists res w' rest,
    Repository.set_url u (r, w) = (res, (r, w')) /\
    calls w' = (calls w ++ GetJson (resource r) :: rest)%list /\
    (rest = [] \/
     exists data s response_or_error,
       rest = [PostObjAsJson (resource r) (VDict data) None] /\
       lookup (VStr "url") data = Some (VStr u) /\
       Connection.post_obj_as_json (connection_of r) (resource r) (VDict data) None s
       = (response_or_error, srv w') /\
       forall x, res = Ok x -> exists response, response_or_error = Ok response).
Proof.
  unfold Repository.set_url. run.
  unfold HttpProxy._build_url. fold (resource r). fold (connection_of r).
  destruct (Connection.get_json (connection_of r) (resource r) (srv w)) as [out s1].
  cbn [fst snd].
  destruct (normalised out) as [answer|e];
    [|do 3 eexists; split; [reflexivity|]; split; [reflexivity|left; reflexivity]].
  destruct (py_getitem answer "result") as [data|e];
    [|do 3 eexists; split; [reflexivity|]; split; [reflexivity|left; reflexivity]].
  destruct (py_getitem data "url") as [current|e] eqn:Hcur;
    [|do 3 eexists; split; [reflexivity|]; split; [reflexivity|left; reflexivity]].
  destruct (eq_str current u);
    [do 3 eexists; split; [reflexivity|]; split; [reflexivity|left; reflexivity]|].
  destruct data as [| | | | |d]; try discriminate Hcur.
  cbn [py_setitem]. run. fold (resource r). fold (connection_of r).
  change (srv (after_call w (GetJson (resource r)) s1)) with s1.
  destruct (Connection.post_obj_as_json _ _ _ _ s1) as [out2 s2] eqn:Hpost.
  cbn [fst snd].
  assert (Hurl : lookup (VStr "url") (set d (VStr "url") (VStr u)) = Some (VStr u)).
  { rewrite lookup_set by reflexivity. reflexivity. }
  destruct (normalised out2) as [response|e] eqn:Hout.
  - apply normalised_Ok in Hout. subst out2.
    do 3 eexists. split; [reflexivity|]. unfold after_call. cbn [calls srv]. split.
    + rewrite <- app_assoc. reflexivity.
    + right. do 3 eexists. split; [reflexivity|]. split; [exact Hurl|].
      split; [exact Hpost|]. intros x _. eauto.
  - do 3 eexists. split; [reflexivity|]. unfold after_call. cbn [calls srv]. split.
    + rewrite <- app_assoc. reflexivity.
    + right. do 3 eexists. split; [reflexivity|]. split; [exact Hurl|].
      split; [exact Hpost|]. intros x Hx. discriminate Hx.
Qed.

Lemma posts_app (l1 l2 : list Connection.Request) :
  posts (l1 ++ l2) = posts l1 + posts l2.
Proof. unfold posts. rewrite filter_app, length_app. reflexivity. Qed.

(** C7.  [set_url] starts with a fetch of the current data, and when the
    fetched URL is the requested one it returns nothing and posts
    nothing.  On a server that applies a posted change, two calls in
    succession with the same URL post at most once. *)
Theorem set_url_is_idempotent r w (u : string) :
  applies_url (connection_of r) (resource r) ->
  (forall answer d,
     fst (Connection.get_json (connection_of r) (resource r) (srv w)) = Ok answer ->
     py_getitem answer "result" = Ok (VDict d) ->
     lookup (VStr "url") d = Some (VStr u) ->
     exists w', Repository.set_url u (r, w) = (Ok None, (r, w')) /\
                calls w' = (calls w ++ [GetJson (resource r)])%list) /\
  exists res w' rest,
    set_url_twice u (r, w) = (res, (r, w')) /\
    calls w' = (calls w ++ GetJson (resource r) :: rest)%list /\
    posts rest <= 1.
Proof.
  intros Hsrv. split.
  - intros answer d Ha Hd Hu. eexists. split.
    + apply (set_url_same_url r w u answer d Ha Hd Hu).
    + reflexivity.
  - unfold set_url_twice. unfold bind.
    destruct (set_url_calls r w u) as [res1 [w1 [rest1 [Heq1 [Hc1 Hrest1]]]]].
    rewrite Heq1. destruct res1 as [x|e].
    + destruct Hrest1 as [->|[data [s [out [-> [Hurl [Hpost Hok]]]]]]].
      * destruct (set_url_calls r w1 u) as [res2 [w2 [rest2 [Heq2 [Hc2 Hrest2]]]]].
        exists res2, w2, (GetJson (resource r) :: rest2)%list.
        split; [exact Heq2|]. split.
        -- rewrite Hc2, Hc1, <- app_assoc. reflexivity.
        -- destruct Hrest2 as [->|[data [s [out [-> _]]]]]; cbn; lia.
      * destruct (Hok x eq_refl) as [response ->].
        destruct (Hsrv data s (srv w1) response Hpost) as [answer [d [Ha [Hd Hu]]]].
        rewrite Hurl in Hu.
        rewrite (set_url_same_url r w1 u answer d Ha Hd Hu).
        do 3 eexists. split; [reflexivity|]. cbn [after_call calls]. split.
        -- rewrite Hc1, <- !app_assoc. reflexivity.
        -- cbn. lia.
    + exists (Raise e), w1, rest1. split; [reflexivity|]. split; [exact Hc1|].
      destruct Hrest1 as [->|[data [s [out [-> _]]]]]; cbn; lia.
Qed.

(** ** The configuration cache *)

Lemma config_value_store r (c : value) :
  is_None (Repository.config_value r) = false ->
  Repository.config_value (Repository.store_config r c) = c.
Proof.
  unfold Repository.store_config, Repository.config_value.
  destruct (Repository._config r) eqn:Hc; [intros _; cbn; reflexivity|].
  unfold Repository.data_config.
  destruct (Repository._data r) as [| | | | |d] eqn:Hd; try discriminate.
  intros _. cbn. rewrite Hc. cbn.
  rewrite lookup_set by reflexivity. reflexivity.
Qed.

(** [_update_configuration] on a cache that fits: the cache becomes a
    list of entries with keys that binds the key to the value. *)
Lemma update_configuration_fits r w (k : string) (v : value) :
  cache_fits (Repository.config_value r) k ->
  exists r1 l,
    Repository._update_configuration k v (r, w) = (Ok (VList l), (r1, w)) /\
    Repository.config_value r1 = VList l /\
    keyed l = true /\ last_value l (VStr k) = Some v.
Proof.
  intros Hfit. unfold Repository._update_configuration. run.
  destruct Hfit as [Hnone|[l [Hl [Hkeyed Hocc]]]].
  - rewrite Hnone. cbn [is_None]. run.
    change (Repository.config_value (Repository.with_config r (Repository.Own (VList []))))
      with (VList []).
    destruct (set_configuration_key_spec [] k v eq_refl (Nat.le_0_l 1))
      as [l' [Hset [Hk Hv]]].
    rewrite Hset. run. exists (Repository.with_config r (Repository.Own (VList l'))), l'.
    repeat split; auto.
  - rewrite Hl. cbn [is_None]. run. rewrite Hl.
    destruct (set_configuration_key_spec l k v Hkeyed Hocc) as [l' [Hset [Hk Hv]]].
    rewrite Hset. run. exists (Repository.store_config r (VList l')), l'.
    repeat split; auto.
    apply config_value_store. rewrite Hl. reflexivity.
Qed.

(** The read after the write is a cache hit when the key is not
    duplicated: when the configuration cache is empty or is a list of
    entries with keys in which at most one entry has the key, a
    [get_config] of the key after a successful [set_config] returns the
    value that was set, makes no call and leaves the proxy as it is. *)
Theorem get_config_after_set_config r w (k : string) (v : value) r1 w1 :
  cache_fits (Repository.config_value r) k ->
  Repository.set_config k v (r, w) = (Ok tt, (r1, w1)) ->
  forall w2 : World St, Repository.get_config k (r1, w2) = (Ok v, (r1, w2)).
Proof.
  intros Hfit Hset w2. unfold Repository.set_config in Hset. run_in Hset.
  destruct (normalised _) as [response|e]; [|discriminate Hset].
  match type of Hset with
  | context [Repository._update_configuration k v (r, ?w0)] =>
      destruct (update_configuration_fits r w0 k v Hfit) as [r1' [l [Hupd [Hc [Hk Hv]]]]]
  end.
  rewrite Hupd in Hset. injection Hset as <- <-.
  unfold Repository.get_config, Repository.configuration. run.
  rewrite Hc. cbn [is_None]. run. rewrite Hc.
  destruct (config_list_to_dict_spec l Hk) as [d [Hd Hlook]].
  rewrite Hd. cbn [is_None]. rewrite Hlook, Hv. reflexivity.
Qed.

(** ** [create] *)

(** [create] on a proxy with a non-empty snapshot: the snapshot is the
    payload, and it has been changed when the request is posted. *)
Lemma create_with_snapshot r w (d : dict) (url vsid : string) (config : value)
                           (role typ : string) :
  Repository._data r = VDict d -> d <> [] ->
  let d1 := update_dict d (identity_fields (Repository._name r) url vsid role typ) in
  let r1 := Repository.with_data r (VDict d1) in
  Repository.create url vsid config role typ (r, w)
  = if truthy config then
      match merged_config (VDict d1) config with
      | Ok request_config =>
          let payload := VDict (set d1 (VStr "config") request_config) in
          post_and_store payload
            (Repository.with_data (Repository.detach r1) payload, w)
      | Raise e => (Raise e, (r1, w))
      end
    else post_and_store (VDict d1) (r1, w).
Proof.
  intros Hd Hne d1 r1. unfold Repository.create.
  unfold bind at 1. unfold Repository.self at 1. cbn [fst snd].
  rewrite Hd. assert (Ht : truthy (VDict d) = true) by (destruct d; [contradiction|reflexivity]).
  rewrite Ht.
  unfold bind at 1. unfold Repository.update_repo. cbn [py_update].
  match goal with
  | |- context [update_binds "config" ?x] => change (update_binds "config" x) with false
  end.
  run. fold (identity_fields (Repository._name r) url vsid role typ). fold d1. fold r1.
  destruct (truthy config).
  - unfold merged_config.
    destruct (py_get (VDict d1) "config" (VList [])) as [current|e]; [|reflexivity].
    cbn [bindR]. destruct (_config_list_to_dict current) as [repo_config|e]; [|reflexivity].
    cbn [bindR]. destruct (py_update repo_config config) as [[x|] repo_config']; [reflexivity|].
    destruct (_config_dict_to_list repo_config') as [request_config|e]; [|reflexivity].
    unfold Repository.setitem_repo. run. cbn [py_setitem]. run.
    unfold post_and_store. run. reflexivity.
  - unfold post_and_store. run. reflexivity.
Qed.

(** [create] on a proxy without a snapshot, or with an empty one: the
    payload is an object of its own and the proxy is as it was when the
    request is posted. *)
Lemma create_without_snapshot r w (url vsid : string) (config : value)
                              (role typ : string) :
  truthy (Repository._data r) = false ->
  let d1 := identity_fields (Repository._name r) url vsid role typ in
  Repository.create url vsid config role typ (r, w)
  = if truthy config then
      match merged_config (VDict d1) config with
      | Ok request_config =>
          post_and_store (VDict (set d1 (VStr "config") request_config)) (r, w)
      | Raise e => (Raise e, (r, w))
      end
    else post_and_store (VDict d1) (r, w).
Proof.
  intros Ht d1. unfold Repository.create.
  unfold bind at 1. unfold Repository.self at 1. cbn [fst snd].
  rewrite Ht.
  unfold bind at 1. unfold Repository.update_repo. cbn [py_update].
  run.
  repeat match goal with
         | |- context [update_dict [] ?x] => change (update_dict [] x) with d1
         end.
  destruct (truthy config).
  - unfold merged_config.
    destruct (py_get (VDict d1) "config" (VList [])) as [current|e]; [|reflexivity].
    cbn [bindR]. destruct (_config_list_to_dict current) as [repo_config|e]; [|reflexivity].
    cbn [bindR]. destruct (py_update repo_config config) as [[x|] repo_config']; [reflexivity|].
    destruct (_config_dict_to_list repo_config') as [request_config|e]; [|reflexivity].
    unfold Repository.setitem_repo. run. cbn [py_setitem]. run.
    unfold post_and_store. run. reflexivity.
  - unfold post_and_store. run. reflexivity.
Qed.

(** The second half posts exactly once, whatever happens. *)
Lemma post_and_store_run (payload : value) r w :
  let rq := PostObjAsJson "repository" (create_request (Repository._name r) payload)
              (Some "application/json") in
  let answer := Connection.post_obj_as_json (connection_of r) "repository"
                  (create_request (Repository._name r) payload)
                  (Some "application/json") (srv w) in
  exists res r',
    post_and_store payload (r, w) = (res, (r', after_call w rq (snd answer))) /\
    (forall e, fst answer = Raise e -> r' = r /\ res = normalised (Raise e)) /\
    (res = Ok tt ->
     exists response json result,
       fst answer = Ok response /\
       json_body response = Some json /\
       py_getitem json "repository" = Ok result /\
       if truthy (Repository._data r)
       then py_update (Repository._data r) result = (None, Repository._data r')
       else Repository._data r' = result).
Proof.
  intros rq answer. unfold post_and_store. run. fold rq. fold answer.
  destruct (fst answer) as [response|e] eqn:Hans.
  - cbn [normalised]. unfold response_json.
    destruct (json_body response) as [json|] eqn:Hjson.
    + destruct (py_getitem json "repository") as [result|e] eqn:Hres.
      * destruct (truthy (Repository._data r)) eqn:Ht.
        -- unfold Repository.update_repo.
           destruct (py_update (Repository._data r) result) as [[x|] repo'] eqn:Hup; run.
           ++ do 2 eexists. split; [reflexivity|]. split; [discriminate|discriminate].
           ++ do 2 eexists. split; [reflexivity|]. split; [discriminate|].
              intros _. exists response, json, result. repeat split; auto.
        -- run. do 2 eexists. split; [reflexivity|]. split; [discriminate|].
           intros _. exists response, json, result. repeat split; auto.
      * do 2 eexists. split; [reflexivity|]. split; [discriminate|discriminate].
    + do 2 eexists. split; [reflexivity|]. split; [discriminate|discriminate].
  - destruct (@normalised_Raise_both Response unit e) as [e' [He' Hu]]. rewrite He'.
    do 2 eexists. split; [reflexivity|]. split.
    + intros e0 He0. injection He0 as <-. split; [reflexivity|].
      symmetry. exact Hu.
    + discriminate.
Qed.

Lemma calls_grow (l : list Connection.Request) (rq : Connection.Request) :
  l <> (l ++ [rq])%list.
Proof.
  intros H. apply (f_equal (@length _)) in H. rewrite length_app in H. simpl in H. lia.
Qed.

Lemma lookup_identity (d : dict) (name url vsid role typ : string) (k v : value) :
  In (k, v) (identity_fields name url vsid role typ) ->
  lookup k (update_dict d (identity_fields name url vsid role typ)) = Some v /\
  key_eqb (VStr "config") k = false.
Proof.
  unfold identity_fields, update_dict. cbn [fold_left fst snd In].
  intros H.
  repeat (destruct H as [H|H];
          [injection H as <- <-;
           split; [repeat (rewrite lookup_set by reflexivity; cbn -[lookup set]); reflexivity
                  |reflexivity]|]).
  contradiction.
Qed.

Lemma truthy_set (d : dict) (k v : value) : truthy (VDict (set d k v)) = true.
Proof.
  destruct d as [|[k0 v0] d]; simpl; [reflexivity|].
  destruct (key_eqb k0 k); reflexivity.
Qed.

Lemma truthy_identity (d : dict) (name url vsid role typ : string) :
  truthy (VDict (update_dict d (identity_fields name url vsid role typ))) = true.
Proof. unfold identity_fields, update_dict. cbn [fold_left fst snd]. apply truthy_set. Qed.

Lemma lookup_config_identity (d : dict) (name url vsid role typ : string) :
  lookup (VStr "config") (update_dict d (identity_fields name url vsid role typ))
  = lookup (VStr "config") d.
Proof.
  unfold identity_fields, update_dict. cbn [fold_left fst snd].
  repeat rewrite lookup_set_other by reflexivity. reflexivity.
Qed.

Lemma merged_config_identity (d : dict) (name url vsid role typ : string) (config : value) :
  merged_config (VDict (update_dict d (identity_fields name url vsid role typ))) config
  = merged_config (VDict d) config.
Proof.
  unfold merged_config. cbn [py_get]. rewrite lookup_config_identity. reflexivity.
Qed.

(** C10 (as amended).  On a proxy with a non-empty snapshot [create]
    changes the snapshot in place before it posts: when the request has
    been posted and the call raised, the snapshot is the payload of the
    request.  It carries the identity fields and, when a configuration
    was supplied, the merged configuration list. *)
Theorem create_writes_the_snapshot_before_the_post
    r w (d : dict) (url vsid : string) (config : value) (role typ : string)
    (res : res unit) r' w' (body : value) (accept : option string) (e : exn) :
  Repository._data r = VDict d -> d <> [] ->
  Repository.create url vsid config role typ (r, w) = (res, (r', w')) ->
  calls w' = (calls w ++ [PostObjAsJson "repository" body accept])%list ->
  fst (Connection.post_obj_as_json (connection_of r) "repository" body accept (srv w))
  = Raise e ->
  exists d',
    Repository._data r' = VDict d' /\
    body = create_request (Repository._name r) (VDict d') /\
    res = normalised (Raise e) /\
    (forall k v,
       In (k, v) (identity_fields (Repository._name r) url vsid role typ) ->
       lookup k d' = Some v) /\
    (if truthy config
     then exists request_config,
            merged_config (VDict d) config = Ok request_config /\
            lookup (VStr "config") d' = Some request_config
     else lookup (VStr "config") d' = lookup (VStr "config") d).
Proof.
  intros Hd Hne Hcreate Hcalls Hans.
  rewrite (create_with_snapshot r w d url vsid config role typ Hd Hne) in Hcreate.
  cbv zeta in Hcreate. rewrite merged_config_identity in Hcreate.
  set (d1 := update_dict d (identity_fields (Repository._name r) url vsid role typ)) in *.
  assert (Hpost : forall payload r0,
             Repository._http r0 = Repository._http r ->
             Repository._name r0 = Repository._name r ->
             post_and_store payload (r0, w) = (res, (r', w')) ->
             r' = r0 /\ body = create_request (Repository._name r) payload /\
             res = normalised (Raise e)).
  { intros payload r0 Hh Hn Hrun.
    destruct (post_and_store_run payload r0 w) as [res0 [r0' [Heq [Hraise _]]]].
    rewrite Heq in Hrun. injection Hrun as <- <- <-.
    unfold after_call in Hcalls. cbn [calls] in Hcalls.
    apply app_inv_head in Hcalls. injection Hcalls as <- <-.
    unfold connection_of in *. rewrite Hh, Hn in Hraise. rewrite Hn in Hans.
    destruct (Hraise e Hans) as [-> ->]. rewrite Hn. auto. }
  destruct (truthy config).
  - destruct (merged_config (VDict d) config) as [request_config|e0].
    + apply Hpost in Hcreate; [|reflexivity|reflexivity].
      destruct Hcreate as [-> [-> ->]].
      exists (set d1 (VStr "config") request_config). repeat split.
      * intros k v Hin.
        destruct (lookup_identity d _ _ _ _ _ k v Hin) as [Hl Hk].
        rewrite lookup_set_other by exact Hk. exact Hl.
      * exists request_config. split; [reflexivity|].
        rewrite lookup_set by reflexivity. reflexivity.
    + injection Hcreate as _ _ <-. destruct (calls_grow _ _ Hcalls).
  - apply Hpost in Hcreate; [|reflexivity|reflexivity].
    destruct Hcreate as [-> [-> ->]].
    exists d1. repeat split.
    + intros k v Hin. apply (lookup_identity d _ _ _ _ _ k v Hin).
    + apply lookup_config_identity.
Qed.

(** C4 (as amended).  When [create] returns, the snapshot is not cleared:
    it is the object that the server returned, stored into the payload
    when the proxy had a non-empty snapshot, and a read of an attribute
    answers from it without a call. *)
Theorem create_keeps_the_returned_object
    r w (url vsid : string) (config : value) (role typ : string) r' w' :
  Repository.create url vsid config role typ (r, w) = (Ok tt, (r', w')) ->
  exists payload response json result,
    calls w' = (calls w ++ [PostObjAsJson "repository"
                              (create_request (Repository._name r) payload)
                              (Some "application/json")])%list /\
    fst (Connection.post_obj_as_json (connection_of r) "repository"
           (create_request (Repository._name r) payload)
           (Some "application/json") (srv w)) = Ok response /\
    json_body response = Some json /\
    py_getitem json "repository" = Ok result /\
    (if truthy (Repository._data r)
     then py_update payload result = (None, Repository._data r')
     else Repository._data r' = result) /\
    (is_None (Repository._data r') = false ->
     forall (a : attribute) (w2 : World St),
       read a (r', w2) = (py_get (Repository._data r') (field a) VNone, (r', w2))).
Proof.
  intros Hcreate.
  assert (Hpost : forall payload r0,
             Repository._http r0 = Repository._http r ->
             Repository._name r0 = Repository._name r ->
             post_and_store payload (r0, w) = (Ok tt, (r', w')) ->
             exists response json result,
               calls w' = (calls w ++ [PostObjAsJson "repository"
                                         (create_request (Repository._name r) payload)
                                         (Some "application/json")])%list /\
               fst (Connection.post_obj_as_json (connection_of r) "repository"
                      (create_request (Repository._name r) payload)
                      (Some "application/json") (srv w)) = Ok response /\
               json_body response = Some json /\
               py_getitem json "repository" = Ok result /\
               if truthy (Repository._data r0)
               then py_update (Repository._data r0) result = (None, Repository._data r')
               else Repository._data r' = result).
  { intros payload r0 Hh Hn Hrun.
    destruct (post_and_store_run payload r0 w) as [res0 [r0' [Heq [_ Hok]]]].
    rewrite Heq in Hrun. injection Hrun as -> <- <-.
    destruct (Hok eq_refl) as [response [json [result [Ha [Hj [Hr Hdata]]]]]].
    unfold connection_of in *. rewrite Hh, Hn in Ha. rewrite Hn.
    exists response, json, result. auto. }
  assert (Hread : is_None (Repository._data r') = false ->
                  forall (a : attribute) (w2 : World St),
                    read a (r', w2)
                    = (py_get (Repository._data r') (field a) VNone, (r', w2))).
  { intros Hn a w2. rewrite read_is_get_item. apply get_item_cached. exact Hn. }
  destruct (truthy (Repository._data r)) eqn:Ht.
  - destruct (Repository._data r) as [| | | | |d] eqn:Hd.
    1-5: exfalso; revert Hcreate; unfold Repository.create;
      unfold bind at 1; unfold Repository.self at 1; cbn [fst snd]; rewrite Hd, Ht;
      unfold bind at 1; unfold Repository.update_repo; cbn [py_update]; run;
      discriminate.
    assert (Hne : d <> []) by (intros ->; discriminate Ht).
    rewrite (create_with_snapshot r w d url vsid config role typ Hd Hne) in Hcreate.
    cbv zeta in Hcreate.
    destruct (truthy config).
    + destruct (merged_config _ config) as [request_config|e0]; [|discriminate Hcreate].
      apply Hpost in Hcreate; [|reflexivity|reflexivity].
      cbn [Repository._data Repository.with_data] in Hcreate.
      rewrite truthy_set in Hcreate.
      destruct Hcreate as [response [json [result [H1 [H2 [H3 [H4 H5]]]]]]].
      eexists _, response, json, result. repeat split; eauto.
    + apply Hpost in Hcreate; [|reflexivity|reflexivity].
      cbn [Repository._data Repository.with_data] in Hcreate.
      rewrite truthy_identity in Hcreate.
      destruct Hcreate as [response [json [result [H1 [H2 [H3 [H4 H5]]]]]]].
      eexists _, response, json, result. repeat split; eauto.
  - rewrite (create_without_snapshot r w url vsid config role typ Ht) in Hcreate.
    cbv zeta in Hcreate.
    destruct (truthy config).
    + destruct (merged_config _ config) as [request_config|e0]; [|discriminate Hcreate].
      apply Hpost in Hcreate; [|reflexivity|reflexivity]. rewrite Ht in Hcreate.
      destruct Hcreate as [response [json [result [H1 [H2 [H3 [H4 H5]]]]]]].
      eexists _, response, json, result. repeat split; eauto.
    + apply Hpost in Hcreate; [|reflexivity|reflexivity]. rewrite Ht in Hcreate.
      destruct Hcreate as [response [json [result [H1 [H2 [H3 [H4 H5]]]]]]].
      eexists _, response, json, result. repeat split; eauto.
Qed.

(** ** [simple_clone] *)

Lemma init_proxy (c : Connection.t St) (name : string) (data : value) :
  (data = VNone \/ exists d, data = VDict d) ->
  Repository.__init__ c name data = Ok (proxy c name data).
Proof.
  intros [->|[d ->]]; [reflexivity|].
  unfold Repository.__init__, proxy. destruct d; reflexivity.
Qed.

(** [simple_clone] when the server reports that the repository exists.
    The error leaves [simple_clone] when [error_exists] is set.  Otherwise,
    when the error body has an ['exception'] entry, the status is fetched
    into a proxy without a snapshot and [clone] is called exactly when the
    status is ['CREATED']. *)
Lemma simple_clone_tolerates_an_existing_repository
    (c : Connection.t St) (url name vsid : string) (start_dir vcs_token : value)
    (role typ : string) (w : World St) (response : Response) (s1 : St)
    (messages : dict) :
  let request := create_request name
                   (clone_payload name url vsid start_dir vcs_token role typ) in
  let w1 := after_call w (PostObjAsJson "repository" request (Some "application/json")) s1 in
  let fetch := Connection.get_json c ("repository/" ++ name) s1 in
  let w2 := after_call w1 (GetJson ("repository/" ++ name)) (snd fetch) in
  let clone_url := ("repository/" ++ name) ++ "/clone" in
  let clone := Connection.execute c "POST" clone_url VNone (snd fetch) in
  Connection.post_obj_as_json c "repository" request (Some "application/json") (srv w)
  = (Raise (HTTPRequestError response), s1) ->
  exception_from_http_error (HTTPRequestError response)
  = Ok (GCTSRepoAlreadyExistsError (VDict messages)) ->
  simple_clone c url name vsid start_dir vcs_token true role typ w
  = (Raise (GCTSRepoAlreadyExistsError (VDict messages)), w1) /\
  (lookup (VStr "exception") messages <> None ->
   forall answer d,
     fst fetch = Ok answer ->
     py_getitem answer "result" = Ok (VDict d) ->
     if eq_str (match lookup (VStr "status") d with Some v => v | None => VNone end) "CREATED"
     then exists res,
            simple_clone c url name vsid start_dir vcs_token false role typ w
            = (res, after_call w2 (Execute "POST" clone_url VNone) (snd clone))
     else simple_clone c url name vsid start_dir vcs_token false role typ w
          = (Ok (Repository.with_data (proxy c name VNone) (VDict d)), w2)).
Proof.
  intros request w1 fetch w2 clone_url clone Hpost Hexists.
  assert (Hcreate :
    Repository.create url vsid
      (VDict (if truthy vcs_token
              then set (if truthy start_dir
                        then set [] (VStr "VCS_TARGET_DIR") start_dir
                        else [])
                     (VStr "CLIENT_VCS_AUTH_TOKEN") vcs_token
              else if truthy start_dir
                   then set [] (VStr "VCS_TARGET_DIR") start_dir
                   else []))
      role typ (proxy c name VNone, w)
    = (Raise (GCTSRepoAlreadyExistsError (VDict messages)), (proxy c name VNone, w1))).
  { rewrite create_without_snapshot by reflexivity. cbv zeta.
    assert (Hrun : forall payload,
               payload = clone_payload name url vsid start_dir vcs_token role typ ->
               post_and_store payload (proxy c name VNone, w)
               = (Raise (GCTSRepoAlreadyExistsError (VDict messages)),
                  (proxy c name VNone, w1))).
    { intros payload ->.
      destruct (post_and_store_run
                  (clone_payload name url vsid start_dir vcs_token role typ)
                  (proxy c name VNone) w) as [res [r' [Heq [Hraise _]]]].
      cbn [Repository._name proxy] in *. unfold connection_of in *.
      cbn [Repository._http proxy HttpProxy.connection HttpProxy.__init__] in *.
      fold request in Heq, Hraise. rewrite Hpost in Heq, Hraise. cbn [fst snd] in *.
      destruct (Hraise _ eq_refl) as [-> ->]. rewrite Heq.
      unfold normalised. rewrite Hexists. reflexivity. }
    unfold clone_payload, clone_config in Hrun.
    destruct (truthy start_dir), (truthy vcs_token); cbn [truthy set key_eqb];
      try (apply Hrun; reflexivity).
    all: unfold merged_config; cbn; apply Hrun; reflexivity. }
  split.
  - unfold simple_clone. cbv zeta. cbn [Repository.__init__ truthy].
    change {| Repository._http := HttpProxy.__init__ c name;
              Repository._name := name;
              Repository._data := VNone;
              Repository._config := Repository.Own VNone |} with (proxy c name VNone).
    unfold bind at 1. unfold try_except.
    match goal with
    | |- context [Repository.create ?a ?b ?x ?d ?e ?f] =>
        rewrite (Hcreate : Repository.create a b x d e f = _)
    end.
    reflexivity.
  - intros Hexc answer d Hanswer Hresult.
    set (r1 := Repository.with_config (Repository.with_data (proxy c name VNone) VNone)
                 (Repository.Own VNone)).
    set (rest := (cloned <- Repository.is_cloned ;;
                  (if negb cloned then Repository.clone ;;; ret tt else ret tt) ;;;
                  Repository.self) : M (Repository.t St * World St) (Repository.t St)).
    assert (Hsc : simple_clone c url name vsid start_dir vcs_token false role typ w
                  = (fst (rest (r1, w1)), snd (snd (rest (r1, w1))))).
    { unfold simple_clone. cbv zeta. cbn [Repository.__init__ truthy].
      change {| Repository._http := HttpProxy.__init__ c name;
                Repository._name := name;
                Repository._data := VNone;
                Repository._config := Repository.Own VNone |} with (proxy c name VNone).
      unfold bind at 1. unfold try_except.
      match goal with
      | |- context [Repository.create ?a ?b ?x ?d ?e ?f] =>
          rewrite (Hcreate : Repository.create a b x d e f = _)
      end.
      unfold bind at 1. unfold GCTSRequestError_repr. cbn [py_getitem].
      destruct (lookup (VStr "exception") messages) as [text|]; [|contradiction].
      cbn [bindR liftR]. unfold Repository.wipe_data at 1, Repository.self at 1,
        Repository.put_self at 1, bind at 1. cbn [fst snd].
      fold r1. fold rest. destruct (rest (r1, w1)) as [res [r' w']]. reflexivity. }
    destruct (get_item_unfetched r1 w1 "status" VNone eq_refl) as [res [r2 [Heq Hok]]].
    pose proof (get_item_keeps_proxy r1 w1 "status" VNone false) as Hk.
    rewrite Heq in Hk. cbn [fst snd] in Hk.
    unfold connection_of, resource in Heq, Hok.
    cbn [r1 Repository._http proxy Repository.with_config Repository.with_data
         HttpProxy.connection HttpProxy.url_prefix HttpProxy.__init__ srv w1 after_call]
      in Heq, Hok, Hk.
    fold fetch in Heq, Hok. fold w1 in Heq. fold w2 in Heq.
    destruct (Hok answer d Hanswer Hresult) as [-> Hd].
    assert (Hrest : rest (r1, w1)
                    = bind (if negb (negb (eq_str match lookup (VStr "status") d with
                                                  | Some v => v
                                                  | None => VNone
                                                  end "CREATED"))
                            then bind Repository.clone (fun _ => ret tt)
                            else ret tt)
                        (fun _ => Repository.self) (r2, w2)).
    { unfold rest, Repository.is_cloned, Repository.status. unfold bind at 1 2.
      rewrite Heq. unfold ret at 1. reflexivity. }
    rewrite Hsc, Hrest.
    destruct (eq_str _ "CREATED"); cbn [negb].
    + unfold Repository.clone. run. rewrite Hk. unfold HttpProxy._build_url.
      cbn [HttpProxy.connection HttpProxy.url_prefix HttpProxy.__init__ srv w2 after_call].
      change (("repository/" ++ name) ++ "/" ++ "clone") with clone_url.
      fold clone. destruct (normalised (fst clone)); eexists; reflexivity.
    + run. f_equal. f_equal. rewrite Hd. reflexivity.
Qed.

End Proxy.

(** ** The properties on the example connections *)

Lemma mutating_operations_clear_the_snapshot_witness :
  perform Pull (proxy scripted "myrepo" develop_snapshot, start [ReplyJson (VDict [])])
  = (Ok tt, (wiped "myrepo",
             {| srv := []; calls := [GetJson "repository/myrepo/pullByCommit"] |}))
  /\ Repository._data (wiped "myrepo") = VNone
  /\ exists res r2,
       read Status (wiped "myrepo", start [ReplyJson ready_answer])
       = (res, (r2, {| srv := []; calls := [GetJson "repository/myrepo"] |})).
Proof.
  split; [reflexivity|].
  destruct (mutating_operations_clear_the_snapshot Pull
              (proxy scripted "myrepo" develop_snapshot) (start [ReplyJson (VDict [])])
              (wiped "myrepo")
              {| srv := []; calls := [GetJson "repository/myrepo/pullByCommit"] |}
              eq_refl) as [Hd [_ [_ Hread]]].
  split; [exact Hd|].
  destruct (Hread Status (start [ReplyJson ready_answer])) as [res [r2 [Heq _]]].
  exists res, r2. exact Heq.
Defined.

(** The read after the operation on the script: one fetch, and the answer
    of the server. *)
Example read_after_pull :
  read Status (wiped "myrepo", start [ReplyJson ready_answer])
  = (Ok (VStr "READY"),
     (proxy scripted "myrepo"
        (VDict [(VStr "rid", VStr "myrepo"); (VStr "status", VStr "READY")]),
      {| srv := []; calls := [GetJson "repository/myrepo"] |})).
Proof. reflexivity. Qed.

Lemma checkout_switches_from_the_current_branch_witness :
  exists res r',
    Repository.checkout "main"
      (proxy scripted "myrepo" develop_snapshot, start [ReplyResponse ok_response])
    = (res, (r', {| srv := [];
                    calls := [Execute "GET" "repository/myrepo/branches/develop/switch"
                                (VDict [(VStr "branch", VStr "main")])] |})).
Proof.
  destruct (checkout_switches_from_the_current_branch
              (proxy scripted "myrepo" develop_snapshot)
              (start [ReplyResponse ok_response]) "develop" "main"
              (start [ReplyResponse ok_response])) as [res [r' [Heq _]]].
  - apply (branch_cached _ _ _
             [(VStr "rid", VStr "myrepo");
              (VStr "status", VStr "READY");
              (VStr "url", VStr "https://example.com/org/old.git");
              (VStr "branch", VStr "develop")]); reflexivity.
  - exists res, r'. exact Heq.
Defined.

(** The branch is fetched when no snapshot is cached. *)
Example checkout_fetches_the_branch :
  Repository.checkout "main"
    (wiped "myrepo",
     start [ReplyJson (VDict [(VStr "result", develop_snapshot)]);
            ReplyResponse (json_response
                             (VDict [(VStr "result", VDict [(VStr "toCommit", VStr "abc")])]))])
  = (Ok (VDict [(VStr "toCommit", VStr "abc")]),
     (wiped "myrepo",
      {| srv := [];
         calls := [GetJson "repository/myrepo";
                   Execute "GET" "repository/myrepo/branches/develop/switch"
                     (VDict [(VStr "branch", VStr "main")])] |})).
Proof. reflexivity. Qed.

Lemma store_server_applies_url (resource : string) : applies_url store_server resource.
Proof.
  intros data s s1 response Hpost. simpl in Hpost. injection Hpost as _ <-.
  exists (VDict [(VStr "result", VDict data)]), data. repeat split.
Qed.

Lemma set_url_is_idempotent_witness :
  exists res w' rest,
    set_url_twice "https://example.com/org/new.git"
      (proxy store_server "myrepo" VNone, start develop_snapshot)
    = (res, (proxy store_server "myrepo" VNone, w')) /\
    calls w' = GetJson "repository/myrepo" :: rest /\
    posts rest <= 1.
Proof.
  apply (proj2 (set_url_is_idempotent (proxy store_server "myrepo" VNone)
                  (start develop_snapshot) "https://example.com/org/new.git"
                  (store_server_applies_url "repository/myrepo"))).
Defined.

(** The calls of the two [set_url]: the second one fetches and stops. *)
Example set_url_twice_calls :
  calls (snd (snd (set_url_twice "https://example.com/org/new.git"
                     (proxy store_server "myrepo" VNone, start develop_snapshot))))
  = [GetJson "repository/myrepo";
     PostObjAsJson "repository/myrepo"
       (VDict [(VStr "rid", VStr "myrepo");
               (VStr "status", VStr "READY");
               (VStr "url", VStr "https://example.com/org/new.git");
               (VStr "branch", VStr "develop")]) None;
     GetJson "repository/myrepo"].
Proof. reflexivity. Qed.

(** C2.  [set_url] on a proxy that has read its URL: the server has the
    new URL, the cache is neither cleared nor changed, and the next read
    of the URL answers with the old one without a call. *)
Theorem set_url_leaves_the_cached_url :
  (Repository.url ;;;
   Repository.set_url "https://example.com/org/new.git" ;;;
   Repository.url)
    (proxy store_server "myrepo" VNone, start develop_snapshot)
  = (Ok (VStr "https://example.com/org/old.git"),
     (proxy store_server "myrepo" develop_snapshot,
      {| srv := renamed_snapshot;
         calls := [GetJson "repository/myrepo";
                   GetJson "repository/myrepo";
                   PostObjAsJson "repository/myrepo" renamed_snapshot None] |})) /\
  fst (Repository._fetch_data
         (proxy store_server "myrepo" develop_snapshot,
          {| srv := renamed_snapshot; calls := [] |}))
  = Ok renamed_snapshot.
Proof. split; reflexivity. Qed.

(** C4 fails as stated: after [create] the snapshot is the returned
    object, and the status is read from it without a call although the
    server would answer otherwise. *)
Lemma create_does_not_clear_the_snapshot :
  create_myrepo
    (wiped "myrepo",
     start [ReplyResponse (json_response (VDict [(VStr "repository", created_object)]));
            ReplyJson ready_answer])
  = (Ok tt, (proxy scripted "myrepo" created_object,
             answered [ReplyJson ready_answer] [create_myrepo_request])) /\
  Repository._data (proxy scripted "myrepo" created_object) <> VNone /\
  read Status (proxy scripted "myrepo" created_object,
               answered [ReplyJson ready_answer] [create_myrepo_request])
  = (Ok (VStr "CREATED"),
     (proxy scripted "myrepo" created_object,
      answered [ReplyJson ready_answer] [create_myrepo_request])).
Proof. repeat split. discriminate. Qed.

Lemma create_keeps_the_returned_object_witness :
  read Status (proxy scripted "myrepo" created_object,
               answered [ReplyJson ready_answer] [create_myrepo_request])
  = (Ok (VStr "CREATED"),
     (proxy scripted "myrepo" created_object,
      answered [ReplyJson ready_answer] [create_myrepo_request])).
Proof.
  destruct (create_keeps_the_returned_object (wiped "myrepo")
              (start [ReplyResponse
                        (json_response (VDict [(VStr "repository", created_object)]));
                      ReplyJson ready_answer])
              "https://example.com/org/myrepo.git" "6IT" VNone "SOURCE" "GITHUB"
              (proxy scripted "myrepo" created_object)
              (answered [ReplyJson ready_answer] [create_myrepo_request])
              eq_refl)
    as [payload [response [json [result [_ [_ [_ [_ [_ Hread]]]]]]]]].
  rewrite (Hread eq_refl Status
             (answered [ReplyJson ready_answer] [create_myrepo_request])).
  reflexivity.
Defined.

(** C10 fails as stated: an empty snapshot is not changed by a [create]
    whose request raises. *)
Lemma create_leaves_an_empty_snapshot :
  create_myrepo
    (proxy scripted "myrepo" (VDict []),
     start [ReplyRaise (HTTPRequestError html_response)])
  = (Raise (HTTPRequestError html_response),
     (proxy scripted "myrepo" (VDict []), answered [] [create_myrepo_request])) /\
  py_get (Repository._data (proxy scripted "myrepo" (VDict []))) "rid" VNone = Ok VNone.
Proof. repeat split. Qed.

Lemma create_writes_the_snapshot_before_the_post_witness :
  fst (create_renamed
         (proxy scripted "myrepo" develop_snapshot,
          start [ReplyRaise (HTTPRequestError html_response)]))
  = Raise (HTTPRequestError html_response) /\
  exists d',
    Repository._data
      (fst (snd (create_renamed
                   (proxy scripted "myrepo" develop_snapshot,
                    start [ReplyRaise (HTTPRequestError html_response)]))))
    = VDict d' /\
    lookup (VStr "url") d' = Some (VStr "https://example.com/org/new.git") /\
    lookup (VStr "config") d' = Some (VList [entry "VCS_TARGET_DIR" "src/"]).
Proof.
  split; [reflexivity|].
  destruct (create_writes_the_snapshot_before_the_post
              (proxy scripted "myrepo" develop_snapshot)
              (start [ReplyRaise (HTTPRequestError html_response)])
              [(VStr "rid", VStr "myrepo");
               (VStr "status", VStr "READY");
               (VStr "url", VStr "https://example.com/org/old.git");
               (VStr "branch", VStr "develop")]
              "https://example.com/org/new.git" "6IT"
              (VDict [(VStr "VCS_TARGET_DIR", VStr "src/")]) "SOURCE" "GITHUB"
              (fst (create_renamed
                      (proxy scripted "myrepo" develop_snapshot,
                       start [ReplyRaise (HTTPRequestError html_response)])))
              (fst (snd (create_renamed
                           (proxy scripted "myrepo" develop_snapshot,
                            start [ReplyRaise (HTTPRequestError html_response)]))))
              (snd (snd (create_renamed
                           (proxy scripted "myrepo" develop_snapshot,
                            start [ReplyRaise (HTTPRequestError html_response)]))))
              (create_request "myrepo" attempted_snapshot)
              (Some "application/json")
              (HTTPRequestError html_response))
    as [d' [Hd [_ [_ [Hid Hcfg]]]]].
  - reflexivity.
  - discriminate.
  - reflexivity.
  - reflexivity.
  - reflexivity.
  - exists d'. split; [exact Hd|]. split.
    + apply Hid. simpl. auto.
    + cbn [truthy] in Hcfg. destruct Hcfg as [request_config [Hm Hl]].
      rewrite Hl. f_equal. cbv in Hm. injection Hm as <-. reflexivity.
Defined.

(** C6.  [set_config] followed by [get_config] on a proxy whose cached
    configuration list has two entries for the key: [set_config] returns
    and has written the value into the first of them, and [get_config]
    then answers from the cache, without a call, with the value of the
    last one, which is not the value that was set. *)
Lemma get_config_misses_the_set_value :
  Repository.set_config "VCS_TARGET_DIR" (VStr "new/")
    (configured [entry "VCS_TARGET_DIR" "src/"; entry "VCS_TARGET_DIR" "lib/"],
     start [ReplyResponse ok_response])
  = (Ok tt,
     (configured [entry "VCS_TARGET_DIR" "new/"; entry "VCS_TARGET_DIR" "lib/"],
      answered [] [PostObjAsJson "repository/myrepo/config"
                     (entry "VCS_TARGET_DIR" "new/") None])) /\
  Repository.get_config "VCS_TARGET_DIR"
    (configured [entry "VCS_TARGET_DIR" "new/"; entry "VCS_TARGET_DIR" "lib/"],
     start [])
  = (Ok (VStr "lib/"),
     (configured [entry "VCS_TARGET_DIR" "new/"; entry "VCS_TARGET_DIR" "lib/"],
      start [])).
Proof. repeat split. Qed.

Lemma get_config_after_set_config_witness :
  Repository.get_config "VCS_TARGET_DIR"
    (configured [entry "A" "1"; entry "VCS_TARGET_DIR" "new/"], start [])
  = (Ok (VStr "new/"),
     (configured [entry "A" "1"; entry "VCS_TARGET_DIR" "new/"], start [])).
Proof.
  apply (get_config_after_set_config
           (configured [entry "A" "1"; entry "VCS_TARGET_DIR" "src/"])
           (start [ReplyResponse ok_response])
           "VCS_TARGET_DIR" (VStr "new/")
           (configured [entry "A" "1"; entry "VCS_TARGET_DIR" "new/"])
           (answered [] [PostObjAsJson "repository/myrepo/config"
                           (entry "VCS_TARGET_DIR" "new/") None])).
  - right. exists [entry "A" "1"; entry "VCS_TARGET_DIR" "src/"].
    split; [reflexivity|]. split; [reflexivity|]. apply le_n.
  - reflexivity.
Defined.

(** C5.  [simple_clone] that tolerates an existing repository, on an
    error body without an ['exception'] entry: the text of the error for
    the log cannot be built, a [KeyError] leaves [simple_clone] and
    nothing is fetched or cloned. *)
Theorem simple_clone_raises_on_the_log_message :
  simple_clone_myrepo false
    [ReplyRaise (HTTPRequestError (json_response (VDict exists_body)));
     ReplyJson created_answer;
     ReplyResponse ok_response]
  = (Raise (KeyError (VStr "exception")),
     {| srv := [ReplyJson created_answer; ReplyResponse ok_response];
        calls := [clone_request] |}).
Proof. reflexivity. Qed.

(** With an ['exception'] entry in the error body the existing
    repository is tolerated: the status is fetched, and the repository is
    cloned when it is only created. *)
Example simple_clone_clones_a_created_repository :
  simple_clone_myrepo false
    [ReplyRaise (HTTPRequestError (json_response (VDict exists_body_with_exception)));
     ReplyJson created_answer;
     ReplyResponse ok_response]
  = (Ok (wiped "myrepo"),
     {| srv := [];
        calls := [clone_request;
                  GetJson "repository/myrepo";
                  Execute "POST" "repository/myrepo/clone" VNone] |}).
Proof. reflexivity. Qed.

Example simple_clone_skips_a_cloned_repository :
  simple_clone_myrepo false
    [ReplyRaise (HTTPRequestError (json_response (VDict exists_body_with_exception)));
     ReplyJson ready_answer;
     ReplyResponse ok_response]
  = (Ok (proxy scripted "myrepo"
           (VDict [(VStr "rid", VStr "myrepo"); (VStr "status", VStr "READY")])),
     {| srv := [ReplyResponse ok_response];
        calls := [clone_request; GetJson "repository/myrepo"] |}).
Proof. reflexivity. Qed.

Example simple_clone_propagates_when_asked :
  simple_clone_myrepo true
    [ReplyRaise (HTTPRequestError (json_response (VDict exists_body)));
     ReplyJson created_answer;
     ReplyResponse ok_response]
  = (Raise (GCTSRepoAlreadyExistsError (VDict exists_body)),
     {| srv := [ReplyJson created_answer; ReplyResponse ok_response];
        calls := [clone_request] |}).
Proof. reflexivity. Qed.

(** * Further properties *)

(** ** [package_name_from_url] *)

Lemma split_char_not_nil (sep : ascii) (s : string) : split_char sep s <> [].
Proof.
  destruct s as [|c s]; simpl; [discriminate|].
  destruct (Ascii.eqb c sep); [discriminate|].
  destruct (split_char sep s); discriminate.
Qed.

Lemma split_char_no_sep (sep : ascii) (s : string) :
  ~ In sep (list_ascii_of_string s) -> split_char sep s = [s].
Proof.
  induction s as [|c s IH]; simpl; intros H; [reflexivity|].
  destruct (Ascii.eqb_spec c sep) as [->|Hne]; [tauto|].
  rewrite IH by tauto. reflexivity.
Qed.

Lemma split_char_after_sep (sep : ascii) (a b : string) :
  exists p pre,
    split_char sep (a ++ String sep b) = ((p :: pre) ++ split_char sep b)%list.
Proof.
  induction a as [|c a [p [pre IH]]]; simpl.
  - rewrite Ascii.eqb_refl. exists EmptyString, []. reflexivity.
  - destruct (Ascii.eqb c sep).
    + exists EmptyString, (p :: pre). simpl in IH. rewrite IH. reflexivity.
    + simpl in IH. rewrite IH. exists (String c p), pre. reflexivity.
Qed.

Lemma last_app_not_nil {A : Type} (l1 l2 : list A) (d : A) :
  l2 <> [] -> last (l1 ++ l2) d = last l2 d.
Proof.
  intros H. induction l1 as [|x l1 IH]; simpl; [reflexivity|].
  rewrite <- IH. destruct (l1 ++ l2)%list eqn:E; [|reflexivity].
  apply app_eq_nil in E. tauto.
Qed.

Lemma last_segment (a b : string) :
  ~ In slash (list_ascii_of_string b) ->
  last (split_char slash (a ++ String slash b)) EmptyString = b.
Proof.
  intros Hb. destruct (split_char_after_sep slash a b) as [p [pre ->]].
  rewrite last_app_not_nil by apply split_char_not_nil.
  rewrite split_char_no_sep by exact Hb. reflexivity.
Qed.

Lemma split_char_parts (sep : ascii) (s : string) :
  Forall (fun part => ~ In sep (list_ascii_of_string part)) (split_char sep s).
Proof.
  induction s as [|c s IH]; simpl.
  - constructor; [tauto|constructor].
  - destruct (Ascii.eqb_spec c sep) as [->|Hne].
    + constructor; [simpl; tauto|exact IH].
    + destruct (split_char sep s) as [|part parts].
      * constructor; [simpl; intros [H|[]]; auto|constructor].
      * inversion IH as [|x l Hpart Hparts]; subst. constructor; [|exact Hparts].
        simpl. intros [H|H]; auto.
Qed.

Lemma last_Forall {A : Type} (P : A -> Prop) (l : list A) (d : A) :
  P d -> Forall P l -> P (last l d).
Proof.
  intros Hd H. induction H as [|x l Hx Hl IH]; simpl; [exact Hd|].
  destruct l; [exact Hx|exact IH].
Qed.

Lemma substring_chars (n : nat) (s : string) (c : ascii) :
  In c (list_ascii_of_string (substring 0 n s)) -> In c (list_ascii_of_string s).
Proof.
  revert n. induction s as [|x s IH]; intros n; destruct n; simpl; try tauto.
  intros [H|H]; [left; exact H|right; exact (IH n H)].
Qed.

Lemma substring_append (a b : string) :
  substring 0 (String.length a) (a ++ b) = a.
Proof.
  induction a as [|c a IH]; simpl.
  - destruct b; reflexivity.
  - rewrite IH. reflexivity.
Qed.

Lemma length_append (a b : string) :
  String.length (a ++ b) = String.length a + String.length b.
Proof. induction a as [|c a IH]; simpl; [reflexivity|]. rewrite IH. reflexivity. Qed.

Lemma chars_append (a b : string) :
  list_ascii_of_string (a ++ b) = (list_ascii_of_string a ++ list_ascii_of_string b)%list.
Proof. induction a as [|c a IH]; simpl; [reflexivity|]. rewrite IH. reflexivity. Qed.

Lemma strip_git (name : string) :
  (if endswith (name ++ ".git") ".git"
   then substring 0 (String.length (name ++ ".git") - 4) (name ++ ".git")
   else name ++ ".git") = name.
Proof.
  assert (He : endswith (name ++ ".git") ".git" = true) by (apply endswith_spec; eauto).
  rewrite He, length_append. simpl String.length.
  replace (String.length name + 4 - 4) with (String.length name) by lia.
  apply substring_append.
Qed.

(** X1.  The package name taken from a URL never contains a slash. *)
Theorem package_name_has_no_slash (url : string) :
  ~ In slash (list_ascii_of_string (package_name_from_url url)).
Proof.
  unfold package_name_from_url.
  set (part := last (split_char slash url) EmptyString).
  assert (Hpart : ~ In slash (list_ascii_of_string part)).
  { apply (last_Forall (fun p => ~ In slash (list_ascii_of_string p))).
    - simpl. tauto.
    - apply split_char_parts. }
  cbv zeta. destruct (endswith part ".git"); [|exact Hpart].
  intros H. apply Hpart. exact (substring_chars _ _ _ H).
Qed.

(** X2.  For a last path segment [name] without a slash: the package
    name of [base/name.git] is [name]; the package name of [base/name] is
    [name] itself unless [name] ends with [.git]; and a URL without any
    slash is treated as its own last segment. *)
Theorem package_name_is_the_last_segment (base name : string) :
  ~ In slash (list_ascii_of_string name) ->
  package_name_from_url (base ++ "/" ++ name ++ ".git") = name /\
  package_name_from_url (name ++ ".git") = name /\
  (endswith name ".git" = false ->
   package_name_from_url (base ++ "/" ++ name) = name /\
   package_name_from_url name = name).
Proof.
  intros Hname.
  assert (Hgit : ~ In slash (list_ascii_of_string (name ++ ".git"))).
  { rewrite chars_append. intros H. apply in_app_or in H. destruct H as [H|H]; [tauto|].
    simpl in H. unfold slash in H.
    repeat (destruct H as [H|H]; [discriminate H|]). exact H. }
  unfold package_name_from_url.
  change (base ++ "/" ++ name ++ ".git") with (base ++ String slash (name ++ ".git")).
  change (base ++ "/" ++ name) with (base ++ String slash name).
  rewrite (last_segment base (name ++ ".git") Hgit), (last_segment base name Hname).
  rewrite (split_char_no_sep slash (name ++ ".git") Hgit).
  rewrite (split_char_no_sep slash name Hname). cbn [last].
  split; [apply strip_git|]. split; [apply strip_git|].
  intros He. rewrite He. split; reflexivity.
Qed.

Lemma package_name_is_the_last_segment_witness :
  package_name_from_url "https://example.com/org/myrepo.git" = "myrepo" /\
  package_name_from_url "myrepo.git" = "myrepo" /\
  package_name_from_url "https://example.com/org/myrepo" = "myrepo" /\
  package_name_from_url "https://example.com/org/" = EmptyString.
Proof.
  destruct (package_name_is_the_last_segment "https://example.com/org" "myrepo")
    as [H1 [H2 H3]].
  { unfold slash. simpl. intros H.
    repeat (destruct H as [H|H]; [discriminate H|]). exact H. }
  destruct (H3 eq_refl) as [H4 _].
  destruct (package_name_is_the_last_segment "https://example.com/org" EmptyString)
    as [_ [_ H5]].
  { simpl. tauto. }
  destruct (H5 eq_refl) as [H6 _].
  repeat split; assumption.
Defined.

(** ** The decorator of the HTTP helpers *)

(** X3.  [_http_to_gcts_error] changes neither what the decorated call
    leaves behind nor its result, and it does not touch an exception
    that is not a transport error.  A transport error never becomes a
    result, and one whose response is not declared as JSON is raised
    again as it is. *)
Theorem http_to_gcts_error_keeps_outcomes {S A : Type} (func : M S A) (s : S) :
  snd (_http_to_gcts_error func s) = snd (func s) /\
  match fst (func s) with
  | Ok a => fst (_http_to_gcts_error func s) = Ok a
  | Raise (HTTPRequestError response) =>
      (exists e, fst (_http_to_gcts_error func s) = Raise e) /\
      (is_json response = false ->
       fst (_http_to_gcts_error func s) = Raise (HTTPRequestError response))
  | Raise e => fst (_http_to_gcts_error func s) = Raise e
  end.
Proof.
  unfold _http_to_gcts_error, try_except.
  destruct (func s) as [[a|e] s']; cbn [fst snd]; [split; reflexivity|].
  destruct e; try (split; reflexivity).
  unfold bind, liftR, raise.
  destruct (exception_from_http_error (HTTPRequestError response)) as [e'|e'] eqn:He;
    cbn [fst snd]; (split; [reflexivity|]); (split; [eauto|]).
  - intros Hj. unfold exception_from_http_error in He. fold (is_json response) in He.
    rewrite Hj in He. cbn [negb] in He. congruence.
  - intros Hj. unfold exception_from_http_error in He. fold (is_json response) in He.
    rewrite Hj in He. cbn [negb] in He. discriminate He.
Qed.

(** ** Operations that fail *)

Section Operations.
Context {St : Type}.
Implicit Types (r : Repository.t St) (w : World St).

Ltac exec :=
  unfold Repository._get_item, Repository._fetch_data, Repository.assign_data,
    Repository.wipe_data, HttpProxy.get_json, HttpProxy.get, HttpProxy.post,
    HttpProxy.post_obj_as_json, HttpProxy.delete,
    Connection.call_get_json, Connection.call_execute,
    Connection.call_post_obj_as_json,
    Repository.http, Repository.self, Repository.put_self,
    bind, ret, raise, liftR;
  cbn [fst snd];
  rewrite ?decorated_call;
  cbn [fst snd].

Ltac exec_in H :=
  unfold Repository._get_item, Repository._fetch_data, Repository.assign_data,
    Repository.wipe_data, HttpProxy.get_json, HttpProxy.get, HttpProxy.post,
    HttpProxy.post_obj_as_json, HttpProxy.delete,
    Connection.call_get_json, Connection.call_execute,
    Connection.call_post_obj_as_json,
    Repository.http, Repository.self, Repository.put_self,
    bind, ret, raise, liftR in H;
  cbn [fst snd] in H;
  rewrite ?decorated_call in H;
  cbn [fst snd] in H.

(** X4.  [clone], [pull], [delete] and [commit_transport] make exactly
    one call.  When it returns the cache is cleared; when it raises the
    proxy is left as it was, snapshot and configuration cache
    included. *)
Theorem failed_operation_keeps_the_snapshot (op : operation) r w res r' w' :
  is_checkout op = false ->
  perform op (r, w) = (res, (r', w')) ->
  calls w' = (calls w ++ [request_of r op])%list /\
  match res with
  | Ok _ => r' = cleared r
  | Raise _ => r' = r
  end.
Proof.
  intros Hop Hrun. destruct op; try discriminate Hop; unfold perform in Hrun.
  - unfold Repository.clone in Hrun. exec_in Hrun.
    destruct (normalised _); inversion Hrun; subst; split; reflexivity.
  - unfold Repository.pull in Hrun. exec_in Hrun.
    destruct (normalised _); inversion Hrun; subst; split; reflexivity.
  - unfold Repository.delete in Hrun. exec_in Hrun.
    destruct (normalised _); inversion Hrun; subst; split; reflexivity.
  - unfold Repository.commit_transport in Hrun. exec_in Hrun.
    destruct (normalised _); inversion Hrun; subst; split;
      try reflexivity; cbn [calls after_call request_of];
      unfold commit_body, resource, HttpProxy._build_url;
      destruct (truthy description); reflexivity.
Qed.

(** [checkout] on a proxy with a cached snapshot. *)
Lemma checkout_cached r w (d : dict) (t : string) :
  Repository._data r = VDict d ->
  let rq := request_of r (Checkout t) in
  let answer := Connection.execute (connection_of r) "GET"
                  (resource r ++ "/branches/" ++ str (cached_branch r) ++ "/switch")
                  (VDict [(VStr "branch", VStr t)]) (srv w) in
  Repository.checkout t (r, w)
  = match normalised (fst answer) with
    | Ok response =>
        ((json <~ response_json response ;; py_getitem json "result")%res,
         (cleared r, after_call w rq (snd answer)))
    | Raise e => (Raise e, (r, after_call w rq (snd answer)))
    end.
Proof.
  intros Hd rq answer. unfold Repository.checkout, Repository.branch.
  unfold bind at 1. rewrite get_item_cached by (rewrite Hd; reflexivity).
  rewrite Hd. cbn [py_get]. exec. unfold HttpProxy._build_url.
  assert (Hb : match lookup (VStr "branch") d with Some v => v | None => VNone end
               = cached_branch r) by (unfold cached_branch; rewrite Hd; reflexivity).
  rewrite Hb. fold (resource r). fold (connection_of r).
  change (resource r ++ "/" ++ "branches/" ++ str (cached_branch r) ++ "/switch")
    with (resource r ++ "/branches/" ++ str (cached_branch r) ++ "/switch").
  fold answer. fold (request_of r (Checkout t)). fold rq.
  destruct (normalised (fst answer)) as [response|e]; [|reflexivity].
  unfold cleared. destruct (response_json response) as [json|e]; [|reflexivity].
  cbn [bindR]. destruct (py_getitem json "result"); reflexivity.
Qed.

(** X5.  [checkout] on a cached snapshot makes one call, the switch
    from the cached branch.  When the call raises the proxy is left as
    it was.  When the call returns the cache is cleared before the
    result is read: it is cleared also when the response has no JSON body
    or no ['result'] and [checkout] raises. *)
Theorem checkout_clears_the_cache_before_it_reads_the_result r w (d : dict) (t : string) :
  Repository._data r = VDict d ->
  let rq := request_of r (Checkout t) in
  let answer := Connection.execute (connection_of r) "GET"
                  (resource r ++ "/branches/" ++ str (cached_branch r) ++ "/switch")
                  (VDict [(VStr "branch", VStr t)]) (srv w) in
  exists res r',
    Repository.checkout t (r, w) = (res, (r', after_call w rq (snd answer))) /\
    match fst answer with
    | Ok response =>
        r' = cleared r /\
        res = match json_body response with
              | Some (VDict body) =>
                  match lookup (VStr "result") body with
                  | Some result => Ok result
                  | None => Raise (KeyError (VStr "result"))
                  end
              | Some _ => Raise TypeError
              | None => Raise ValueError
              end
    | Raise _ => r' = r /\ exists e, res = Raise e
    end.
Proof.
  intros Hd rq answer. rewrite (checkout_cached r w d t Hd). cbv zeta.
  fold answer. destruct (fst answer) as [response|e].
  - cbn [normalised]. do 2 eexists. split; [reflexivity|]. split; [reflexivity|].
    unfold response_json. destruct (json_body response) as [json|]; [|reflexivity].
    cbn [bindR]. destruct json; reflexivity.
  - destruct (@normalised_Raise Response e) as [e' He]. rewrite He.
    do 2 eexists. split; [reflexivity|]. split; [reflexivity|eauto].
Qed.

(** X6.  When the cached snapshot has no ['branch'], [checkout] asks to
    switch from the branch [None]. *)
Theorem checkout_without_a_branch_switches_from_None r w (d : dict) (t : string) :
  Repository._data r = VDict d ->
  lookup (VStr "branch") d = None ->
  exists res r' s,
    Repository.checkout t (r, w)
    = (res, (r', after_call w
                   (Execute "GET" (resource r ++ "/branches/None/switch")
                      (VDict [(VStr "branch", VStr t)])) s)).
Proof.
  intros Hd Hb. rewrite (checkout_cached r w d t Hd). cbv zeta.
  assert (Hc : cached_branch r = VNone) by (unfold cached_branch; rewrite Hd, Hb; reflexivity).
  unfold request_of. rewrite Hc.
  change (resource r ++ "/branches/" ++ str VNone ++ "/switch")
    with (resource r ++ "/branches/None/switch").
  destruct (normalised _); do 3 eexists; reflexivity.
Qed.

(** X7.  [set_config] posts the pair to the [config] resource, once.
    When the call raises, [set_config] raises and the proxy is left as it
    was: the configuration cache does not take a value that the server
    has not accepted.  When the call returns and the cache is empty or a
    list of entries with keys with at most one entry for the key,
    [set_config] returns and the cache binds the key to the value. *)
Theorem set_config_updates_the_cache_only_on_success r w (k : string) (v : value) :
  let body := VDict [(VStr "key", VStr k); (VStr "value", v)] in
  let rq := PostObjAsJson (resource r ++ "/config") body None in
  let answer := Connection.post_obj_as_json (connection_of r) (resource r ++ "/config")
                  body None (srv w) in
  exists res r',
    Repository.set_config k v (r, w) = (res, (r', after_call w rq (snd answer))) /\
    match fst answer with
    | Ok _ =>
        cache_fits (Repository.config_value r) k ->
        res = Ok tt /\
        exists l, Repository.config_value r' = VList l /\ last_value l (VStr k) = Some v
    | Raise _ => r' = r /\ exists e, res = Raise e
    end.
Proof.
  intros body rq answer. unfold Repository.set_config. exec.
  unfold HttpProxy._build_url. fold (resource r). fold (connection_of r).
  change (resource r ++ "/" ++ "config") with (resource r ++ "/config").
  fold body. fold answer. fold rq.
  destruct (fst answer) as [response|e].
  - cbn [normalised].
    destruct (Repository._update_configuration k v (r, after_call w rq (snd answer)))
      as [[c|e] [r1 w1]] eqn:Hupd.
    + assert (Hw : w1 = after_call w rq (snd answer)).
      { unfold Repository._update_configuration in Hupd. exec_in Hupd.
        destruct (is_None (Repository.config_value r)); exec_in Hupd;
          destruct (_set_configuration_key _ k v); inversion Hupd; reflexivity. }
      subst w1. do 2 eexists. split; [reflexivity|]. intros Hfit.
      destruct (update_configuration_fits r (after_call w rq (snd answer)) k v Hfit)
        as [r2 [l [Hupd2 [Hc [_ Hv]]]]].
      rewrite Hupd2 in Hupd. injection Hupd as <- <-. eauto.
    + assert (Hw : w1 = after_call w rq (snd answer)).
      { unfold Repository._update_configuration in Hupd. exec_in Hupd.
        destruct (is_None (Repository.config_value r)); exec_in Hupd;
          destruct (_set_configuration_key _ k v); inversion Hupd; reflexivity. }
      subst w1. do 2 eexists. split; [reflexivity|]. intros Hfit.
      destruct (update_configuration_fits r (after_call w rq (snd answer)) k v Hfit)
        as [r2 [l [Hupd2 _]]].
      rewrite Hupd2 in Hupd. discriminate Hupd.
  - destruct (@normalised_Raise Response e) as [e' He]. rewrite He.
    do 2 eexists. split; [reflexivity|]. split; [reflexivity|eauto].
Qed.

(** X8.  When the configuration cache is empty and the cached snapshot
    has no ['config'], reading [configuration] raises [TypeError], and so
    does [get_config] for every key: no call is made, and the request of
    the single key is not reached. *)
Theorem configuration_raises_without_a_config r w (d : dict) (k : string) :
  Repository._data r = VDict d ->
  lookup (VStr "config") d = None ->
  Repository.config_value r = VNone ->
  exists r',
    Repository.configuration (r, w) = (Raise TypeError, (r', w)) /\
    Repository.get_config k (r, w) = (Raise TypeError, (r', w)) /\
    Repository._data r' = VDict d.
Proof.
  intros Hd Hc Hv.
  assert (Hconf : Repository.configuration (r, w)
                  = (Raise TypeError,
                     (Repository.with_config r (Repository.Own VNone), w))).
  { unfold Repository.configuration. exec. rewrite Hv. cbn [is_None]. exec.
    rewrite Hd. cbn [is_None orb py_get fst snd]. exec.
    unfold Repository.ref_to_config, Repository.config_value. cbn.
    rewrite Hd, Hc. reflexivity. }
  exists (Repository.with_config r (Repository.Own VNone)).
  split; [exact Hconf|]. split; [|exact Hd].
  unfold Repository.get_config. unfold bind at 1. rewrite Hconf. reflexivity.
Qed.

(** X9.  When the cached configuration is a list of entries with keys
    that has no entry for the key, [get_config] asks the server once, at
    [config/<key>] below the repository resource, returns the ['value'] of
    the ['result'] and keeps it: the next [get_config] of the key answers
    with it and makes no call. *)
Theorem get_config_asks_for_a_missing_key_once r w (k : string) (l : list value)
    (answer result v : value) :
  Repository.config_value r = VList l ->
  keyed l = true ->
  occurrences l k = 0 ->
  let url := resource r ++ "/config/" ++ k in
  let fetch := Connection.get_json (connection_of r) url (srv w) in
  fst fetch = Ok answer ->
  py_getitem answer "result" = Ok result ->
  py_getitem result "value" = Ok v ->
  exists r1,
    Repository.get_config k (r, w) = (Ok v, (r1, after_call w (GetJson url) (snd fetch))) /\
    forall w2 : World St, Repository.get_config k (r1, w2) = (Ok v, (r1, w2)).
Proof.
  intros Hv Hk Hocc url fetch Hanswer Hresult Hvalue.
  assert (Hfit : cache_fits (Repository.config_value r) k).
  { right. exists l. repeat split; auto. rewrite Hocc. auto. }
  destruct (update_configuration_fits r (after_call w (GetJson url) (snd fetch)) k v Hfit)
    as [r1 [l' [Hupd [Hc [Hk' Hv']]]]].
  exists r1. split.
  - unfold Repository.get_config, Repository.configuration. exec.
    rewrite Hv. cbn [is_None]. exec. rewrite Hv.
    destruct (config_list_to_dict_spec l Hk) as [d [Hd Hlook]].
    rewrite Hd. cbn [is_None]. rewrite Hlook, (last_value_absent l k Hocc).
    exec. unfold HttpProxy._build_url. fold (resource r). fold (connection_of r).
    change (resource r ++ "/" ++ "config/" ++ k) with url. fold fetch.
    rewrite Hanswer. cbn [normalised]. rewrite Hresult, Hvalue.
    rewrite Hupd. reflexivity.
  - intros w2. unfold Repository.get_config, Repository.configuration. exec.
    rewrite Hc. cbn [is_None]. exec. rewrite Hc.
    destruct (config_list_to_dict_spec l' Hk') as [d [Hd Hlook]].
    rewrite Hd. cbn [is_None]. rewrite Hlook, Hv'. reflexivity.
Qed.

(** X10.  [log] makes one call, the [GET] of [getCommit] below the
    repository resource, returns the ['commits'] of the answer and leaves
    the proxy as it was. *)
Theorem log_returns_the_commits r w :
  let url := resource r ++ "/getCommit" in
  let fetch := Connection.get_json (connection_of r) url (srv w) in
  exists res,
    Repository.log (r, w) = (res, (r, after_call w (GetJson url) (snd fetch))) /\
    match fst fetch with
    | Ok (VDict body) =>
        res = match lookup (VStr "commits") body with
              | Some commits => Ok commits
              | None => Raise (KeyError (VStr "commits"))
              end
    | Ok _ => res = Raise TypeError
    | Raise _ => exists e, res = Raise e
    end.
Proof.
  intros url fetch. unfold Repository.log. exec.
  unfold HttpProxy._build_url. fold (resource r). fold (connection_of r).
  change (resource r ++ "/" ++ "getCommit") with url. fold fetch.
  destruct (fst fetch) as [body|e].
  - cbn [normalised]. eexists. split; [reflexivity|]. destruct body; reflexivity.
  - destruct (@normalised_Raise value e) as [e' He]. rewrite He.
    eexists. split; [reflexivity|eauto].
Qed.

(** X11.  [set_url] never changes the proxy, whatever the server
    answers: a snapshot that is cached stays, and the attributes are read
    from it after the call as before, without a fetch. *)
Theorem set_url_never_changes_the_proxy r w (u : string) :
  fst (snd (Repository.set_url u (r, w))) = r /\
  (is_None (Repository._data r) = false ->
   forall (a : attribute) (w2 : World St),
     read a (fst (snd (Repository.set_url u (r, w))), w2)
     = (py_get (Repository._data r) (field a) VNone, (r, w2))).
Proof.
  destruct (set_url_calls r w u) as [res [w' [rest [Heq _]]]].
  rewrite Heq. cbn [fst snd]. split; [reflexivity|].
  intros Hd a w2. rewrite read_is_get_item. apply get_item_cached. exact Hd.
Qed.

Lemma post_and_store_raises_without_snapshot (payload : value) r w e r' w' :
  truthy (Repository._data r) = false ->
  post_and_store payload (r, w) = (Raise e, (r', w')) ->
  r' = r /\
  calls w' = (calls w ++ [PostObjAsJson "repository"
                            (create_request (Repository._name r) payload)
                            (Some "application/json")])%list.
Proof.
  intros Ht Hrun. unfold post_and_store in Hrun. exec_in Hrun.
  destruct (normalised _) as [response|e0]; [|inversion Hrun; split; reflexivity].
  destruct (response_json response) as [json|e0]; [|inversion Hrun; split; reflexivity].
  destruct (py_getitem json "repository") as [result|e0];
    [|inversion Hrun; split; reflexivity].
  rewrite Ht in Hrun. exec_in Hrun. discriminate Hrun.
Qed.

(** X12.  When [create] raises on a proxy that has no snapshot, or an
    empty one, the proxy is left as it was; the request was posted at
    most once. *)
Theorem create_failure_without_a_snapshot_keeps_the_proxy
    r w (url vsid : string) (config : value) (role typ : string) (e : exn) r' w' :
  truthy (Repository._data r) = false ->
  Repository.create url vsid config role typ (r, w) = (Raise e, (r', w')) ->
  r' = r /\
  (w' = w \/
   exists payload,
     calls w' = (calls w ++ [PostObjAsJson "repository"
                               (create_request (Repository._name r) payload)
                               (Some "application/json")])%list).
Proof.
  intros Ht Hrun.
  rewrite (create_without_snapshot r w url vsid config role typ Ht) in Hrun.
  cbv zeta in Hrun. destruct (truthy config).
  - destruct (merged_config _ config) as [request_config|e0].
    + destruct (post_and_store_raises_without_snapshot _ r w e r' w' Ht Hrun) as [-> Hc].
      split; [reflexivity|]. right. eauto.
    + inversion Hrun. split; [reflexivity|]. left. reflexivity.
  - destruct (post_and_store_raises_without_snapshot _ r w e r' w' Ht Hrun) as [-> Hc].
    split; [reflexivity|]. right. eauto.
Qed.

Lemma repositories_named (c : Connection.t St) (entries : list value) :
  forallb named entries = true ->
  repositories c entries = Ok (map (fun e => proxy c (name_of e) e) entries).
Proof.
  induction entries as [|e entries IH]; cbn [forallb map repositories]; intros H;
    [reflexivity|].
  apply andb_prop in H. destruct H as [He Hrest]. rewrite (IH Hrest).
  destruct e as [| | | | |d]; try discriminate He.
  unfold named in He. unfold name_of. cbn [py_getitem].
  destruct (lookup (VStr "name") d) as [[| | |n| |]|]; try discriminate He.
  cbn [bindR str]. rewrite init_proxy by eauto. reflexivity.
Qed.

(** X13.  [simple_fetch_repos] makes one call, the [GET] of
    [repository].  For an answer whose ['result'] is a list of objects
    with a text as ['name'] it returns one proxy per entry, in the order
    of the list, each named after its entry and holding the entry as its
    snapshot, so that reading an attribute of a returned proxy makes no
    call.  An answer without ['result'] gives the empty list. *)
Theorem simple_fetch_repos_builds_cached_proxies
    (c : Connection.t St) w (response : value) (entries : list value) (s1 : St) :
  Connection.get_json c "repository" (srv w) = (Ok response, s1) ->
  py_get response "result" (VList []) = Ok (VList entries) ->
  forallb named entries = true ->
  simple_fetch_repos c w
  = (Ok (map (fun e => proxy c (name_of e) e) entries),
     after_call w (GetJson "repository") s1) /\
  forall (e : value) (a : attribute) (w2 : World St),
    In e entries ->
    read a (proxy c (name_of e) e, w2)
    = (py_get e (field a) VNone, (proxy c (name_of e) e, w2)).
Proof.
  intros Hget Hresult Hnamed. split.
  - unfold simple_fetch_repos. exec. rewrite Hget. cbn [fst snd normalised].
    rewrite Hresult. cbn [py_iter]. rewrite (repositories_named c entries Hnamed).
    reflexivity.
  - intros e a w2 Hin. rewrite read_is_get_item.
    rewrite get_item_cached; [reflexivity|].
    rewrite forallb_forall in Hnamed. specialize (Hnamed e Hin).
    destruct e; try discriminate Hnamed. reflexivity.
Qed.

(** The request that [simple_clone] posts to create the repository. *)
Lemma simple_clone_create (c : Connection.t St) (url name vsid : string)
    (start_dir vcs_token : value) (role typ : string) w :
  Repository.create url vsid
    (VDict (if truthy vcs_token
            then set (if truthy start_dir
                      then set [] (VStr "VCS_TARGET_DIR") start_dir
                      else [])
                   (VStr "CLIENT_VCS_AUTH_TOKEN") vcs_token
            else if truthy start_dir
                 then set [] (VStr "VCS_TARGET_DIR") start_dir
                 else []))
    role typ (proxy c name VNone, w)
  = post_and_store (clone_payload name url vsid start_dir vcs_token role typ)
      (proxy c name VNone, w).
Proof.
  rewrite create_without_snapshot by reflexivity. cbv zeta.
  unfold clone_payload, clone_config. cbn [Repository._name proxy].
  destruct (truthy start_dir), (truthy vcs_token); cbn [truthy set key_eqb];
    try reflexivity.
  all: unfold merged_config; cbn; reflexivity.
Qed.

Lemma post_and_store_returns_without_snapshot (payload : value) r w
    (response : Response) (s1 : St) (json result : value) :
  truthy (Repository._data r) = false ->
  Connection.post_obj_as_json (connection_of r) "repository"
    (create_request (Repository._name r) payload) (Some "application/json") (srv w)
  = (Ok response, s1) ->
  json_body response = Some json ->
  py_getitem json "repository" = Ok result ->
  post_and_store payload (r, w)
  = (Ok tt, (Repository.with_data (Repository.detach r) result,
             after_call w (PostObjAsJson "repository"
                             (create_request (Repository._name r) payload)
                             (Some "application/json")) s1)).
Proof.
  intros Ht Hpost Hjson Hres. unfold post_and_store. exec.
  rewrite Hpost. cbn [fst snd normalised]. unfold response_json. rewrite Hjson, Hres.
  rewrite Ht. exec. reflexivity.
Qed.

(** X14.  When the server creates the repository and returns its
    object, [simple_clone] takes the status from that object without a
    fetch: it calls [clone] exactly when the status is ['CREATED'], and
    then returns the proxy with a cleared cache; otherwise the create
    request is the only call and the returned proxy holds the object. *)
Theorem simple_clone_decides_on_the_returned_status
    (c : Connection.t St) (url name vsid : string) (start_dir vcs_token : value)
    (error_exists : bool) (role typ : string) w (response : Response) (s1 : St)
    (json : value) (d : dict) :
  let request := create_request name
                   (clone_payload name url vsid start_dir vcs_token role typ) in
  let w1 := after_call w (PostObjAsJson "repository" request (Some "application/json")) s1 in
  let clone_url := ("repository/" ++ name) ++ "/clone" in
  let clone := Connection.execute c "POST" clone_url VNone s1 in
  let created := Repository.with_data (proxy c name VNone) (VDict d) in
  Connection.post_obj_as_json c "repository" request (Some "application/json") (srv w)
  = (Ok response, s1) ->
  json_body response = Some json ->
  py_getitem json "repository" = Ok (VDict d) ->
  simple_clone c url name vsid start_dir vcs_token error_exists role typ w
  = if eq_str (match lookup (VStr "status") d with Some v => v | None => VNone end) "CREATED"
    then (match normalised (fst clone) with
          | Ok _ => Ok (cleared created)
          | Raise e => Raise e
          end,
          after_call w1 (Execute "POST" clone_url VNone) (snd clone))
    else (Ok created, w1).
Proof.
  intros request w1 clone_url clone created Hpost Hjson Hres.
  unfold simple_clone. cbv zeta. cbn [Repository.__init__ truthy].
  change {| Repository._http := HttpProxy.__init__ c name;
            Repository._name := name;
            Repository._data := VNone;
            Repository._config := Repository.Own VNone |} with (proxy c name VNone).
  unfold bind at 1. unfold try_except.
  match goal with
  | |- context [Repository.create ?a ?b ?x ?e ?f ?g] =>
      rewrite (simple_clone_create c url name vsid start_dir vcs_token role typ w
               : Repository.create a b x e f g = _)
  end.
  rewrite (post_and_store_returns_without_snapshot _ (proxy c name VNone) w
             response s1 json (VDict d) eq_refl Hpost Hjson Hres).
  change (Repository.with_data (Repository.detach (proxy c name VNone)) (VDict d))
    with created.
  cbn [Repository._name proxy]. fold request. fold w1.
  unfold Repository.is_cloned, Repository.status. unfold bind at 1 2.
  rewrite get_item_cached by reflexivity.
  cbn [py_get created Repository._data Repository.with_data]. unfold ret at 1.
  destruct (eq_str _ "CREATED"); cbn [negb].
  - unfold Repository.clone. exec. unfold HttpProxy._build_url.
    cbn [created Repository._http Repository.with_data proxy HttpProxy.connection
         HttpProxy.url_prefix HttpProxy.__init__ srv w1 after_call].
    change (("repository/" ++ name) ++ "/" ++ "clone") with clone_url. fold clone.
    destruct (normalised (fst clone)); reflexivity.
  - exec. reflexivity.
Qed.

End Operations.

(** ** [_set_configuration_key] *)

Lemma has_key_app (l1 l2 : list value) (k : value) :
  has_key (l1 ++ l2) k = has_key l1 k || has_key l2 k.
Proof. apply existsb_app. Qed.

Lemma has_key_absent (l : list value) (k : string) :
  occurrences l k = 0 -> has_key l (VStr k) = false.
Proof.
  unfold occurrences. induction l as [|cfg l IH]; simpl; intros H; [reflexivity|].
  destruct (entry_key cfg) as [k'|].
  - rewrite <- eq_str_key_eqb. destruct (eq_str k' k); [discriminate H|].
    rewrite (IH H). reflexivity.
  - rewrite (IH H). reflexivity.
Qed.

Lemma eq_str_true (k' : value) (k : string) : eq_str k' k = true -> k' = VStr k.
Proof.
  destruct k'; simpl; try discriminate. intros H. apply String.eqb_eq in H.
  subst. reflexivity.
Qed.

(** X15.  On a list of entries with keys, [_set_configuration_key]
    returns a list of entries with keys that has an entry for the key.
    The list grows by one entry when it had none for the key and keeps its
    length otherwise, and for every other key the entries are as before:
    the same keys are present, with the same values. *)
Theorem set_configuration_key_keeps_the_other_keys
    (l : list value) (k : string) (v : value) :
  keyed l = true ->
  exists l',
    _set_configuration_key (VList l) k v = Ok (VList l') /\
    keyed l' = true /\
    length l' = (if has_key l (VStr k) then length l else S (length l)) /\
    has_key l' (VStr k) = true /\
    forall k', key_eqb k' (VStr k) = false ->
      has_key l' k' = has_key l k' /\ last_value l' k' = last_value l k'.
Proof.
  intros Hl. unfold _set_configuration_key. cbn [py_iter bindR].
  destruct (next_cfg_spec l k Hl)
    as [[H0 Hn]|[before [item [after [k0 [Heq [Hc [Hk [He Hn]]]]]]]]];
    rewrite Hn; cbn [bindR py_append].
  - eexists. split; [reflexivity|]. split.
    { rewrite keyed_app, Hl. reflexivity. }
    rewrite (has_key_absent l k H0). split.
    { rewrite length_app. simpl. lia. }
    split.
    { rewrite has_key_app. simpl. rewrite String.eqb_refl. apply orb_true_r. }
    intros k' Hk'. rewrite key_eqb_sym in Hk'. split.
    + rewrite has_key_app. cbn in Hk' |- *. rewrite Hk', !orb_false_r. reflexivity.
    + rewrite last_value_app. cbn in Hk' |- *. rewrite Hk'. reflexivity.
  - apply eq_str_true in He. subst k0.
    destruct item as [| | | | |e]; try discriminate Hk. cbn [entry_key] in Hk.
    assert (Hne : truthy (VDict e) = true).
    { destruct e; [discriminate Hk|reflexivity]. }
    rewrite Hne. cbn [py_setitem bindR]. eexists. split; [reflexivity|].
    assert (Hk2 : entry_key (VDict (set e (VStr "value") v)) = Some (VStr k)).
    { cbn [entry_key]. rewrite lookup_set_other by reflexivity. exact Hk. }
    assert (Hhas : has_key l (VStr k) = true).
    { rewrite Heq, has_key_app. cbn [has_key existsb entry_key]. rewrite Hk.
      cbn [key_eqb]. rewrite String.eqb_refl. apply orb_true_r. }
    rewrite Hhas. split.
    { rewrite Heq, keyed_app in Hl. apply andb_prop in Hl. destruct Hl as [Hb Ha].
      rewrite keyed_app, Hb. cbn [keyed forallb] in Ha |- *. cbn [entry_key] in Ha.
      rewrite Hk in Ha. rewrite Hk2. exact Ha. }
    split.
    { rewrite Heq, !length_app. reflexivity. }
    split.
    { rewrite has_key_app. cbn [has_key existsb]. rewrite Hk2.
      cbn [key_eqb]. rewrite String.eqb_refl. apply orb_true_r. }
    intros k' Hk'. rewrite key_eqb_sym in Hk'. rewrite Heq. split.
    + rewrite !has_key_app. cbn [has_key existsb]. rewrite Hk2. cbn [entry_key].
      rewrite Hk. reflexivity.
    + rewrite !last_value_app. cbn [last_value]. rewrite Hk2. cbn [entry_key].
      rewrite Hk, Hk'. reflexivity.
Qed.

Lemma set_configuration_key_keeps_the_other_keys_witness :
  exists l',
    _set_configuration_key (VList [entry "A" "1"; entry "B" "2"]) "A" (VStr "3")
    = Ok (VList l') /\
    length l' = 2 /\
    last_value l' (VStr "B") = Some (VStr "2").
Proof.
  destruct (set_configuration_key_keeps_the_other_keys
              [entry "A" "1"; entry "B" "2"] "A" (VStr "3") eq_refl)
    as [l' [Hset [_ [Hlen [_ Hother]]]]].
  exists l'. split; [exact Hset|]. split; [exact Hlen|].
  exact (proj2 (Hother (VStr "B") eq_refl)).
Defined.

(** ** The configuration adapters, from a dictionary and back *)

Lemma lookup_app (d1 d2 : dict) (k : value) :
  lookup k (d1 ++ d2)%list = match lookup k d1 with
                        | Some v => Some v
                        | None => lookup k d2
                        end.
Proof.
  induction d1 as [|[k1 v1] d1 IH]; simpl; [reflexivity|].
  destruct (key_eqb k1 k); [reflexivity|exact IH].
Qed.

Lemma set_fresh (d : dict) (k v : value) :
  lookup k d = None -> set d k v = (d ++ [(k, v)])%list.
Proof.
  induction d as [|[k1 v1] d IH]; simpl; intros H; [reflexivity|].
  destruct (key_eqb k1 k); [discriminate H|]. rewrite (IH H). reflexivity.
Qed.

Lemma lookup_sym_None (k k' : value) (v : value) (d : dict) :
  lookup k d = None -> In (k', v) d -> key_eqb k k' = false.
Proof.
  induction d as [|[k1 v1] d IH]; simpl; intros H Hin; [contradiction|].
  destruct (key_eqb k1 k) eqn:E; [discriminate H|].
  destruct Hin as [Heq|Hin]; [|exact (IH H Hin)].
  injection Heq as -> ->. rewrite key_eqb_sym. exact E.
Qed.

Lemma dict_of_entries_fresh (d acc : dict) :
  wf_dict d = true ->
  (forall k v, In (k, v) d -> lookup k acc = None) ->
  dict_of_entries acc (map entry_of d) = Ok (acc ++ d)%list.
Proof.
  revert acc. induction d as [|[k v] d IH]; intros acc Hwf Hfresh.
  - simpl. rewrite app_nil_r. reflexivity.
  - cbn [wf_dict] in Hwf. apply andb_prop in Hwf. destruct Hwf as [Hwf Hd].
    apply andb_prop in Hwf. destruct Hwf as [Hh Hk].
    cbn [map dict_of_entries entry_of fst snd py_getitem py_get lookup key_eqb
         String.eqb Ascii.eqb Bool.eqb bindR].
    cbn. rewrite Hh. rewrite (set_fresh acc k v) by (apply (Hfresh k v); left; reflexivity).
    rewrite IH; [rewrite <- app_assoc; reflexivity|exact Hd|].
    intros k' v' Hin. rewrite lookup_app.
    rewrite (Hfresh k' v') by (right; exact Hin). cbn [lookup].
    destruct (lookup k d) eqn:El; [discriminate Hk|].
    rewrite (lookup_sym_None k k' v' d El Hin). reflexivity.
Qed.

(** X16.  A dictionary with hashable, pairwise different keys that is
    turned into a configuration list and back is the dictionary again,
    items in the same order. *)
Theorem config_dict_round_trip (d : dict) :
  wf_dict d = true ->
  (l <~ _config_dict_to_list (VDict d) ;; _config_list_to_dict l) = Ok (VDict d).
Proof.
  intros Hwf. unfold _config_dict_to_list, _config_list_to_dict.
  cbn [bindR py_iter].
  change (map (fun kv => VDict [(VStr "key", fst kv); (VStr "value", snd kv)]) d)
    with (map entry_of d).
  rewrite (dict_of_entries_fresh d [] Hwf) by reflexivity. reflexivity.
Qed.

Lemma config_dict_round_trip_witness :
  (l <~ _config_dict_to_list
          (VDict [(VStr "VCS_TARGET_DIR", VStr "src/"); (VStr "CLIENT_VCS_URI", VStr "x")]) ;;
   _config_list_to_dict l)
  = Ok (VDict [(VStr "VCS_TARGET_DIR", VStr "src/"); (VStr "CLIENT_VCS_URI", VStr "x")]).
Proof. apply config_dict_round_trip. reflexivity. Defined.

(** ** The text of the errors *)

(** X17.  An error that the normaliser classifies as a missing
    repository always reads [gCTS exception: Repository does not exist],
    whatever the server has written into the body. *)
Theorem not_exists_error_has_a_fixed_text (http_error : exn) (messages : value) :
  exception_from_http_error http_error = Ok (GCTSRepoNotExistsError messages) ->
  GCTSRequestError_repr messages = Ok "gCTS exception: Repository does not exist".
Proof.
  unfold exception_from_http_error. destruct http_error; try discriminate.
  destruct (negb _); [discriminate|].
  destruct (response_json response) as [body|]; [|discriminate]. cbn [bindR].
  destruct (py_get body "log" VNone) as [log|]; [|discriminate]. cbn [bindR].
  destruct (if truthy log then _ else _) as [[|]|]; try discriminate. cbn [bindR].
  destruct (py_get body "exception" VNone) as [exception|]; [|discriminate]. cbn [bindR].
  destruct (eq_str exception no_relation_message); [|discriminate].
  unfold new_GCTSRepoNotExistsError. destruct body; try discriminate.
  cbn [py_setitem bindR]. intros H. injection H as <-.
  unfold GCTSRequestError_repr. cbn [py_getitem].
  rewrite lookup_set by reflexivity. reflexivity.
Qed.

Lemma not_exists_error_has_a_fixed_text_witness :
  GCTSRequestError_repr
    (VDict [(VStr "exception", VStr "Repository does not exist")])
  = Ok "gCTS exception: Repository does not exist".
Proof.
  apply (not_exists_error_has_a_fixed_text
           (HTTPRequestError (json_response (VDict not_exists_body)))).
  reflexivity.
Defined.

(** ** The further properties on the example connections *)

Lemma failed_operation_keeps_the_snapshot_witness :
  perform Delete
    (proxy scripted "myrepo" develop_snapshot,
     start [ReplyRaise (HTTPRequestError html_response)])
  = (Raise (HTTPRequestError html_response),
     (proxy scripted "myrepo" develop_snapshot,
      answered [] [Execute "DELETE" "repository/myrepo" VNone])) /\
  calls (answered [] [Execute "DELETE" "repository/myrepo" VNone])
  = [Execute "DELETE" "repository/myrepo" VNone].
Proof.
  split; [reflexivity|].
  exact (proj1 (failed_operation_keeps_the_snapshot Delete
                  (proxy scripted "myrepo" develop_snapshot)
                  (start [ReplyRaise (HTTPRequestError html_response)])
                  (Raise (HTTPRequestError html_response))
                  (proxy scripted "myrepo" develop_snapshot)
                  (answered [] [Execute "DELETE" "repository/myrepo" VNone])
                  eq_refl eq_refl)).
Defined.

Lemma checkout_clears_the_cache_before_it_reads_the_result_witness :
  exists res r',
    Repository.checkout "main"
      (proxy scripted "myrepo" develop_snapshot, start [ReplyResponse html_response])
    = (res, (r', answered []
                   [Execute "GET" "repository/myrepo/branches/develop/switch"
                      (VDict [(VStr "branch", VStr "main")])])) /\
    r' = wiped "myrepo" /\ res = Raise ValueError.
Proof.
  destruct (checkout_clears_the_cache_before_it_reads_the_result
              (proxy scripted "myrepo" develop_snapshot)
              (start [ReplyResponse html_response])
              [(VStr "rid", VStr "myrepo");
               (VStr "status", VStr "READY");
               (VStr "url", VStr "https://example.com/org/old.git");
               (VStr "branch", VStr "develop")]
              "main" eq_refl) as [res [r' [Heq Hm]]].
  exists res, r'. split; [exact Heq|exact Hm].
Defined.

Lemma checkout_without_a_branch_switches_from_None_witness :
  exists res r' s,
    Repository.checkout "main"
      (proxy scripted "myrepo" created_object, start [ReplyResponse ok_response])
    = (res, (r', after_call (start [ReplyResponse ok_response])
                   (Execute "GET" "repository/myrepo/branches/None/switch"
                      (VDict [(VStr "branch", VStr "main")])) s)).
Proof.
  exact (checkout_without_a_branch_switches_from_None
           (proxy scripted "myrepo" created_object)
           (start [ReplyResponse ok_response])
           [(VStr "rid", VStr "myrepo"); (VStr "status", VStr "CREATED")]
           "main" eq_refl eq_refl).
Defined.

Lemma configuration_raises_without_a_config_witness :
  exists r',
    Repository.get_config "VCS_TARGET_DIR"
      (proxy scripted "myrepo" develop_snapshot,
       start [ReplyJson (VDict [(VStr "result", VDict [(VStr "value", VStr "src/")])])])
    = (Raise TypeError,
       (r', start [ReplyJson (VDict [(VStr "result", VDict [(VStr "value", VStr "src/")])])])).
Proof.
  destruct (configuration_raises_without_a_config
              (proxy scripted "myrepo" develop_snapshot)
              (start [ReplyJson (VDict [(VStr "result", VDict [(VStr "value", VStr "src/")])])])
              [(VStr "rid", VStr "myrepo");
               (VStr "status", VStr "READY");
               (VStr "url", VStr "https://example.com/org/old.git");
               (VStr "branch", VStr "develop")]
              "VCS_TARGET_DIR" eq_refl eq_refl eq_refl) as [r' [_ [Hget _]]].
  exists r'. exact Hget.
Defined.

Lemma get_config_asks_for_a_missing_key_once_witness :
  exists r1,
    Repository.get_config "B"
      (configured [entry "A" "1"],
       start [ReplyJson (VDict [(VStr "result", VDict [(VStr "value", VStr "2")])])])
    = (Ok (VStr "2"), (r1, answered [] [GetJson "repository/myrepo/config/B"])) /\
    Repository.get_config "B" (r1, start []) = (Ok (VStr "2"), (r1, start [])).
Proof.
  destruct (get_config_asks_for_a_missing_key_once
              (configured [entry "A" "1"])
              (start [ReplyJson (VDict [(VStr "result", VDict [(VStr "value", VStr "2")])])])
              "B" [entry "A" "1"]
              (VDict [(VStr "result", VDict [(VStr "value", VStr "2")])])
              (VDict [(VStr "value", VStr "2")]) (VStr "2")
              eq_refl eq_refl eq_refl eq_refl eq_refl eq_refl) as [r1 [Hfirst Hnext]].
  exists r1. split; [exact Hfirst|exact (Hnext (start []))].
Defined.

Lemma create_failure_without_a_snapshot_keeps_the_proxy_witness :
  create_myrepo (wiped "myrepo", start [ReplyRaise (HTTPRequestError html_response)])
  = (Raise (HTTPRequestError html_response),
     (wiped "myrepo", answered [] [create_myrepo_request])) /\
  wiped "myrepo" = wiped "myrepo".
Proof.
  split; [reflexivity|].
  exact (proj1 (create_failure_without_a_snapshot_keeps_the_proxy
                  (wiped "myrepo")
                  (start [ReplyRaise (HTTPRequestError html_response)])
                  "https://example.com/org/myrepo.git" "6IT" VNone "SOURCE" "GITHUB"
                  (HTTPRequestError html_response)
                  (wiped "myrepo") (answered [] [create_myrepo_request])
                  eq_refl eq_refl)).
Defined.

Lemma simple_fetch_repos_builds_cached_proxies_witness :
  simple_fetch_repos scripted
    (start [ReplyJson (VDict [(VStr "result",
                               VList [VDict [(VStr "name", VStr "one");
                                             (VStr "status", VStr "READY")];
                                      VDict [(VStr "name", VStr "two")]])])])
  = (Ok [proxy scripted "one" (VDict [(VStr "name", VStr "one");
                                      (VStr "status", VStr "READY")]);
         proxy scripted "two" (VDict [(VStr "name", VStr "two")])],
     answered [] [GetJson "repository"]).
Proof.
  exact (proj1 (simple_fetch_repos_builds_cached_proxies scripted
                  (start [ReplyJson (VDict [(VStr "result",
                               VList [VDict [(VStr "name", VStr "one");
                                             (VStr "status", VStr "READY")];
                                      VDict [(VStr "name", VStr "two")]])])])
                  (VDict [(VStr "result",
                               VList [VDict [(VStr "name", VStr "one");
                                             (VStr "status", VStr "READY")];
                                      VDict [(VStr "name", VStr "two")]])])
                  [VDict [(VStr "name", VStr "one"); (VStr "status", VStr "READY")];
                   VDict [(VStr "name", VStr "two")]]
                  [] eq_refl eq_refl eq_refl)).
Defined.

Lemma simple_clone_decides_on_the_returned_status_witness :
  simple_clone_myrepo true
    [ReplyResponse (json_response (VDict [(VStr "repository", created_object)]));
     ReplyResponse ok_response]
  = (Ok (wiped "myrepo"),
     answered [] [clone_request; Execute "POST" "repository/myrepo/clone" VNone]).
Proof.
  exact (simple_clone_decides_on_the_returned_status scripted
           "https://example.com/org/myrepo.git" "myrepo" "6IT" (VStr "src/") VNone true
           "SOURCE" "GITHUB"
           (start [ReplyResponse (json_response (VDict [(VStr "repository", created_object)]));
                   ReplyResponse ok_response])
           (json_response (VDict [(VStr "repository", created_object)]))
           [ReplyResponse ok_response]
           (VDict [(VStr "repository", created_object)])
           [(VStr "rid", VStr "myrepo"); (VStr "status", VStr "CREATED")]
           eq_refl eq_refl eq_refl).
Defined.

(** ** The messages on the console *)

Lemma value_nested_ind (P : value -> Prop) :
  P VNone -> (forall b, P (VBool b)) -> (forall z, P (VInt z)) ->
  (forall s, P (VStr s)) ->
  (forall l, Forall P l -> P (VList l)) ->
  (forall d, Forall (fun kv => P (snd kv)) d -> P (VDict d)) ->
  forall v, P v.
Proof.
  intros HN HB HI HS HL HD. fix IH 1. intros [| b | z | s | l | d].
  - exact HN.
  - apply HB.
  - apply HI.
  - apply HS.
  - apply HL. induction l as [|x l IHl]; constructor; [apply IH|exact IHl].
  - apply HD. induction d as [|[k x] d IHd]; constructor; [apply IH|exact IHd].
Qed.

Lemma append_empty (s : string) : s ++ EmptyString = s.
Proof. induction s as [|c s IH]; simpl; [reflexivity|]. rewrite IH. reflexivity. Qed.

Lemma append_assoc (a b c : string) : (a ++ b) ++ c = a ++ b ++ c.
Proof. induction a as [|x a IH]; simpl; [reflexivity|]. rewrite IH. reflexivity. Qed.

Lemma writes_ret (R : Console.Output -> Prop) {A : Type} (a : A) : writes R (ret a).
Proof. intros out. exists []. rewrite app_nil_r. split; [reflexivity|constructor]. Qed.

Lemma writes_raise (R : Console.Output -> Prop) {A : Type} (e : exn) :
  writes R (@raise _ A e).
Proof. intros out. exists []. rewrite app_nil_r. split; [reflexivity|constructor]. Qed.

Lemma writes_liftR (R : Console.Output -> Prop) {A : Type} (r : res A) :
  writes R (liftR r).
Proof. intros out. exists []. rewrite app_nil_r. split; [reflexivity|constructor]. Qed.

Lemma writes_bind (R : Console.Output -> Prop) {A B : Type}
    (c : M Console.t A) (k : A -> M Console.t B) :
  writes R c -> (forall a, writes R (k a)) -> writes R (bind c k).
Proof.
  intros Hc Hk out. unfold bind. destruct (Hc out) as [l1 [H1 F1]].
  destruct (c out) as [[a|e] out1]; cbn [snd] in H1; subst out1.
  - destruct (Hk a (out ++ l1)%list) as [l2 [H2 F2]]. exists (l1 ++ l2)%list.
    rewrite H2, app_assoc. split; [reflexivity|]. apply Forall_app. auto.
  - exists l1. auto.
Qed.

Lemma writes_printerr (R : Console.Output -> Prop) (args : list value) :
  R (Console.Printerr args) -> writes R (Console.printerr args).
Proof. intros H out. exists [Console.Printerr args]. split; [reflexivity|]. auto. Qed.

Lemma writes_printout (R : Console.Output -> Prop) (args : list value) :
  R (Console.Printout args) -> writes R (Console.printout args).
Proof. intros H out. exists [Console.Printout args]. split; [reflexivity|]. auto. Qed.

Lemma writes_for_each (R : Console.Output -> Prop) {A : Type}
    (body : A -> M Console.t unit) (items : list A) :
  Forall (fun x => writes R (body x)) items -> writes R (for_each body items).
Proof.
  induction 1 as [|x items Hx _ IH]; cbn [for_each].
  - apply writes_ret.
  - apply writes_bind; [exact Hx|intros _; exact IH].
Qed.

Lemma writes_weaken (R R' : Console.Output -> Prop) {A : Type} (c : M Console.t A) :
  (forall o, R o -> R' o) -> writes R c -> writes R' c.
Proof.
  intros Himp Hc out. destruct (Hc out) as [lines [H F]]. exists lines.
  split; [exact H|]. eapply Forall_impl; [exact Himp|exact F].
Qed.

Lemma indented_error_here (prefix : string) (message : value) :
  truthy message = true ->
  indented_error prefix (Console.Printerr [VStr prefix; message]).
Proof. intros H. exists 0, message. cbn [Nat.mul spaces]. rewrite append_empty. auto. Qed.

Lemma indented_error_deeper (prefix : string) (o : Console.Output) :
  indented_error (prefix ++ "  ") o -> indented_error prefix o.
Proof.
  intros [n [message [-> H]]]. exists (S n), message. split; [|exact H].
  rewrite append_assoc. replace (2 * S n) with (S (S (2 * n))) by lia. reflexivity.
Qed.

Lemma print_text_writes (prefix : string) (log : value) :
  writes (indented_error prefix) (print_text prefix log).
Proof.
  unfold print_text. destruct (truthy log) eqn:E.
  - apply writes_printerr, indented_error_here, E.
  - apply writes_ret.
Qed.

(** The lines of a message and of its protocol. *)
Lemma print_gcts_message_writes (log : value) :
  forall prefix, writes (indented_error prefix) (print_gcts_message log prefix).
Proof.
  enough (H : (forall prefix,
                  writes (indented_error prefix) (print_gcts_message log prefix)) /\
              match log with
              | VList items =>
                  Forall (fun item => forall prefix,
                            writes (indented_error prefix)
                              (print_gcts_message item prefix)) items
              | _ => True
              end) by exact (proj1 H).
  induction log as [| b | z | s | l IH | d IH] using value_nested_ind.
  - split; [intros prefix; apply writes_raise|exact I].
  - split; [intros prefix; apply writes_raise|exact I].
  - split; [intros prefix; apply writes_raise|exact I].
  - split; [intros prefix; apply print_text_writes|exact I].
  - split; [intros prefix; apply writes_raise|].
    eapply Forall_impl; [|exact IH]. intros item H. exact (proj1 H).
  - split; [|exact I]. intros prefix. cbn [print_gcts_message].
    set (message := match lookup (VStr "message") d with Some v => v | None => VNone end).
    clearbody message.
    apply writes_bind.
    { destruct (truthy message) eqn:E.
      - apply writes_printerr, indented_error_here, E.
      - apply writes_ret. }
    intros _.
    apply (writes_weaken (indented_error (if truthy message then prefix ++ "  " else prefix))).
    { intros o. destruct (truthy message); [apply indented_error_deeper|auto]. }
    generalize (if truthy message then prefix ++ "  " else prefix). intros prefix'.
    induction IH as [|[k protocol] rest Hp _ IHrest].
    + apply writes_ret.
    + destruct (key_eqb k (VStr "protocol")); [|exact IHrest].
      cbn [snd] in Hp. destruct Hp as [Hp Hitems]. destruct protocol.
      * apply writes_raise.
      * apply writes_raise.
      * apply writes_raise.
      * apply writes_for_each. apply Forall_forall. intros c _. apply print_text_writes.
      * apply writes_for_each. eapply Forall_impl; [|exact Hitems].
        intros item H. apply H.
      * apply Hp.
Qed.

(** [print_gcts_message] on an object, with the protocol looked up as
    the source does. *)
Lemma print_gcts_message_object (d : dict) (prefix : string) :
  print_gcts_message (VDict d) prefix
  = (let message := match lookup (VStr "message") d with
                    | Some v => v
                    | None => VNone
                    end in
     (if truthy message then Console.printerr [VStr prefix; message] else ret tt) ;;;
     let prefix := if truthy message then prefix ++ "  " else prefix in
     match lookup (VStr "protocol") d with
     | None => ret tt
     | Some (VDict p) => print_gcts_message (VDict p) prefix
     | Some (VList items) =>
         for_each (fun protocol_item => print_gcts_message protocol_item prefix) items
     | Some (VStr s) => for_each (print_text prefix) (chars s)
     | Some _ => raise TypeError
     end).
Proof.
  cbn [print_gcts_message]. cbv zeta. f_equal.
  generalize (if truthy match lookup (VStr "message") d with
                          | Some v => v
                          | None => VNone
                          end
              then prefix ++ "  " else prefix).
  intros prefix'. apply (f_equal (fun x => fun _ : unit => x)).
  induction d as [|[k protocol] rest IH]; [reflexivity|].
  cbn [lookup]. destruct (key_eqb k (VStr "protocol")); [|exact IH].
  destruct protocol; reflexivity.
Qed.

(** X18.  [print_gcts_message] writes to the error stream only.  Every
    line it writes consists of the prefix, extended by an even number of
    spaces, and a message that is not empty; this holds for every log,
    also when the call raises half way.  An object without a protocol
    gives its message, when it has one that is not empty, and nothing
    else. *)
Theorem print_gcts_message_writes_indented_errors
    (log : value) (prefix : string) (out : Console.t) :
  (exists lines,
     snd (print_gcts_message log prefix out) = (out ++ lines)%list /\
     Forall (indented_error prefix) lines) /\
  match log with
  | VDict d =>
      lookup (VStr "protocol") d = None ->
      print_gcts_message log prefix out
      = (Ok tt,
         match lookup (VStr "message") d with
         | Some message =>
             if truthy message
             then (out ++ [Console.Printerr [VStr prefix; message]])%list
             else out
         | None => out
         end)
  | _ => True
  end.
Proof.
  split; [apply print_gcts_message_writes|].
  destruct log as [| | | | |d]; try exact I.
  intros Hp. rewrite print_gcts_message_object. cbv zeta. rewrite Hp.
  destruct (lookup (VStr "message") d) as [message|]; [|reflexivity].
  destruct (truthy message); reflexivity.
Qed.

Lemma snd_bind {S A B : Type} (c : M S A) (k : A -> M S B) (s : S) :
  snd (bind c k s) = match fst (c s) with
                     | Ok a => snd (k a (snd (c s)))
                     | Raise _ => snd (c s)
                     end.
Proof. unfold bind. destruct (c s) as [[a|e] s']; reflexivity. Qed.

Lemma is_printerr_indented (prefix : string) (o : Console.Output) :
  indented_error prefix o -> is_printerr o = true.
Proof. intros [n [message [-> _]]]. reflexivity. Qed.

(** A log that is not empty starts with its title. *)
Lemma dump_log_writes (title : string) (log : value) (out : Console.t) :
  exists lines,
    snd (dump_log title log out) = (out ++ lines)%list /\
    forallb is_printerr lines = true /\
    (if truthy log then lines <> []
     else lines = [] /\ fst (dump_log title log out) = Ok false).
Proof.
  unfold dump_log. destruct (truthy log).
  - assert (Hrest : writes (fun o => is_printerr o = true)
                      (items <- liftR (py_iter log) ;;
                       for_each (fun msg => print_gcts_message msg " ") items ;;;
                       ret true)).
    { apply writes_bind; [apply writes_liftR|]. intros items.
      apply writes_bind; [|intros _; apply writes_ret].
      apply writes_for_each. apply Forall_forall. intros msg _.
      apply (writes_weaken (indented_error " ")); [apply is_printerr_indented|].
      apply print_gcts_message_writes. }
    rewrite snd_bind. cbn [Console.printerr fst snd].
    destruct (Hrest (out ++ [Console.Printerr [VStr title]])%list) as [lines [H F]].
    exists (Console.Printerr [VStr title] :: lines). rewrite H, <- app_assoc.
    split; [reflexivity|]. split; [|discriminate].
    cbn [forallb is_printerr andb]. apply forallb_forall.
    rewrite Forall_forall in F. exact F.
  - exists []. rewrite app_nil_r. repeat split.
Qed.

Ltac not_nil :=
  let H := fresh "H" in
  intros H; apply (f_equal (@length _)) in H;
  repeat rewrite length_app in H; cbn [length] in H;
  repeat match goal with
         | N : ?l <> [] |- _ => destruct l; [contradiction|clear N]
         end;
  cbn [length] in H; lia.

(** X19.  [dump_gcts_messages] on an object is never silent and never
    writes to the standard output: whatever the entries are, and also
    when it raises, it has written at least one line, and every line it
    has written went to the error stream. *)
Theorem dump_gcts_messages_is_never_silent (d : dict) (out : Console.t) :
  exists lines,
    snd (dump_gcts_messages (VDict d) out) = (out ++ lines)%list /\
    lines <> [] /\
    forallb is_printerr lines = true.
Proof.
  unfold dump_gcts_messages. cbn [py_get]. unfold liftR.
  set (errlog := match lookup (VStr "errorLog") d with Some v => v | None => VNone end).
  set (msglog := match lookup (VStr "log") d with Some v => v | None => VNone end).
  rewrite snd_bind. cbn [fst snd]. rewrite snd_bind.
  destruct (dump_log_writes "Error Log:" errlog out) as [l1 [H1 [F1 N1]]].
  destruct (fst (dump_log "Error Log:" errlog out)) as [output1|e] eqn:E1.
  2:{ exists l1. split; [exact H1|]. split; [|exact F1].
      destruct (truthy errlog); [exact N1|]. destruct N1 as [_ N1]. discriminate N1. }
  rewrite H1. rewrite snd_bind. cbn [fst snd]. rewrite snd_bind.
  destruct (dump_log_writes "Log:" msglog (out ++ l1)%list) as [l2 [H2 [F2 N2]]].
  destruct (fst (dump_log "Log:" msglog (out ++ l1)%list)) as [output2|e] eqn:E2.
  2:{ exists (l1 ++ l2)%list. rewrite H2, app_assoc. split; [reflexivity|]. split.
      - destruct (truthy msglog); [|destruct N2 as [_ N2]; discriminate N2].
        not_nil.
      - rewrite forallb_app, F1, F2. reflexivity. }
  rewrite H2. rewrite snd_bind. cbn [fst snd]. rewrite snd_bind.
  cbn [py_getitem].
  destruct (lookup (VStr "exception") d) as [exception|] eqn:Ex.
  - destruct (truthy exception) eqn:Tx.
    + cbn. rewrite orb_true_r. cbn.
      exists (l1 ++ l2 ++ [Console.Printerr
                             [VStr ("Exception:" ++ String newline " "); exception]])%list.
      rewrite !app_assoc. split; [reflexivity|]. split.
      * not_nil.
      * rewrite !forallb_app, F1, F2. reflexivity.
    + cbn [fst snd ret]. rewrite orb_false_r.
      destruct (truthy errlog); [|destruct N1 as [-> N1]].
      * destruct (negb (output1 || output2)); cbn.
        -- eexists. rewrite <- !app_assoc. split; [reflexivity|]. split.
           ++ not_nil.
           ++ rewrite !forallb_app, F1, F2. reflexivity.
        -- exists (l1 ++ l2)%list. rewrite app_assoc. split; [reflexivity|]. split.
           ++ not_nil.
           ++ rewrite forallb_app, F1, F2. reflexivity.
      * injection N1 as ->.
        destruct (truthy msglog); [|destruct N2 as [-> N2]].
        -- destruct (negb (false || output2)); cbn.
           ++ eexists. rewrite <- !app_assoc. split; [reflexivity|]. split.
              ** not_nil.
              ** rewrite !forallb_app, F2. reflexivity.
           ++ exists l2. rewrite app_nil_r. split; [reflexivity|]. split; assumption.
        -- injection N2 as ->.
           exists [Console.Printerr [VStr (str (VDict d))]]. rewrite !app_nil_r.
           split; [reflexivity|]. split; [discriminate|reflexivity].
  - cbn [truthy fst snd ret]. rewrite orb_false_r.
    destruct (truthy errlog); [|destruct N1 as [-> N1]].
    + destruct (negb (output1 || output2)); cbn.
      * eexists. rewrite <- !app_assoc. split; [reflexivity|]. split.
        -- not_nil.
        -- rewrite !forallb_app, F1, F2. reflexivity.
      * exists (l1 ++ l2)%list. rewrite app_assoc. split; [reflexivity|]. split.
        -- not_nil.
        -- rewrite forallb_app, F1, F2. reflexivity.
    + injection N1 as ->.
      destruct (truthy msglog); [|destruct N2 as [-> N2]].
      * destruct (negb (false || output2)); cbn.
        -- eexists. rewrite <- !app_assoc. split; [reflexivity|]. split.
           ++ not_nil.
           ++ rewrite !forallb_app, F2. reflexivity.
        -- exists l2. rewrite app_nil_r. split; [reflexivity|]. split; assumption.
      * injection N2 as ->.
        exists [Console.Printerr [VStr (str (VDict d))]]. rewrite !app_nil_r.
        split; [reflexivity|]. split; [discriminate|reflexivity].
Qed.

(** ** The commands *)

Lemma dump_gcts_messages_writes (messages : value) :
  writes (fun o => is_printerr o = true) (dump_gcts_messages messages).
Proof.
  assert (Hlog : forall title log,
             writes (fun o => is_printerr o = true) (dump_log title log)).
  { intros title log. unfold dump_log. destruct (truthy log); [|apply writes_ret].
    apply writes_bind; [apply writes_printerr; reflexivity|]. intros _.
    apply writes_bind; [apply writes_liftR|]. intros items.
    apply writes_bind; [|intros _; apply writes_ret].
    apply writes_for_each. apply Forall_forall. intros msg _.
    apply (writes_weaken (indented_error " ")); [apply is_printerr_indented|].
    apply print_gcts_message_writes. }
  unfold dump_gcts_messages.
  apply writes_bind; [apply writes_liftR|]. intros errlog.
  apply writes_bind; [apply Hlog|]. intros output1.
  apply writes_bind; [apply writes_liftR|]. intros msglog.
  apply writes_bind; [apply Hlog|]. intros output2.
  apply writes_bind; [apply writes_liftR|]. intros exception.
  apply writes_bind.
  - destruct (truthy exception); [|apply writes_ret].
    apply writes_bind; [apply writes_liftR|]. intros text.
    apply writes_bind; [apply writes_printerr; reflexivity|]. intros _. apply writes_ret.
  - intros output3. destruct (negb _); [apply writes_printerr; reflexivity|apply writes_ret].
Qed.

Section CommandProperties.
Context {St : Type}.
Implicit Types (c : Connection.t St) (s : Cli St).

(** What a guarded call on the server leaves: its value, or the report of
    the gCTS error that it raised; another exception passes. *)
Lemma guarded_on_server {A : Type} (call : M (World St) A) s :
  exists lines,
    snd (guarded (on_server call) s)
    = {| world := snd (call (world s)); console := (console s ++ lines)%list |} /\
    match fst (call (world s)) with
    | Ok a => fst (guarded (on_server call) s) = Ok (inl a) /\ lines = []
    | Raise e =>
        match gcts_messages e with
        | Some messages =>
            (fst (guarded (on_server call) s) = Ok (inr 1%Z) \/
             exists e', fst (guarded (on_server call) s) = Raise e') /\
            forallb is_printerr lines = true
        | None => fst (guarded (on_server call) s) = Raise e /\ lines = []
        end
    end.
Proof.
  unfold guarded, try_except, on_server, bind, ret.
  destruct (call (world s)) as [[a|e] w']; cbn [fst snd].
  - exists []. rewrite app_nil_r. auto.
  - destruct (gcts_messages e) as [messages|].
    + unfold on_console. cbn [console world].
      destruct (dump_gcts_messages_writes messages (console s)) as [lines [H F]].
      destruct (dump_gcts_messages messages (console s)) as [[u|e'] out];
        cbn [fst snd] in *; subst out; exists lines; (split; [reflexivity|]);
        (split; [eauto|]); apply forallb_forall; rewrite Forall_forall in F; exact F.
    + exists []. rewrite app_nil_r. auto.
Qed.

Lemma simple_delete_run c (package : string) (w : World St) :
  let url := "repository/" ++ package in
  let answer := Connection.execute c "DELETE" url VNone (srv w) in
  simple_delete c package w
  = (normalised (fst answer), after_call w (Execute "DELETE" url VNone) (snd answer)).
Proof.
  intros url answer. unfold simple_delete, Repository.delete.
  unfold Repository.wipe_data, HttpProxy.delete, Connection.call_execute,
    Repository.http, Repository.self, Repository.put_self, bind, ret.
  cbn [fst snd]. rewrite decorated_call. cbn [fst snd].
  cbn [proxy Repository._http HttpProxy._build_url HttpProxy.url_prefix
       HttpProxy.connection HttpProxy.__init__].
  fold url. fold answer. destruct (normalised (fst answer)); reflexivity.
Qed.

(** X20.  The command [delete] makes one call, the [DELETE] of the
    repository.  When the call returns, the command writes the
    confirmation and returns 0.  When a gCTS error is raised, the command
    writes to the error stream only and does not return 0: it returns 1,
    unless the report itself raises.  Every other exception, such as a
    transport error that is not declared as JSON, leaves the command and
    nothing is written. *)
Theorem delete_reports_the_outcome c (package : string) s :
  let url := "repository/" ++ package in
  let answer := Connection.execute c "DELETE" url VNone (srv (world s)) in
  exists res lines,
    delete c package s
    = (res, {| world := after_call (world s) (Execute "DELETE" url VNone) (snd answer);
               console := (console s ++ lines)%list |}) /\
    match normalised (fst answer) with
    | Ok _ => res = Ok 0%Z /\ lines = [Console.CorePrintout [deleted_message package]]
    | Raise e =>
        match gcts_messages e with
        | Some _ =>
            (res = Ok 1%Z \/ exists e', res = Raise e') /\
            forallb is_printerr lines = true
        | None => res = Raise e /\ lines = []
        end
    end.
Proof.
  intros url answer. unfold delete. unfold bind at 1.
  destruct (guarded_on_server (simple_delete c package) s) as [lines [Hs Hr]].
  rewrite simple_delete_run in Hs, Hr. cbv zeta in Hs, Hr. fold url in Hs, Hr.
  fold answer in Hs, Hr. cbn [fst snd] in Hs, Hr.
  destruct (guarded (on_server (simple_delete c package)) s) as [r s'].
  cbn [fst snd] in Hs, Hr. subst s'.
  destruct (normalised (fst answer)) as [response|e].
  - destruct Hr as [-> ->]. rewrite app_nil_r.
    exists (Ok 0%Z), [Console.CorePrintout [deleted_message package]].
    split; [reflexivity|]. auto.
  - destruct (gcts_messages e) as [messages|].
    + destruct Hr as [[->|[e' ->]] F].
      * exists (Ok 1%Z), lines. split; [reflexivity|]. auto.
      * exists (Raise e'), lines. split; [reflexivity|]. eauto.
    + destruct Hr as [-> ->]. exists (Raise e), []. split; [reflexivity|]. auto.
Qed.

Lemma print_gcts_commit_lines (commit_data : value) (out : Console.t) :
  is_commit commit_data = true ->
  print_gcts_commit commit_data out = (Ok tt, (out ++ commit_lines commit_data)%list).
Proof.
  destruct commit_data as [| | | | |d]; try discriminate.
  unfold is_commit. cbn [forallb]. intros H.
  repeat (apply andb_prop in H; let H1 := fresh "H" in destruct H as [H1 H]).
  unfold print_gcts_commit, commit_lines, bind, liftR, Console.printout. cbn [py_getitem].
  destruct (lookup (VStr "id") d); [|discriminate].
  destruct (lookup (VStr "author") d); [|discriminate].
  destruct (lookup (VStr "authorMail") d); [|discriminate].
  destruct (lookup (VStr "date") d); [|discriminate].
  destruct (lookup (VStr "message") d); [|discriminate].
  rewrite <- !app_assoc. reflexivity.
Qed.

Lemma for_each_commits (rest : list value) (out : Console.t) :
  forallb is_commit rest = true ->
  for_each (fun commit_item =>
              Console.printout [VStr EmptyString] ;;; print_gcts_commit commit_item)
    rest out
  = (Ok tt,
     (out ++ flat_map (fun commit_item =>
                         Console.Printout [VStr EmptyString] :: commit_lines commit_item)
               rest)%list).
Proof.
  revert out. induction rest as [|x rest IH]; intros out H.
  - cbn. rewrite app_nil_r. reflexivity.
  - cbn [forallb] in H. apply andb_prop in H. destruct H as [Hx Hrest].
    cbn [for_each flat_map]. unfold bind at 1. unfold bind at 1.
    unfold Console.printout at 1. rewrite (print_gcts_commit_lines x _ Hx).
    rewrite (IH _ Hrest). rewrite <- !app_assoc. reflexivity.
Qed.

Lemma separated_blocks {A : Type} (f : A -> list Console.Output) (block : list Console.Output)
    (rest : list A) :
  separated (block :: map f rest)
  = (block ++ flat_map (fun x => Console.Printout [VStr EmptyString] :: f x) rest)%list.
Proof.
  revert block. induction rest as [|x rest IH]; intros block.
  - cbn. rewrite app_nil_r. reflexivity.
  - cbn [map flat_map]. change (separated (block :: f x :: map f rest))
      with (block ++ Console.Printout [VStr EmptyString] :: separated (f x :: map f rest))%list.
    rewrite IH. reflexivity.
Qed.

(** X21.  For a list of commits that have the five printed entries, the
    command [log] makes one call, writes the four lines of every commit
    in the order of the list, with one empty line between two commits and
    none before the first or after the last, and returns 0.  For the
    empty list it writes nothing. *)
Theorem gcts_log_separates_the_commits c (package : string) s
    (answer : value) (commits : list value) :
  let url := ("repository/" ++ package) ++ "/getCommit" in
  let fetch := Connection.get_json c url (srv (world s)) in
  fst fetch = Ok answer ->
  py_getitem answer "commits" = Ok (VList commits) ->
  forallb is_commit commits = true ->
  gcts_log c package s
  = (Ok 0%Z,
     {| world := after_call (world s) (GetJson url) (snd fetch);
        console := (console s ++ separated (map commit_lines commits))%list |}).
Proof.
  intros url fetch Hanswer Hcommits Hwf.
  assert (Hlog : log_of c package (world s)
                 = (Ok (VList commits), after_call (world s) (GetJson url) (snd fetch))).
  { unfold log_of, simple_log, on_repository, Repository.log.
    unfold HttpProxy.get_json, Connection.call_get_json, Repository.http,
      Repository.self, bind, liftR.
    cbn [fst snd]. rewrite decorated_call. cbn [fst snd].
    cbn [proxy Repository._http HttpProxy._build_url HttpProxy.url_prefix
         HttpProxy.connection HttpProxy.__init__].
    change (("repository/" ++ package) ++ "/" ++ "getCommit") with url. fold fetch.
    rewrite Hanswer. cbn [normalised]. rewrite Hcommits. reflexivity. }
  unfold gcts_log. unfold bind at 1.
  destruct (guarded_on_server (log_of c package) s) as [lines [Hs Hr]].
  rewrite Hlog in Hs, Hr. cbn [fst snd] in Hs, Hr. destruct Hr as [Hr ->].
  destruct (guarded (on_server (log_of c package)) s) as [r s'].
  cbn [fst snd] in Hs, Hr. subst r s'. rewrite app_nil_r.
  destruct commits as [|commit_item rest].
  - cbn. rewrite app_nil_r. reflexivity.
  - cbn [truthy negb py_iter liftR]. unfold bind at 1. unfold liftR.
    cbn [forallb] in Hwf. apply andb_prop in Hwf. destruct Hwf as [Hfirst Hrest].
    unfold bind, on_console, ret. cbn [console world].
    rewrite (print_gcts_commit_lines commit_item _ Hfirst). cbn [console world].
    rewrite (for_each_commits rest _ Hrest).
    cbn [map]. rewrite separated_blocks, <- app_assoc. reflexivity.
Qed.

Lemma for_each_config_lines (items : dict) (out : Console.t) :
  for_each (fun kv => Console.printout [VStr (str (fst kv) ++ "=" ++ str (snd kv))])
    items out
  = (Ok tt, (out ++ map config_line items)%list).
Proof.
  revert out. induction items as [|kv items IH]; intros out.
  - cbn. rewrite app_nil_r. reflexivity.
  - cbn [for_each map]. unfold bind at 1. unfold Console.printout at 1.
    rewrite IH, <- app_assoc. reflexivity.
Qed.

(** [repo.configuration] on the proxy that the command makes. *)
Lemma read_configuration_run c (package : string) (w : World St)
    (answer : value) (d : dict) :
  let url := "repository/" ++ package in
  let fetch := Connection.get_json c url (srv w) in
  fst fetch = Ok answer ->
  py_getitem answer "result" = Ok (VDict d) ->
  read_configuration c package w
  = (_config_list_to_dict
       (match lookup (VStr "config") d with Some v => v | None => VNone end),
     after_call w (GetJson url) (snd fetch)).
Proof.
  intros url fetch Hanswer Hresult. unfold read_configuration, Repository.configuration.
  unfold bind at 1. unfold Repository.self at 1. cbn [fst snd].
  change (Repository.config_value (proxy c package VNone)) with VNone.
  cbn [is_None]. unfold bind at 1. unfold bind at 1.
  destruct (get_item_unfetched (proxy c package VNone) w "config" VNone eq_refl)
    as [res [r2 [Heq Hok]]].
  unfold resource, connection_of in Heq, Hok.
  cbn [proxy Repository._http HttpProxy.url_prefix HttpProxy.connection
       HttpProxy.__init__] in Heq, Hok.
  fold url in Heq, Hok. fold fetch in Heq, Hok.
  destruct (Hok answer d Hanswer Hresult) as [-> ->]. rewrite Heq.
  unfold bind, Repository.self, Repository.put_self, liftR. cbn [fst snd].
  unfold Repository.config_value, Repository.ref_to_config, Repository.data_config.
  cbn [Repository._data Repository._config Repository.with_data Repository.with_config
       Repository.detach].
  destruct (lookup (VStr "config") d); reflexivity.
Qed.

(** X22.  The command [config -l] fetches the repository once.  When
    the fetched object has a configuration list of entries with keys, the
    command writes one line [key=value] per key, with the value of the
    last entry of the key, and returns 0.  When the fetched object has no
    ['config'], a [TypeError] leaves the command and nothing is
    written. *)
Theorem config_lists_each_key_once c (package : string) s (answer : value) (d : dict) :
  let url := "repository/" ++ package in
  let fetch := Connection.get_json c url (srv (world s)) in
  let w1 := after_call (world s) (GetJson url) (snd fetch) in
  fst fetch = Ok answer ->
  py_getitem answer "result" = Ok (VDict d) ->
  match lookup (VStr "config") d with
  | Some (VList l) =>
      keyed l = true ->
      exists items,
        config c true package s
        = (Ok 0%Z,
           {| world := w1; console := (console s ++ map config_line items)%list |}) /\
        wf_dict items = true /\
        forall k, lookup k items = last_value l k
  | Some _ => True
  | None =>
      config c true package s = (Raise TypeError, {| world := w1; console := console s |})
  end.
Proof.
  intros url fetch w1 Hanswer Hresult.
  pose proof (read_configuration_run c package (world s) answer d Hanswer Hresult) as Hrun.
  cbv zeta in Hrun. fold url in Hrun. fold fetch in Hrun. fold w1 in Hrun.
  destruct (guarded_on_server (read_configuration c package) s) as [lines [Hs Hr]].
  rewrite Hrun in Hs, Hr. cbn [fst snd] in Hs, Hr.
  destruct (lookup (VStr "config") d) as [[| | | |l|]|]; try exact I.
  - intros Hl. destruct (dict_of_entries_spec l Hl [] eq_refl) as [items [Hd [Hwf Hlook]]].
    exists items. split; [|split; [exact Hwf|]].
    + unfold _config_list_to_dict in Hr. cbn [py_iter bindR] in Hr. rewrite Hd in Hr.
      cbn [bindR] in Hr. destruct Hr as [Hr ->]. rewrite app_nil_r in Hs.
      unfold config. unfold bind at 1.
      destruct (guarded (on_server (read_configuration c package)) s) as [r s'].
      cbn [fst snd] in Hs, Hr. subst r s'.
      unfold bind, on_console, ret. cbn [console world].
      rewrite for_each_config_lines. reflexivity.
    + intros k. rewrite Hlook. destruct (last_value l k); reflexivity.
  - cbn in Hr. destruct Hr as [Hr ->]. rewrite app_nil_r in Hs.
    unfold config. unfold bind at 1.
    destruct (guarded (on_server (read_configuration c package)) s) as [r s'].
    cbn [fst snd] in Hs, Hr. subst r s'. reflexivity.
Qed.

(** The command [user set-credentials] posts the token with an empty
    user and password; what the connection raises leaves the command as
    it is, and nothing is written. *)
Lemma user_credentials_run c (api_url token : value) s :
  let body := VDict [(VStr "endpoint", api_url); (VStr "user", VStr EmptyString);
                     (VStr "password", VStr EmptyString); (VStr "token", token);
                     (VStr "type", VStr "token")] in
  let answer := Connection.post_obj_as_json c "user/credentials" body None
                  (srv (world s)) in
  user_credentials c api_url token s
  = (match fst answer with Ok _ => Ok tt | Raise e => Raise e end,
     {| world := after_call (world s) (PostObjAsJson "user/credentials" body None)
                   (snd answer);
        console := console s |}).
Proof.
  intros body answer. unfold user_credentials, on_server, simple_set_user_api_token.
  unfold bind, ret, Connection.call_post_obj_as_json, Connection.recorded.
  fold body. fold answer. destruct answer as [[response|e] s1]; reflexivity.
Qed.

(** X23.  The helpers that are called with a name work on the
    repository of that name.  [simple_delete], [simple_pull] and
    [simple_log] make one call: the [DELETE] of [repository/<name>], the
    [GET] of its [pullByCommit] and the [GET] of its [getCommit].
    [simple_checkout] first fetches [repository/<name>] to learn the
    current branch and then makes at most one more call, the switch. *)
Theorem helpers_by_name_address_the_repository c (name t : string) (w : World St) :
  let repo := "repository/" ++ name in
  (exists res st,
     simple_delete c name w = (res, after_call w (Execute "DELETE" repo VNone) st)) /\
  (exists res r' st,
     simple_pull c name None w
     = (res, (r', after_call w (GetJson (repo ++ "/pullByCommit")) st))) /\
  (exists res r' st,
     simple_log c name None w
     = (res, (r', after_call w (GetJson (repo ++ "/getCommit")) st))) /\
  (exists res r' w' rest,
     simple_checkout c t name None w = (res, (r', w')) /\
     calls w' = (calls w ++ GetJson repo :: rest)%list /\
     (rest = [] \/
      exists b, rest = [Execute "GET" (repo ++ "/branches/" ++ b ++ "/switch")
                          (VDict [(VStr "branch", VStr t)])])).
Proof.
  intros repo. split; [|split; [|split]].
  - rewrite simple_delete_run. eauto.
  - unfold simple_pull, on_repository, Repository.pull.
    unfold Repository.wipe_data, HttpProxy.get_json, Connection.call_get_json,
      Repository.http, Repository.self, Repository.put_self, bind, ret.
    cbn [fst snd]. rewrite decorated_call. cbn [fst snd].
    cbn [proxy Repository._http HttpProxy._build_url HttpProxy.url_prefix
         HttpProxy.connection HttpProxy.__init__].
    change (("repository/" ++ name) ++ "/" ++ "pullByCommit") with (repo ++ "/pullByCommit").
    destruct (normalised _); eauto.
  - unfold simple_log, on_repository, Repository.log.
    unfold HttpProxy.get_json, Connection.call_get_json,
      Repository.http, Repository.self, bind, liftR.
    cbn [fst snd]. rewrite decorated_call. cbn [fst snd].
    cbn [proxy Repository._http HttpProxy._build_url HttpProxy.url_prefix
         HttpProxy.connection HttpProxy.__init__].
    change (("repository/" ++ name) ++ "/" ++ "getCommit") with (repo ++ "/getCommit").
    destruct (normalised _); eauto.
  - unfold simple_checkout, on_repository, Repository.checkout, Repository.branch.
    unfold bind at 1.
    destruct (get_item_unfetched (proxy c name VNone) w "branch" VNone eq_refl)
      as [res [r2 [Heq _]]].
    pose proof (get_item_keeps_proxy (proxy c name VNone) w "branch" VNone false) as Hk.
    rewrite Heq in Hk. cbn [fst snd] in Hk. rewrite Heq.
    unfold resource in *. cbn [proxy Repository._http HttpProxy.url_prefix
                                 HttpProxy.__init__] in *.
    fold repo in Hk |- *.
    destruct res as [current|e].
    + unfold Repository.wipe_data, HttpProxy.get, Connection.call_execute,
        Repository.http, Repository.self, Repository.put_self, bind, ret, liftR.
      cbn [fst snd]. rewrite decorated_call. cbn [fst snd]. rewrite Hk.
      cbn [HttpProxy._build_url HttpProxy.url_prefix HttpProxy.connection].
      change (repo ++ "/" ++ "branches/" ++ str current ++ "/switch")
        with (repo ++ "/branches/" ++ str current ++ "/switch").
      destruct (normalised _) as [response|e].
      * destruct (response_json response) as [json|e];
          [destruct (py_getitem json "result")|];
          do 4 eexists; (split; [reflexivity|]); unfold after_call; cbn [calls];
          rewrite <- app_assoc; (split; [reflexivity|]); right;
          exists (str current); reflexivity.
      * do 4 eexists. split; [reflexivity|]. unfold after_call; cbn [calls].
        rewrite <- app_assoc. split; [reflexivity|]. right.
        exists (str current). reflexivity.
    + do 4 eexists. split; [reflexivity|]. split; [reflexivity|]. left. reflexivity.
Qed.

End CommandProperties.

(** ** The table *)

Lemma length_spaces (n : nat) : String.length (spaces n) = n.
Proof. induction n as [|n IH]; simpl; [reflexivity|]. rewrite IH. reflexivity. Qed.

Lemma length_ljust (w : nat) (text : string) :
  String.length text <= w -> String.length (TableWriter.ljust w text) = w.
Proof.
  intros H. unfold TableWriter.ljust. rewrite length_append, length_spaces. lia.
Qed.

Lemma cells_fits (widths : list nat) (line : list string) :
  fits widths line ->
  exists filled,
    TableWriter.cells widths line = Ok filled /\ map String.length filled = widths.
Proof.
  induction 1 as [|w text widths line Hw _ [filled [Hc Hl]]]; cbn [TableWriter.cells].
  - exists []. split; reflexivity.
  - rewrite Hc. cbn [bindR]. eexists. split; [reflexivity|].
    cbn [map]. rewrite (length_ljust w text Hw), Hl. reflexivity.
Qed.

Lemma length_join (l : list string) :
  String.length (join " | " l)
  = list_sum (map String.length l) + 3 * (length l - 1).
Proof.
  induction l as [|x [|y l] IH];
    [reflexivity|cbn [join map list_sum fold_right length]; lia|].
  change (join " | " (x :: y :: l)) with (x ++ " | " ++ join " | " (y :: l)).
  rewrite !length_append, IH. cbn [map list_sum fold_right length String.length]. lia.
Qed.

Lemma format_fits (widths : list nat) (line : list string) :
  fits widths line ->
  exists text,
    TableWriter.format widths line = Ok text /\ String.length text = row_length widths.
Proof.
  intros H. destruct (cells_fits widths line H) as [filled [Hc Hl]].
  unfold TableWriter.format. rewrite Hc. cbn [bindR]. eexists. split; [reflexivity|].
  rewrite length_join, Hl. unfold row_length. rewrite <- Hl, length_map. reflexivity.
Qed.

Lemma length_dashes (n : Z) : String.length (TableWriter.dashes n) = Z.to_nat n.
Proof.
  unfold TableWriter.dashes. induction (Z.to_nat n) as [|[|k] IH]; [reflexivity..|].
  change (repeat "-" (S (S k))) with ("-" :: repeat "-" (S k))%list.
  change (String.concat EmptyString ("-" :: repeat "-" (S k)))
    with ("-" ++ EmptyString ++ String.concat EmptyString (repeat "-" (S k))).
  rewrite !length_append, IH. reflexivity.
Qed.

Lemma fits_widen (widths widths' : list nat) (line : list string) :
  Forall2 le widths widths' -> fits widths line -> fits widths' line.
Proof.
  intros Hle. revert line. induction Hle as [|w w' widths widths' Hw _ IH];
    intros line Hfit; inversion Hfit; subst; constructor.
  - lia.
  - apply IH. assumption.
Qed.

Lemma Forall2_le_refl (l : list nat) : Forall2 le l l.
Proof. induction l; constructor; auto. Qed.

Lemma Forall2_le_trans (a b c : list nat) :
  Forall2 le a b -> Forall2 le b c -> Forall2 le a c.
Proof.
  intros Hab. revert c. induction Hab as [|x y a b Hxy _ IH]; intros c Hbc;
    inversion Hbc; subst; constructor.
  - lia.
  - apply IH. assumption.
Qed.

Lemma assign_here (pre suf : list nat) (w x : nat) :
  TableWriter.assign (pre ++ w :: suf) (length pre) x = (pre ++ x :: suf)%list.
Proof. induction pre as [|y pre IH]; simpl; [reflexivity|]. rewrite IH. reflexivity. Qed.

Section TableProperties.
Context {W Item Attr : Type} (getattr : Attr -> M (Item * W) value).

(** The inner loop from the column after [pre]: the columns that the line
    fills are wide enough for it, and no column has become narrower. *)
Lemma line_of_spec (attrs : list Attr) :
  forall (pre suf : list nat) (st : Item * W) (line : list string)
         (widths' : list nat) (st' : Item * W),
    TableWriter.line_of getattr attrs (length pre) (pre ++ suf)%list st
    = (Ok (line, widths'), st') ->
    exists head tail,
      widths' = (pre ++ head ++ tail)%list /\
      Forall2 le suf (head ++ tail)%list /\
      fits head line /\
      length line = length attrs.
Proof.
  induction attrs as [|attr rest IH]; intros pre suf st line widths' st' H.
  - cbn in H. injection H as <- <- <-. exists [], suf. cbn [app length].
    repeat split; [apply Forall2_le_refl|constructor].
  - cbn [TableWriter.line_of] in H. unfold bind at 1 in H.
    destruct (getattr attr st) as [[v|e] st1]; [|discriminate H].
    rewrite nth_error_app2 in H by lia. rewrite Nat.sub_diag in H.
    destruct suf as [|w suf0]; [discriminate H|]. cbn [nth_error] in H.
    set (w1 := if (w <? String.length (str v))%nat then String.length (str v) else w).
    assert (Hw : w <= w1 /\ String.length (str v) <= w1).
    { unfold w1. destruct (Nat.ltb_spec w (String.length (str v))); lia. }
    assert (Hwidths :
              (if (w <? String.length (str v))%nat
               then TableWriter.assign (pre ++ w :: suf0) (length pre)
                      (String.length (str v))
               else (pre ++ w :: suf0)%list)
              = ((pre ++ [w1]) ++ suf0)%list).
    { unfold w1. rewrite <- app_assoc. cbn [app].
      destruct (w <? String.length (str v))%nat; [apply assign_here|reflexivity]. }
    rewrite Hwidths in H.
    assert (Hi : S (length pre) = length (pre ++ [w1])%list).
    { rewrite length_app. cbn [length]. lia. }
    rewrite Hi in H. unfold bind in H.
    destruct (TableWriter.line_of getattr rest (length (pre ++ [w1])%list)
                ((pre ++ [w1]) ++ suf0)%list st1) as [[[line0 widths0]|e] st2] eqn:Hrec;
      [|discriminate H].
    cbn [fst snd ret] in H. injection H as <- <- <-.
    destruct (IH _ _ _ _ _ _ Hrec) as [head [tail [-> [Hle [Hfit Hlen]]]]].
    exists (w1 :: head), tail. rewrite <- app_assoc. cbn [app length].
    repeat split.
    + constructor; [lia|exact Hle].
    + constructor; [lia|exact Hfit].
    + rewrite Hlen. reflexivity.
Qed.

Lemma Forall2_length_eq {A B : Type} (R : A -> B -> Prop) (l : list A) (l' : list B) :
  Forall2 R l l' -> length l = length l'.
Proof. induction 1; cbn; auto. Qed.

(** A line over all the columns. *)
Lemma line_of_all (attrs : list Attr) (widths : list nat) (st : Item * W)
    (line : list string) (widths' : list nat) (st' : Item * W) :
  length attrs = length widths ->
  TableWriter.line_of getattr attrs 0 widths st = (Ok (line, widths'), st') ->
  Forall2 le widths widths' /\ fits widths' line.
Proof.
  intros Hlen H.
  destruct (line_of_spec attrs [] widths st line widths' st' H)
    as [head [tail [-> [Hle [Hfit Hl]]]]].
  cbn [app] in *. split; [exact Hle|].
  assert (Ht : tail = []).
  { apply Forall2_length_eq in Hle. apply Forall2_length_eq in Hfit.
    rewrite length_app in Hle. destruct tail; [reflexivity|]. cbn [length] in Hle. lia. }
  subst tail. rewrite app_nil_r. exact Hfit.
Qed.

Lemma lines_of_spec (attrs : list Attr) (data : list Item) :
  forall (widths : list nat) (w : W) (lines : list (list string))
         (widths' : list nat) (w' : W),
    length attrs = length widths ->
    TableWriter.lines_of getattr data attrs widths w = (Ok (lines, widths'), w') ->
    Forall2 le widths widths' /\
    Forall (fits widths') lines /\
    length lines = length data.
Proof.
  induction data as [|item rest IH]; intros widths w lines widths' w' Hlen H.
  - cbn in H. injection H as <- <- <-.
    repeat split; [apply Forall2_le_refl|constructor].
  - cbn [TableWriter.lines_of] in H.
    destruct (TableWriter.line_of getattr attrs 0 widths (item, w))
      as [[[line widths1]|e] [item' w1]] eqn:Hline; [|discriminate H].
    destruct (line_of_all attrs widths _ _ _ _ Hlen Hline) as [Hle1 Hfit1].
    destruct (TableWriter.lines_of getattr rest attrs widths1 w1)
      as [[[lines0 widths2]|e] w2] eqn:Hrest; [|discriminate H].
    injection H as <- <- <-.
    assert (Hlen1 : length attrs = length widths1).
    { rewrite Hlen. exact (Forall2_length_eq _ _ _ Hle1). }
    destruct (IH _ _ _ _ _ Hlen1 Hrest) as [Hle2 [Hfits Hl]].
    repeat split.
    + exact (Forall2_le_trans _ _ _ Hle1 Hle2).
    + constructor; [exact (fits_widen _ _ _ Hle2 Hfit1)|exact Hfits].
    + cbn [length]. rewrite Hl. reflexivity.
Qed.

Lemma fits_headers (headers : list string) : fits (map String.length headers) headers.
Proof. induction headers; constructor; auto. Qed.

Lemma for_each_lines (widths : list nat) (lines : list (list string)) (out : Console.t) :
  Forall (fits widths) lines ->
  exists texts,
    for_each (fun line =>
                text <- liftR (TableWriter.format widths line) ;;
                Console.printout [VStr text]) lines out
    = (Ok tt, (out ++ map table_line texts)%list) /\
    length texts = length lines /\
    Forall (fun text => String.length text = row_length widths) texts.
Proof.
  intros H. revert out. induction H as [|line lines Hfit _ IH]; intros out.
  - exists []. cbn. rewrite app_nil_r. repeat split. constructor.
  - destruct (format_fits widths line Hfit) as [text [Hf Hl]].
    cbn [for_each]. unfold bind at 1. unfold bind at 1. unfold liftR at 1.
    rewrite Hf. unfold Console.printout at 1.
    destruct (IH (out ++ [Console.Printout [VStr text]])%list) as [texts [Heq [Hn Hall]]].
    rewrite Heq. exists (text :: texts). rewrite <- app_assoc. repeat split.
    + cbn [length]. rewrite Hn. reflexivity.
    + constructor; assumption.
Qed.

(** A table whose columns are wide enough for the headers and for the
    lines. *)
Lemma printout_fits (table : TableWriter.t) (out : Console.t) :
  fits (TableWriter._widths table) (TableWriter._headers table) ->
  Forall (fits (TableWriter._widths table)) (TableWriter._lines table) ->
  exists texts,
    TableWriter.printout table out = (Ok tt, (out ++ map table_line texts)%list) /\
    length texts = 2 + length (TableWriter._lines table) /\
    Forall (fun text => String.length text = row_length (TableWriter._widths table)) texts.
Proof.
  destruct table as [headers widths lines].
  cbn [TableWriter._widths TableWriter._lines TableWriter._headers].
  intros Hhead Hfits.
  destruct (format_fits widths headers Hhead) as [header [Hf Hl]].
  destruct (for_each_lines widths lines
              ((out ++ [Console.Printout [VStr header]]) ++
               [Console.Printout
                  [VStr (TableWriter.dashes
                           (Z.of_nat (list_sum widths)
                            + 3 * (Z.of_nat (length headers) - 1)))]])%list Hfits)
    as [texts [Heq [Hlt Hall]]].
  exists (header
          :: TableWriter.dashes (Z.of_nat (list_sum widths)
                                 + 3 * (Z.of_nat (length headers) - 1))
          :: texts).
  split; [|split].
  - unfold TableWriter.printout.
    cbn [TableWriter._widths TableWriter._lines TableWriter._headers].
    unfold bind at 1. unfold liftR at 1. rewrite Hf.
    unfold bind at 1. unfold Console.printout at 1.
    unfold bind at 1. unfold Console.printout at 1.
    rewrite Heq. rewrite <- !app_assoc. reflexivity.
  - cbn [length]. rewrite Hlt. reflexivity.
  - constructor; [exact Hl|]. constructor; [|exact Hall].
    rewrite length_dashes. unfold row_length.
    apply Forall2_length_eq in Hhead. rewrite <- Hhead.
    destruct widths as [|x widths]; cbn [length list_sum fold_right]; lia.
Qed.

(** The table that [__init__] returns. *)
Lemma init_fits (data : list Item) (attrs : list Attr) (headers : list string) (w : W)
    (table : TableWriter.t) (w' : W) :
  length attrs = length headers ->
  TableWriter.__init__ getattr data attrs headers w = (Ok table, w') ->
  TableWriter._headers table = headers /\
  fits (TableWriter._widths table) headers /\
  Forall (fits (TableWriter._widths table)) (TableWriter._lines table) /\
  length (TableWriter._lines table) = length data.
Proof.
  intros Hlen Hinit. unfold TableWriter.__init__, bind in Hinit.
  destruct (TableWriter.lines_of getattr data attrs (map String.length headers) w)
    as [[[lines widths]|e] w1] eqn:Hlines; [|discriminate Hinit].
  cbn [ret fst snd] in Hinit. injection Hinit as <- <-.
  cbn [TableWriter._widths TableWriter._lines TableWriter._headers].
  assert (Hlen' : length attrs = length (map String.length headers))
    by (rewrite length_map; exact Hlen).
  destruct (lines_of_spec attrs data _ _ _ _ _ Hlen' Hlines) as [Hle [Hfits Hn]].
  repeat split; auto. exact (fits_widen _ _ _ Hle (fits_headers headers)).
Qed.

(** The loops return when reading an attribute returns, and they leave
    the state as the reads leave it. *)
Lemma line_of_returns (attrs : list Attr) :
  forall (pre suf : list nat) (st : Item * W),
    (forall attr, In attr attrs -> exists v, getattr attr st = (Ok v, st)) ->
    length attrs <= length suf ->
    exists line widths',
      TableWriter.line_of getattr attrs (length pre) (pre ++ suf)%list st
      = (Ok (line, widths'), st).
Proof.
  induction attrs as [|attr rest IH]; intros pre suf st Hget Hlen.
  - do 2 eexists. reflexivity.
  - cbn [TableWriter.line_of]. unfold bind at 1.
    destruct (Hget attr (or_introl eq_refl)) as [v Hv]. rewrite Hv.
    rewrite nth_error_app2 by lia. rewrite Nat.sub_diag.
    destruct suf as [|w suf0]; [cbn [length] in Hlen; lia|]. cbn [nth_error].
    set (w1 := if (w <? String.length (str v))%nat then String.length (str v) else w).
    assert (Hwidths :
              (if (w <? String.length (str v))%nat
               then TableWriter.assign (pre ++ w :: suf0) (length pre)
                      (String.length (str v))
               else (pre ++ w :: suf0)%list)
              = ((pre ++ [w1]) ++ suf0)%list).
    { unfold w1. rewrite <- app_assoc. cbn [app].
      destruct (w <? String.length (str v))%nat; [apply assign_here|reflexivity]. }
    rewrite Hwidths.
    assert (Hi : S (length pre) = length (pre ++ [w1])%list).
    { rewrite length_app. cbn [length]. lia. }
    rewrite Hi. unfold bind.
    destruct (IH (pre ++ [w1])%list suf0 st) as [line [widths' Hrec]].
    + intros a Ha. apply Hget. right. exact Ha.
    + cbn [length] in Hlen. lia.
    + rewrite Hrec. do 2 eexists. reflexivity.
Qed.

Lemma lines_of_returns (attrs : list Attr) (data : list Item) :
  forall (widths : list nat) (w : W),
    (forall item attr w0, In item data -> In attr attrs ->
       exists v, getattr attr (item, w0) = (Ok v, (item, w0))) ->
    length attrs = length widths ->
    exists lines widths',
      TableWriter.lines_of getattr data attrs widths w = (Ok (lines, widths'), w).
Proof.
  induction data as [|item rest IH]; intros widths w Hget Hlen.
  - do 2 eexists. reflexivity.
  - cbn [TableWriter.lines_of].
    destruct (line_of_returns attrs [] widths (item, w)) as [line [widths1 Hline]].
    + intros attr Ha. apply Hget; [left; reflexivity|exact Ha].
    + lia.
    + cbn [length app] in Hline. rewrite Hline.
      destruct (line_of_all attrs widths _ _ _ _ Hlen Hline) as [Hle _].
      destruct (IH widths1 w) as [lines [widths2 Hrest]].
      * intros i a w0 Hi Ha. apply Hget; [right; exact Hi|exact Ha].
      * rewrite Hlen. exact (Forall2_length_eq _ _ _ Hle).
      * rewrite Hrest. do 2 eexists. reflexivity.
Qed.

(** X24.  A table over as many attributes as it has headers is written
    as the header line, a rule and one line per item, and all these lines
    have the same length: every column is as wide as its widest value,
    header included, and the values are padded to it. *)
Theorem table_lines_have_one_length
    (data : list Item) (attrs : list Attr) (headers : list string) (w : W)
    (table : TableWriter.t) (w' : W) (out : Console.t) :
  length attrs = length headers ->
  TableWriter.__init__ getattr data attrs headers w = (Ok table, w') ->
  fits (TableWriter._widths table) headers /\
  Forall (fits (TableWriter._widths table)) (TableWriter._lines table) /\
  exists texts,
    TableWriter.printout table out = (Ok tt, (out ++ map table_line texts)%list) /\
    length texts = 2 + length data /\
    Forall (fun text => String.length text = row_length (TableWriter._widths table)) texts.
Proof.
  intros Hlen Hinit.
  destruct (init_fits data attrs headers w table w' Hlen Hinit)
    as [Hh [Hhead [Hfits Hn]]].
  split; [exact Hhead|]. split; [exact Hfits|].
  rewrite <- Hh in Hhead.
  destruct (printout_fits table out Hhead Hfits) as [texts [Heq [Hlt Hall]]].
  exists texts. rewrite Hlt, Hn in *. auto.
Qed.

End TableProperties.

Section RepolistProperties.
Context {St : Type}.

(** Reading a column of a proxy with a cached snapshot returns and makes
    no call. *)
Lemma getattr_cached (r : Repository.t St) (w : World St) (attr : column) (d : dict) :
  Repository._data r = VDict d ->
  exists v, repository_getattr attr (r, w) = (Ok v, (r, w)).
Proof.
  intros Hd. destruct attr as [|a]; cbn [repository_getattr].
  - eexists. reflexivity.
  - rewrite read_is_get_item, get_item_cached by (rewrite Hd; reflexivity).
    rewrite Hd. eexists. reflexivity.
Qed.

(** X25.  The command [ls] makes one call, the [GET] of [repository].
    For an answer whose ['result'] is a list of objects with a text as
    ['name'], it reads the columns from the fetched objects without a
    further call, writes the header line, a rule and one line per
    repository, all of the same length, and returns 0. *)
Theorem repolist_writes_an_aligned_table
    (c : Connection.t St) (s : Cli St) (response : value) (entries : list value)
    (s1 : St) :
  Connection.get_json c "repository" (srv (world s)) = (Ok response, s1) ->
  py_get response "result" (VList []) = Ok (VList entries) ->
  forallb named entries = true ->
  exists texts n,
    repolist c s
    = (Ok 0%Z,
       {| world := after_call (world s) (GetJson "repository") s1;
          console := (console s ++ map table_line texts)%list |}) /\
    length texts = 2 + length entries /\
    Forall (fun text => String.length text = n) texts.
Proof.
  intros Hget Hresult Hnamed.
  set (w1 := after_call (world s) (GetJson "repository") s1).
  set (repos := map (fun e => proxy c (name_of e) e) entries).
  assert (Hfetch : simple_fetch_repos c (world s) = (Ok repos, w1)).
  { unfold simple_fetch_repos, Connection.call_get_json, bind, liftR.
    rewrite decorated_call. rewrite Hget. cbn [fst snd normalised].
    rewrite Hresult. cbn [py_iter]. rewrite (repositories_named c entries Hnamed).
    reflexivity. }
  destruct (guarded_on_server (simple_fetch_repos c) s) as [lines [Hs Hr]].
  rewrite Hfetch in Hs, Hr. cbn [fst snd] in Hs, Hr. destruct Hr as [Hr ->].
  rewrite app_nil_r in Hs.
  destruct (lines_of_returns repository_getattr repolist_columns repos
              (map String.length repolist_headers) w1) as [rows [widths Hrows]].
  { intros item attr w0 Hitem _. unfold repos in Hitem. apply in_map_iff in Hitem.
    destruct Hitem as [e [<- He]]. rewrite forallb_forall in Hnamed.
    specialize (Hnamed e He). destruct e as [| | | | |d]; try discriminate Hnamed.
    apply (getattr_cached _ _ _ d). reflexivity. }
  { reflexivity. }
  assert (Hinit : TableWriter.__init__ repository_getattr repos repolist_columns
                    repolist_headers w1
                  = (Ok {| TableWriter._headers := repolist_headers;
                           TableWriter._widths := widths;
                           TableWriter._lines := rows |}, w1)).
  { unfold TableWriter.__init__, bind. rewrite Hrows. reflexivity. }
  destruct (init_fits repository_getattr repos repolist_columns repolist_headers w1 _ _
              eq_refl Hinit) as [_ [Hhead [Hfits Hn]]].
  destruct (printout_fits _ (console s) Hhead Hfits) as [texts [Heq [Hlt Hall]]].
  exists texts, (row_length widths). split; [|split].
  - unfold repolist. unfold bind at 1.
    destruct (guarded (on_server (simple_fetch_repos c)) s) as [r s'].
    cbn [fst snd] in Hs, Hr. subst r s'.
    unfold bind at 1. unfold on_server at 1. cbn [world console].
    rewrite Hinit. unfold bind, on_console, ret. cbn [world console].
    rewrite Heq. reflexivity.
  - rewrite Hlt. cbn [TableWriter._lines]. cbn [TableWriter._lines] in Hn. rewrite Hn.
    unfold repos. rewrite length_map. reflexivity.
  - exact Hall.
Qed.

End RepolistProperties.

(** ** The commands on the example connections *)

Lemma gcts_log_separates_the_commits_witness :
  gcts_log scripted "myrepo"
    (at_start [ReplyJson (VDict [(VStr "commits", VList [first_commit; second_commit])])])
  = (Ok 0%Z,
     {| world := answered [] [GetJson "repository/myrepo/getCommit"];
        console := separated [commit_lines first_commit; commit_lines second_commit] |}).
Proof.
  exact (gcts_log_separates_the_commits scripted "myrepo"
           (at_start [ReplyJson (VDict [(VStr "commits",
                                         VList [first_commit; second_commit])])])
           (VDict [(VStr "commits", VList [first_commit; second_commit])])
           [first_commit; second_commit] eq_refl eq_refl eq_refl).
Defined.

Lemma config_lists_each_key_once_witness :
  exists items,
    config scripted true "myrepo"
      (at_start [ReplyJson
                   (VDict [(VStr "result",
                            VDict [(VStr "config",
                                    VList [entry "A" "1"; entry "B" "2"; entry "A" "3"])])])])
    = (Ok 0%Z,
       {| world := answered [] [GetJson "repository/myrepo"];
          console := map config_line items |}) /\
    lookup (VStr "A") items = Some (VStr "3").
Proof.
  destruct (config_lists_each_key_once scripted "myrepo"
              (at_start [ReplyJson
                           (VDict [(VStr "result",
                                    VDict [(VStr "config",
                                            VList [entry "A" "1"; entry "B" "2";
                                                   entry "A" "3"])])])])
              (VDict [(VStr "result",
                       VDict [(VStr "config",
                               VList [entry "A" "1"; entry "B" "2"; entry "A" "3"])])])
              [(VStr "config", VList [entry "A" "1"; entry "B" "2"; entry "A" "3"])]
              eq_refl eq_refl eq_refl) as [items [Hrun [_ Hlook]]].
  exists items. split; [exact Hrun|]. rewrite Hlook. reflexivity.
Defined.

Lemma table_lines_have_one_length_witness :
  exists texts,
    TableWriter.printout one_repository_table [] = (Ok tt, map table_line texts) /\
    length texts = 3 /\
    Forall (fun text => String.length text = 45) texts.
Proof.
  destruct (table_lines_have_one_length (@repository_getattr (list Reply))
              [proxy scripted "one"
                 (VDict [(VStr "name", VStr "one"); (VStr "status", VStr "READY")])]
              repolist_columns repolist_headers (start []) one_repository_table (start [])
              [] eq_refl eq_refl) as [_ [_ [texts [Hrun [Hlen Hall]]]]].
  exists texts. split; [exact Hrun|]. split; [exact Hlen|exact Hall].
Defined.

Lemma repolist_writes_an_aligned_table_witness :
  exists texts n,
    repolist scripted
      (at_start [ReplyJson (VDict [(VStr "result", VList two_repositories)])])
    = (Ok 0%Z,
       {| world := answered [] [GetJson "repository"];
          console := map table_line texts |}) /\
    length texts = 4 /\
    Forall (fun text => String.length text = n) texts.
Proof.
  exact (repolist_writes_an_aligned_table scripted
           (at_start [ReplyJson (VDict [(VStr "result", VList two_repositories)])])
           (VDict [(VStr "result", VList two_repositories)]) two_repositories []
           eq_refl eq_refl eq_refl).
Defined.

(** The table of the two repositories. *)
Example repolist_of_two_repositories :
  console (snd (repolist scripted
                  (at_start [ReplyJson (VDict [(VStr "result", VList two_repositories)])])))
  = [table_line "Name | Branch | Commit | Status | vSID | URL ";
     table_line "---------------------------------------------";
     table_line "one  | None   | None   | READY  | None | None";
     table_line "two  | None   | None   | None   | None | None"].
Proof. reflexivity. Qed.

(** The report of an error with a log and its protocol. *)
Example dump_of_a_nested_log :
  snd (dump_gcts_messages
         (VDict [(VStr "log",
                  VList [VDict [(VStr "message", VStr "Clone failed");
                                (VStr "protocol",
                                 VList [VDict [(VStr "message", VStr "No access")];
                                        VStr "Check the token"])]]);
                 (VStr "exception", VStr "Cannot clone")]) [])
  = [Console.Printerr [VStr "Log:"];
     Console.Printerr [VStr " "; VStr "Clone failed"];
     Console.Printerr [VStr "   "; VStr "No access"];
     Console.Printerr [VStr "   "; VStr "Check the token"];
     Console.Printerr [VStr ("Exception:" ++ String newline " "); VStr "Cannot clone"]].
Proof. reflexivity. Qed.

(** ** The configuration cache and the snapshot *)

Section SharedConfiguration.
Context {St : Type}.
Implicit Types (r : Repository.t St) (w : World St).




End SharedConfiguration.


(** ** [simple_clone] and the errors of [create] *)

Section CloneErrors.
Context {St : Type}.

(** X27.  [simple_clone] tolerates nothing but an existing repository:
    when the create request raises and the error is not classified as
    [GCTSRepoAlreadyExistsError], or when [error_exists] is set, the error
    that the normaliser gives leaves [simple_clone]; the create request is
    the only call, so that nothing is fetched and nothing is cloned. *)
Theorem simple_clone_tolerates_only_an_existing_repository
    (c : Connection.t St) (url name vsid : string) (start_dir vcs_token : value)
    (error_exists : bool) (role typ : string) (w : World St) (e e' : exn) (s1 : St) :
  let request := create_request name
                   (clone_payload name url vsid start_dir vcs_token role typ) in
  Connection.post_obj_as_json c "repository" request (Some "application/json") (srv w)
  = (Raise e, s1) ->
  @normalised unit (Raise e) = Raise e' ->
  error_exists = true \/ (forall messages, e' <> GCTSRepoAlreadyExistsError messages) ->
  simple_clone c url name vsid start_dir vcs_token error_exists role typ w
  = (Raise e',
     after_call w (PostObjAsJson "repository" request (Some "application/json")) s1).
Proof.
  intros request Hpost Hnorm Hkind.
  assert (Hcreate :
    post_and_store (clone_payload name url vsid start_dir vcs_token role typ)
      (proxy c name VNone, w)
    = (Raise e',
       (proxy c name VNone,
        after_call w (PostObjAsJson "repository" request (Some "application/json")) s1))).
  { destruct (post_and_store_run
                (clone_payload name url vsid start_dir vcs_token role typ)
                (proxy c name VNone) w) as [res [r' [Heq [Hraise _]]]].
    cbn [Repository._name proxy] in Heq, Hraise. unfold connection_of in Heq, Hraise.
    cbn [Repository._http proxy HttpProxy.connection HttpProxy.__init__] in Heq, Hraise.
    fold request in Heq, Hraise. rewrite Hpost in Heq, Hraise. cbn [fst snd] in Heq, Hraise.
    destruct (Hraise e eq_refl) as [-> ->]. rewrite Heq, Hnorm. reflexivity. }
  unfold simple_clone. cbv zeta. cbn [Repository.__init__ truthy].
  change {| Repository._http := HttpProxy.__init__ c name;
            Repository._name := name;
            Repository._data := VNone;
            Repository._config := Repository.Own VNone |} with (proxy c name VNone).
  unfold bind at 1. unfold try_except.
  match goal with
  | |- context [Repository.create ?a ?b ?x ?f ?g ?h] =>
      rewrite (simple_clone_create c url name vsid start_dir vcs_token role typ w
               : Repository.create a b x f g h = _)
  end.
  rewrite Hcreate.
  destruct e'; try reflexivity.
  destruct Hkind as [->|Hkind]; [reflexivity|].
  exfalso. exact (Hkind messages eq_refl).
Qed.

End CloneErrors.

Lemma simple_clone_tolerates_only_an_existing_repository_witness :
  simple_clone_myrepo false
    [ReplyRaise (HTTPRequestError (json_response (VDict not_exists_body)));
     ReplyJson created_answer;
     ReplyResponse ok_response]
  = (Raise (GCTSRepoNotExistsError
              (VDict [(VStr "exception", VStr "Repository does not exist")])),
     answered [ReplyJson created_answer; ReplyResponse ok_response] [clone_request]).
Proof.
  apply (simple_clone_tolerates_only_an_existing_repository scripted
           "https://example.com/org/myrepo.git" "myrepo" "6IT" (VStr "src/") VNone false
           "SOURCE" "GITHUB"
           (start [ReplyRaise (HTTPRequestError (json_response (VDict not_exists_body)));
                   ReplyJson created_answer;
                   ReplyResponse ok_response])
           (HTTPRequestError (json_response (VDict not_exists_body)))
           (GCTSRepoNotExistsError
              (VDict [(VStr "exception", VStr "Repository does not exist")]))
           [ReplyJson created_answer; ReplyResponse ok_response]).
  - reflexivity.
  - reflexivity.
  - right. intros messages H. discriminate H.
Defined.

(** ** Errors whose body cannot be read *)

(** X28.  When a transport error is declared as JSON and its body does
    not parse, or parses to something that is not an object, the
    normaliser itself raises: the decorated helper raises [ValueError],
    respectively [AttributeError], in place of the transport error, and
    leaves behind what the call has left. *)
Theorem unreadable_error_body_hides_the_transport_error
    {S A : Type} (func : M S A) (s s' : S) (response : Response) :
  func s = (Raise (HTTPRequestError response), s') ->
  is_json response = true ->
  match json_body response with
  | None => _http_to_gcts_error func s = (Raise ValueError, s')
  | Some (VDict _) => True
  | Some _ => _http_to_gcts_error func s = (Raise AttributeError, s')
  end.
Proof.
  intros Hfunc Hjson. unfold _http_to_gcts_error, try_except. rewrite Hfunc.
  unfold bind, liftR, raise, exception_from_http_error.
  fold (is_json response). rewrite Hjson. cbn [negb]. unfold response_json.
  destruct (json_body response) as [[| | | | |d]|]; first [exact I|reflexivity].
Qed.

Lemma unreadable_error_body_hides_the_transport_error_witness :
  Repository.pull
    (proxy scripted "myrepo" develop_snapshot,
     start [ReplyRaise (HTTPRequestError broken_json_response)])
  = (Raise ValueError,
     (proxy scripted "myrepo" develop_snapshot,
      answered [] [GetJson "repository/myrepo/pullByCommit"])) /\
  _http_to_gcts_error
    (Connection.call_get_json scripted "repository/myrepo/pullByCommit")
    (start [ReplyRaise (HTTPRequestError broken_json_response)])
  = (Raise ValueError, answered [] [GetJson "repository/myrepo/pullByCommit"]).
Proof.
  split; [reflexivity|].
  exact (unreadable_error_body_hides_the_transport_error
           (Connection.call_get_json scripted "repository/myrepo/pullByCommit")
           (start [ReplyRaise (HTTPRequestError broken_json_response)])
           (answered [] [GetJson "repository/myrepo/pullByCommit"])
           broken_json_response eq_refl eq_refl).
Defined.
